(** * SparkFun ATECCX08A driver: wake / command / response protocol

    A shallow embedding of [SparkFun_ATECCX08a_Arduino_Library.cpp] and the
    properties of its packet framing, checksum and chunked bus reads.

    Machine integers are [Z] with the wrap-around of the C type written out
    ([u8], [u16], [sint]).  The object's byte arrays are lists whose length is
    the declared size of the array; an access outside the array is undefined
    behaviour in C and is the outcome [OutOfBounds] here.  The two-wire bus,
    the delays and the serial console are external: every call the driver
    makes on them is appended to a trace, and the bytes the bus hands back
    come from a script of slave answers. *)

From Stdlib Require Import ZArith Bool Lia String.
From stdpp Require Import base list.

Local Open Scope Z_scope.

(** ** Machine integers *)

Definition u8 (x : Z) : Z := x mod 256.
Definition u16 (x : Z) : Z := x mod 65536.

(** Conversion to a signed integer of [w] bits (two's complement wrap). *)
Definition sint (w : Z) (x : Z) : Z := (x + 2 ^ (w - 1)) mod 2 ^ w - 2 ^ (w - 1).

Definition is_byte (x : Z) : Prop := 0 <= x < 256.

(** ** Outcomes of a call *)

Inductive result (A : Type) : Type :=
| Ok (a : A)
| OutOfBounds   (* an array was indexed outside its declared size *)
| Hang.         (* a loop of the driver never exits *)
Arguments Ok {A} a.
Arguments OutOfBounds {A}.
Arguments Hang {A}.

(** ** External calls, in the order the driver makes them *)

Inductive event : Type :=
| BeginTransmission (addr : Z)
| WireWrite (bytes : list Z)
| EndTransmission
| RequestFrom (addr : Z) (quantity : Z)
| DelayMicroseconds (us : Z)
| Delay (ms : Z)
| SerialPrint (msg : string)
| SerialPrintHex (v : Z)
| SerialPrintln (msg : string)
| SerialPrintlnHex (v : Z).

(** ** The driver object and its environment

    The class is declared in the header file, which is not among the
    sources; the fields are those the member functions use.  The size of
    [inputBuffer] is whatever the declaration gives it, here the length of
    the list, and [sizeof(random32Bytes)] likewise (the loop of
    [updateRandom32Bytes] writes 32 elements; the properties ask for that
    length where they need it).  [countGlobal] is kept in one byte; every
    property below is about counts under 256, where a wider counter does the
    same. *)

Record ATECCX08A : Type := mkATECCX08A {
  _i2caddr : Z;
  inputBuffer : list Z;      (* byte inputBuffer[...]: messages received from the IC *)
  random32Bytes : list Z;    (* byte random32Bytes[32] *)
  crc : Z * Z;               (* uint8_t crc[2], as (crc[0], crc[1]) *)
  countGlobal : Z;           (* uint8_t countGlobal *)
  (* the environment seen through _i2cPort, delay and Serial *)
  rxBuffer : list Z;         (* bytes of the last requestFrom not yet read *)
  slave : list (list Z);     (* what the slave answers to the coming read requests *)
  trace : list event
}.

Definition set_inputBuffer (v : list Z) (s : ATECCX08A) : ATECCX08A :=
  mkATECCX08A (_i2caddr s) v (random32Bytes s) (crc s) (countGlobal s)
              (rxBuffer s) (slave s) (trace s).
Definition set_random32Bytes (v : list Z) (s : ATECCX08A) : ATECCX08A :=
  mkATECCX08A (_i2caddr s) (inputBuffer s) v (crc s) (countGlobal s)
              (rxBuffer s) (slave s) (trace s).
Definition set_crc (v : Z * Z) (s : ATECCX08A) : ATECCX08A :=
  mkATECCX08A (_i2caddr s) (inputBuffer s) (random32Bytes s) v (countGlobal s)
              (rxBuffer s) (slave s) (trace s).
Definition set_countGlobal (v : Z) (s : ATECCX08A) : ATECCX08A :=
  mkATECCX08A (_i2caddr s) (inputBuffer s) (random32Bytes s) (crc s) v
              (rxBuffer s) (slave s) (trace s).
Definition set_rxBuffer (v : list Z) (s : ATECCX08A) : ATECCX08A :=
  mkATECCX08A (_i2caddr s) (inputBuffer s) (random32Bytes s) (crc s) (countGlobal s)
              v (slave s) (trace s).
Definition set_slave (v : list (list Z)) (s : ATECCX08A) : ATECCX08A :=
  mkATECCX08A (_i2caddr s) (inputBuffer s) (random32Bytes s) (crc s) (countGlobal s)
              (rxBuffer s) v (trace s).
Definition set_i2caddr (v : Z) (s : ATECCX08A) : ATECCX08A :=
  mkATECCX08A v (inputBuffer s) (random32Bytes s) (crc s) (countGlobal s)
              (rxBuffer s) (slave s) (trace s).
Definition emit (e : event) (s : ATECCX08A) : ATECCX08A :=
  mkATECCX08A (_i2caddr s) (inputBuffer s) (random32Bytes s) (crc s) (countGlobal s)
              (rxBuffer s) (slave s) (trace s ++ [e]).

(** ** A state and error monad for the member functions *)

Definition M (A : Type) : Type := ATECCX08A -> result (A * ATECCX08A).

Definition ret {A} (a : A) : M A := fun s => Ok (a, s).
Definition bind {A B} (m : M A) (k : A -> M B) : M B :=
  fun s => match m s with
           | Ok (a, s') => k a s'
           | OutOfBounds => OutOfBounds
           | Hang => Hang
           end.
Definition get {A} (f : ATECCX08A -> A) : M A := fun s => Ok (f s, s).
Definition modify (f : ATECCX08A -> ATECCX08A) : M unit := fun s => Ok (tt, f s).
Definition fail_oob {A} : M A := fun _ => OutOfBounds.
Definition when (c : bool) (m : M unit) : M unit := if c then m else ret tt.

Notation "x <- c ;; k" := (bind c (fun x => k))
  (at level 100, c at next level, right associativity).
Notation "c ;;; k" := (bind c (fun _ => k))
  (at level 100, right associativity).

(** Array element read and write; [None] outside the array. *)
Definition rd (a : list Z) (i : Z) : option Z :=
  if 0 <=? i then a !! Z.to_nat i else None.
Definition wr (a : list Z) (i : Z) (v : Z) : option (list Z) :=
  if (0 <=? i) && (i <? Z.of_nat (length a)) then Some (<[Z.to_nat i := v]> a) else None.

Definition lift {A} (o : option A) : M A :=
  match o with Some a => ret a | None => fail_oob end.

(** ** atca_calculate_crc *)

Definition polynom : Z := 0x8005.

(** The body of the bit loop: one data bit against the register. *)
Definition crc_bit_body (byte shift_register crc_register : Z) : Z :=
  let data_bit := if Z.land byte shift_register =? 0 then 0 else 1 in
  let crc_bit := Z.shiftr crc_register 15 in
  let crc_register := u16 (Z.shiftl crc_register 1) in
  if negb (data_bit =? crc_bit) then Z.lxor crc_register polynom else crc_register.

(** [for (shift_register = 0x01; shift_register > 0x00; shift_register <<= 1)],
    [shift_register] a [uint8_t].  [fuel] bounds the number of tests of the
    loop condition. *)
Fixpoint crc_bit_loop (fuel : nat) (byte shift_register crc_register : Z) : result Z :=
  match fuel with
  | O => Hang
  | S fuel =>
      if shift_register >? 0 then
        crc_bit_loop fuel byte (u8 (Z.shiftl shift_register 1))
                     (crc_bit_body byte shift_register crc_register)
      else Ok crc_register
  end.

(** [for (counter = 0; counter < length; counter++)], [counter] a [uint8_t]. *)
Fixpoint crc_byte_loop (fuel : nat) (counter length : Z) (data : list Z)
                       (crc_register : Z) : result Z :=
  match fuel with
  | O => Hang
  | S fuel =>
      if counter <? length then
        match rd data counter with
        | None => OutOfBounds
        | Some byte =>
            match crc_bit_loop 9 byte 0x01 crc_register with
            | Ok r => crc_byte_loop fuel (u8 (counter + 1)) length data r
            | OutOfBounds => OutOfBounds
            | Hang => Hang
            end
        end
      else Ok crc_register
  end.

(** [length] is the [uint8_t] argument; [data] is the array passed by pointer. *)
Definition atca_calculate_crc (length : Z) (data : list Z) : M unit :=
  fun s =>
    match crc_byte_loop 257 0 length data 0 with
    | Ok crc_register =>
        Ok (tt, set_crc (u8 (Z.land crc_register 0x00FF), u8 (Z.shiftr crc_register 8)) s)
    | OutOfBounds => OutOfBounds
    | Hang => Hang
    end.

(** ** Counted loops: [for (int i = 0; i < n; i++) body(i)] *)

Fixpoint for_range (n : nat) (i : Z) (body : Z -> M unit) : M unit :=
  match n with
  | O => ret tt
  | S n => body i ;;; for_range n (i + 1) body
  end.

Definition for_upto (n : Z) (body : Z -> M unit) : M unit :=
  for_range (Z.to_nat n) 0 body.

(** ** cleanInputBuffer *)

Definition cleanInputBuffer : M unit :=
  size <- get (fun s => Z.of_nat (length (inputBuffer s))) ;;   (* sizeof(inputBuffer) *)
  for_upto size (fun i =>
    buf <- get inputBuffer ;;
    buf <- lift (wr buf i 0) ;;
    modify (set_inputBuffer buf)).

(** ** receiveResponseData *)

(** [while (_i2cPort->available())]: one turn per byte still in the receive
    buffer of the bus. *)
Fixpoint drain (rx : list Z) (length : Z) : M Z :=
  match rx with
  | [] => ret length
  | b :: rx =>
      modify (set_rxBuffer rx) ;;;                       (* _i2cPort->read() *)
      buf <- get inputBuffer ;;
      cg <- get countGlobal ;;
      buf <- lift (wr buf cg (u8 b)) ;;
      modify (set_inputBuffer buf) ;;;
      let length := u8 (length - 1) in
      modify (set_countGlobal (u8 (cg + 1))) ;;;
      drain rx length
  end.

(** [while (length)].  Each turn takes the next answer of the slave, cut to
    the requested amount.  Once the slave has no answer left every further
    request returns no byte, [length] stays as it is and the loop never
    exits. *)
Fixpoint receive_loop (script : list (list Z)) (length : Z) : M unit :=
  if length =? 0 then ret tt
  else
    match script with
    | [] => fun _ => Hang
    | answer :: script =>
        let requestAmount := if length >? 32 then 32 else length in
        addr <- get _i2caddr ;;
        modify (emit (RequestFrom addr requestAmount)) ;;;
        modify (set_slave script) ;;;
        let rx := take (Z.to_nat requestAmount) answer in
        modify (set_rxBuffer rx) ;;;
        length <- drain rx length ;;
        receive_loop script length
    end.

(** The statements under [if(debug)]. *)
Definition print_inputBuffer : M unit :=
  modify (emit (SerialPrint "inputBuffer: ")) ;;;
  cg <- get countGlobal ;;
  for_upto cg (fun i =>
    buf <- get inputBuffer ;;
    b <- lift (rd buf i) ;;
    modify (emit (SerialPrintHex b)) ;;;
    modify (emit (SerialPrint ","))) ;;;
  modify (emit (SerialPrintln "")).

Definition receiveResponseData (length : Z) (debug : bool) : M bool :=
  modify (set_countGlobal 0) ;;;
  cleanInputBuffer ;;;
  script <- get slave ;;
  receive_loop script length ;;;
  when debug print_inputBuffer ;;;
  ret true.

(** ** checkCount *)

Definition checkCount (debug : bool) : M bool :=
  when debug (
    cg <- get countGlobal ;;
    buf <- get inputBuffer ;;
    modify (emit (SerialPrint "countGlobal: 0x")) ;;;
    modify (emit (SerialPrintlnHex cg)) ;;;
    modify (emit (SerialPrint "count heard from IC (inpuBuffer[0]): 0x")) ;;;
    b <- lift (rd buf 0) ;;
    modify (emit (SerialPrintlnHex b))) ;;;
  buf <- get inputBuffer ;;
  cg <- get countGlobal ;;
  b <- lift (rd buf 0) ;;
  if negb (b =? cg) then
    modify (emit (SerialPrintln "Message Count Error")) ;;;
    ret false
  else ret true.

(** ** checkCrc *)

Definition checkCrc (debug : bool) : M bool :=
  cg <- get countGlobal ;;
  buf <- get inputBuffer ;;
  atca_calculate_crc (u8 (cg - 2)) buf ;;;
  when debug (
    c <- get crc ;;
    modify (emit (SerialPrint "CRC[0] Calc: 0x")) ;;;
    modify (emit (SerialPrintlnHex (fst c))) ;;;
    modify (emit (SerialPrint "CRC[1] Calc: 0x")) ;;;
    modify (emit (SerialPrintlnHex (snd c)))) ;;;
  c <- get crc ;;
  hi <- lift (rd buf (cg - 1)) ;;
  mismatch <- (if negb (hi =? snd c) then ret true      (* || does not evaluate its right side *)
               else lo <- lift (rd buf (cg - 2)) ;; ret (negb (lo =? fst c))) ;;
  if mismatch : bool then
    modify (emit (SerialPrintln "Message CRC Error")) ;;;
    ret false
  else ret true.

(** ** wakeUp *)

(** Arguments left out at a call take the default of the declaration
    ([debug] off).  The statement run when [receiveResponseData] answers
    false is the argument [on_receive_false]; the function of the source is
    the instance [ret false]. *)
Definition wakeUp_with (on_receive_false : M bool) : M bool :=
  modify (emit (BeginTransmission 0x00)) ;;;
  modify (emit EndTransmission) ;;;
  modify (emit (DelayMicroseconds 1500)) ;;;
  modify (set_countGlobal 0) ;;;
  r <- receiveResponseData 4 false ;;
  if negb r then on_receive_false else
  r <- checkCount false ;;
  if negb r then ret false else
  r <- checkCrc false ;;
  if negb r then ret false else
  buf <- get inputBuffer ;;
  b <- lift (rd buf 1) ;;
  if b =? 0x11 then ret true else ret false.

Definition wakeUp : M bool := wakeUp_with (ret false).

(** ** begin

    The port the caller passes is the environment of the model. *)
Definition begin (i2caddr : Z) : M bool :=
  modify (set_i2caddr i2caddr) ;;;
  wakeUp.

Section Header.

(** The macros of the header file, which is not among the sources, and the
    widths of [int] and [long] on the target (16 and 32 bits on an
    ATmega328, 32 and 32 on a Teensy 3.6). *)
Variable WORD_ADDRESS_VALUE_COMMAND : Z.
Variable WORD_ADDRESS_VALUE_IDLE : Z.
Variable COMMAND_OPCODE_INFO : Z.
Variable COMMAND_OPCODE_RANDOM : Z.
Variable INT_BITS : Z.
Variable LONG_BITS : Z.

(** ** idleMode *)

Definition idleMode : M unit :=
  addr <- get _i2caddr ;;
  modify (emit (BeginTransmission addr)) ;;;
  modify (emit (WireWrite [WORD_ADDRESS_VALUE_IDLE])) ;;;
  modify (emit EndTransmission).

(** ** getInfo *)

Definition getInfo_with (on_receive_false : M bool) : M bool :=
  let count := 0x07 in
  let command := COMMAND_OPCODE_INFO in
  let param1 := 0x00 in
  let param2a := 0x00 in
  let param2b := 0x00 in
  let packet_to_CRC := [count; command; param1; param2a; param2b] in
  atca_calculate_crc (u8 (count - 2)) packet_to_CRC ;;;
  c <- get crc ;;
  let complete_message :=
    [WORD_ADDRESS_VALUE_COMMAND; count; command; param1; param2a; param2b; fst c; snd c; 0] in
  wakeUp ;;;
  addr <- get _i2caddr ;;
  modify (emit (BeginTransmission addr)) ;;;
  modify (emit (WireWrite (take 8 complete_message))) ;;;
  modify (emit EndTransmission) ;;;
  modify (emit (Delay 1)) ;;;
  modify (set_countGlobal 0) ;;;
  r <- receiveResponseData 7 true ;;
  if negb r then on_receive_false else
  idleMode ;;;
  r <- checkCount false ;;
  if negb r then ret false else
  r <- checkCrc false ;;
  if negb r then ret false else
  buf <- get inputBuffer ;;
  b <- lift (rd buf 3) ;;
  if b =? 0x50 then ret true else ret false.

Definition getInfo : M bool := getInfo_with (ret false).

(** ** updateRandom32Bytes *)

(** The statements under [if(debug)]; the bound of the loop is
    [sizeof(random32Bytes)]. *)
Definition print_random32Bytes : M unit :=
  modify (emit (SerialPrint "random32Bytes: ")) ;;;
  size <- get (fun s => Z.of_nat (length (random32Bytes s))) ;;
  for_upto size (fun i =>
    rnd <- get random32Bytes ;;
    b <- lift (rd rnd i) ;;
    modify (emit (SerialPrintHex b)) ;;;
    modify (emit (SerialPrint ","))) ;;;
  modify (emit (SerialPrintln "")).

Definition updateRandom32Bytes_with (on_receive_false : M bool) (debug : bool) : M bool :=
  let count := 0x07 in
  let command := COMMAND_OPCODE_RANDOM in
  let param1 := 0x00 in
  let param2a := 0x00 in
  let param2b := 0x00 in
  let packet_to_CRC := [count; command; param1; param2a; param2b] in
  atca_calculate_crc (u8 (count - 2)) packet_to_CRC ;;;
  c <- get crc ;;
  let complete_message :=
    [WORD_ADDRESS_VALUE_COMMAND; count; command; param1; param2a; param2b; fst c; snd c; 0] in
  wakeUp ;;;
  addr <- get _i2caddr ;;
  modify (emit (BeginTransmission addr)) ;;;
  modify (emit (WireWrite (take 8 complete_message))) ;;;
  modify (emit EndTransmission) ;;;
  modify (emit (Delay 23)) ;;;
  r <- receiveResponseData 35 debug ;;
  if negb r then on_receive_false else
  idleMode ;;;
  r <- checkCount debug ;;
  if negb r then ret false else
  r <- checkCrc debug ;;
  if negb r then ret false else
  for_upto 32 (fun i =>
    buf <- get inputBuffer ;;
    rnd <- get random32Bytes ;;
    b <- lift (rd buf (i + 1)) ;;
    rnd <- lift (wr rnd i b) ;;
    modify (set_random32Bytes rnd)) ;;;
  when debug print_random32Bytes ;;;
  ret true.

Definition updateRandom32Bytes (debug : bool) : M bool :=
  updateRandom32Bytes_with (ret false) debug.

(** ** getRandomByte, getRandomInt, getRandomLong *)

Definition getRandomByte (debug : bool) : M Z :=
  updateRandom32Bytes debug ;;;
  rnd <- get random32Bytes ;;
  lift (rd rnd 0).

(** [return_val <<= 8] on a signed [return_val]: the bits that do not fit
    are dropped and the result is read as a signed number. *)
Definition getRandomInt (debug : bool) : M Z :=
  updateRandom32Bytes debug ;;;
  rnd <- get random32Bytes ;;
  b0 <- lift (rd rnd 0) ;;
  let return_val := b0 in
  let return_val := sint INT_BITS (Z.shiftl return_val 8) in
  b1 <- lift (rd rnd 1) ;;
  let return_val := Z.lor return_val b1 in
  ret return_val.

Definition getRandomLong (debug : bool) : M Z :=
  updateRandom32Bytes debug ;;;
  rnd <- get random32Bytes ;;
  b0 <- lift (rd rnd 0) ;;
  let return_val := b0 in
  let return_val := sint LONG_BITS (Z.shiftl return_val 8) in
  b1 <- lift (rd rnd 1) ;;
  let return_val := Z.lor return_val b1 in
  let return_val := sint LONG_BITS (Z.shiftl return_val 8) in
  b2 <- lift (rd rnd 2) ;;
  let return_val := Z.lor return_val b2 in
  let return_val := sint LONG_BITS (Z.shiftl return_val 8) in
  b3 <- lift (rd rnd 3) ;;
  let return_val := Z.lor return_val b3 in
  ret return_val.

(** * Notions of the specification *)

(** ** The checksum as the specification words it

    A 16-bit register starting at 0; the bits of each byte, least
    significant first; each bit is compared with the top bit of the register,
    the register is shifted left by one and XORed with 0x8005 when the two
    bits differ; the result is the low byte, then the high byte. *)

Definition crc_step_spec (register : Z) (data_bit : bool) : Z :=
  let top_bit := Z.testbit register 15 in
  let shifted := (2 * register) mod 2 ^ 16 in
  if xorb data_bit top_bit then Z.lxor shifted 0x8005 else shifted.

Definition bits_lsb_first (byte : Z) : list bool :=
  Z.testbit byte <$> [0; 1; 2; 3; 4; 5; 6; 7].

Definition crc_register_spec (bytes : list Z) : Z :=
  fold_left crc_step_spec (bytes ≫= bits_lsb_first) 0.

Definition crc_spec (bytes : list Z) : Z * Z :=
  let register := crc_register_spec bytes in
  (register mod 256, register / 256).

(** ** The bus

    The slave keeps answering until [len] bytes have been handed over: the
    condition under which the reception loop comes to an end. *)
Fixpoint delivers (script : list (list Z)) (len : Z) : bool :=
  if len =? 0 then true
  else
    match script with
    | [] => false
    | answer :: script =>
        let requestAmount := if len >? 32 then 32 else len in
        delivers script (len - Z.of_nat (length (take (Z.to_nat requestAmount) answer)))
    end.

(** The answers the slave still holds after such a reception. *)
Fixpoint answers_left (script : list (list Z)) (len : Z) : list (list Z) :=
  if len =? 0 then script
  else
    match script with
    | [] => []
    | answer :: script =>
        let requestAmount := if len >? 32 then 32 else len in
        answers_left script (len - Z.of_nat (length (take (Z.to_nat requestAmount) answer)))
    end.

(** Console output, as opposed to traffic on the bus and delays. *)
Definition is_serial (e : event) : bool :=
  match e with
  | SerialPrint _ | SerialPrintHex _ | SerialPrintln _ | SerialPrintlnHex _ => true
  | _ => false
  end.

Definition serial_only (evs : list event) : Prop := Forall (fun e => is_serial e = true) evs.

(** ** The object and its traffic *)

(** The object after some more external calls. *)
Definition emits (evs : list event) (s : ATECCX08A) : ATECCX08A :=
  mkATECCX08A (_i2caddr s) (inputBuffer s) (random32Bytes s) (crc s) (countGlobal s)
              (rxBuffer s) (slave s) (trace s ++ evs).

(** The fields of the object that reception and validation never touch. *)
Definition frame (s s' : ATECCX08A) : Prop :=
  _i2caddr s' = _i2caddr s /\ random32Bytes s' = random32Bytes s.

(** What each request hands over: the slave's answer cut to the amount
    requested. *)
Definition chunks_of (reqs : list Z) (answers : list (list Z)) : list (list Z) :=
  zip_with (fun q a => take (Z.to_nat q) a) reqs answers.

(** The requests of one reception, against the bytes still to come. *)
Fixpoint requests_ok (remaining : Z) (reqs : list Z) (chunks : list (list Z)) : Prop :=
  match reqs, chunks with
  | [], [] => remaining = 0
  | q :: reqs, c :: chunks =>
      remaining <> 0 /\ q = (if remaining >? 32 then 32 else remaining) /\
      Z.of_nat (length c) <= q /\
      requests_ok (remaining - Z.of_nat (length c)) reqs chunks
  | _, _ => False
  end.

(** Bit [j] of byte [i] of a buffer inverted. *)
Definition flip_bit (i j : Z) (buf : list Z) : list Z :=
  alter (fun x => Z.lxor x (2 ^ j)) (Z.to_nat i) buf.

(** The three checks of [wakeUp] on the acknowledgement [a0 a1 a2 a3]. *)
Definition wake_ok (a0 a1 a2 a3 : Z) : bool :=
  (a0 =? 4) && ((a3 =? snd (crc_spec [a0; a1])) && (a2 =? fst (crc_spec [a0; a1]))) &&
  (a1 =? 0x11).

(** The two checks of the random fetch on the 35-byte response. *)
Definition fetch_ok (response : list Z) : bool :=
  match rd response 0, rd response 33, rd response 34 with
  | Some count, Some lo, Some hi =>
      (count =? 35) &&
      ((hi =? snd (crc_spec (take 33 response))) && (lo =? fst (crc_spec (take 33 response))))
  | _, _, _ => false
  end.

(** The packet [updateRandom32Bytes] writes: word address, count, opcode,
    three zero parameter bytes, checksum of the five bytes from the count. *)
Definition random_packet : list Z :=
  let c := crc_spec [7; COMMAND_OPCODE_RANDOM; 0; 0; 0] in
  [WORD_ADDRESS_VALUE_COMMAND; 7; COMMAND_OPCODE_RANDOM; 0; 0; 0; fst c; snd c].

(** Two and four bytes as a big-endian number. *)
Definition be16 (b0 b1 : Z) : Z := b0 * 256 + b1.
Definition be32 (b0 b1 b2 b3 : Z) : Z := ((b0 * 256 + b1) * 256 + b2) * 256 + b3.

(** ** Sample objects

    An object on bus address 0x60 with a 128-byte input buffer, before any
    traffic, in front of a slave that will give the listed answers. *)

Definition sample_object (answers : list (list Z)) : ATECCX08A :=
  mkATECCX08A 0x60 (replicate 128 0) (replicate 32 0) (0, 0) 0 [] answers [].

(** The acknowledgement of a wake-up. *)
Definition wake_ack : list Z := [0x04; 0x11; 0x33; 0x43].

(** A response to the Random command: count, 32 data bytes, checksum. *)
Definition sample_random_data : list Z :=
  [0xDE; 0xAD; 0xBE; 0xEF] ++ (Z.of_nat <$> seq 4 28).

Definition sample_random_response : list Z :=
  let counted := 35 :: sample_random_data in
  counted ++ [fst (crc_spec counted); snd (crc_spec counted)].

(** The slave answers the wake-up, then the two reads of the fetch. *)
Definition fetching_object (response : list Z) : ATECCX08A :=
  sample_object [wake_ack; take 32 response; drop 32 response].

(** The object once the acknowledgement has been received. *)
Definition acknowledged_object : ATECCX08A :=
  mkATECCX08A 0x60 (wake_ack ++ replicate 124 0) (replicate 32 0) (0, 0) 4 [] [] [].

(** The object a call leaves behind. *)
Definition state_after {A} (r : result (A * ATECCX08A)) (s : ATECCX08A) : ATECCX08A :=
  match r with Ok (_, s') => s' | _ => s end.

(** ** The Info command and further notions *)

(** The packet [getInfo] writes: word address, count, opcode, three zero
    parameter bytes, checksum of the five bytes from the count. *)
Definition info_packet : list Z :=
  let c := crc_spec [7; COMMAND_OPCODE_INFO; 0; 0; 0] in
  [WORD_ADDRESS_VALUE_COMMAND; 7; COMMAND_OPCODE_INFO; 0; 0; 0; fst c; snd c].

(** The three checks of [getInfo] on the 7-byte response. *)
Definition info_ok (response : list Z) : bool :=
  match rd response 0, rd response 3, rd response 5, rd response 6 with
  | Some count, Some revision, Some lo, Some hi =>
      (count =? 7) &&
      ((hi =? snd (crc_spec (take 5 response))) && (lo =? fst (crc_spec (take 5 response)))) &&
      (revision =? 0x50)
  | _, _, _, _ => false
  end.

(** The requests of a reception of [len] bytes from a slave that fills every
    request: reads of 32 bytes, then one of what is left. *)
Definition full_requests (len : Z) : list Z :=
  replicate (Z.to_nat (len / 32)) 32 ++ (if len mod 32 =? 0 then [] else [len mod 32]).

(** Two buffers XORed byte by byte. *)
Definition xor_bytes (a b : list Z) : list Z := zip_with Z.lxor a b.

(** A response to the Info command: count, four data bytes, checksum. *)
Definition sample_info_response : list Z :=
  let counted := [0x07; 0x00; 0x00; 0x50; 0x00] in
  counted ++ [fst (crc_spec counted); snd (crc_spec counted)].

(** An object whose input buffer holds only 16 bytes. *)
Definition short_buffer_object (answers : list (list Z)) : ATECCX08A :=
  mkATECCX08A 0x60 (replicate 16 0) (replicate 32 0) (0, 0) 0 [] answers [].

(** ** The register on zero bits

    [k] steps of the register on data bits that are zero. *)
Fixpoint zero_steps (k : nat) (register : Z) : Z :=
  match k with
  | O => register
  | S k => zero_steps k (crc_step_spec register false)
  end.

(** The register once a single one bit has entered it. *)
Definition unit_register : Z := crc_step_spec 0 true.

(** A number with exactly one bit set. *)
Definition single_bit (r : Z) : bool := (0 <? r) && (Z.land r (r - 1) =? 0).

(** Over [k] further zero bits the register neither holds a single bit nor
    comes back to [unit_register]. *)
Fixpoint orbit_clear (k : nat) (register : Z) : bool :=
  match k with
  | O => true
  | S k =>
      negb (single_bit register) &&
      negb (crc_step_spec register false =? unit_register) &&
      orbit_clear k (crc_step_spec register false)
  end.

(** What one flipped bit, bit [j] of byte [i] of a response of [count]
    bytes, contributes to the comparison of [checkCrc]: the register it
    leaves when it lies in the bytes the checksum covers, its own place in
    the two trailing bytes otherwise. *)
Definition syndrome (count i j : Z) : Z :=
  if i <? count - 2 then
    zero_steps (Z.to_nat (8 * (count - 3 - i) + (7 - j))) unit_register
  else if i =? count - 2 then 2 ^ j
  else 2 ^ (8 + j).

(** ** A reception as a function of the slave's script

    The amounts a reception of [len] bytes requests and the bytes it takes,
    when the slave delivers. *)
Fixpoint requests (script : list (list Z)) (len : Z) : list Z :=
  if len =? 0 then []
  else
    match script with
    | [] => []
    | answer :: script =>
        let requestAmount := if len >? 32 then 32 else len in
        requestAmount ::
        requests script (len - Z.of_nat (length (take (Z.to_nat requestAmount) answer)))
    end.

Fixpoint received (script : list (list Z)) (len : Z) : list Z :=
  if len =? 0 then []
  else
    match script with
    | [] => []
    | answer :: script =>
        let requestAmount := if len >? 32 then 32 else len in
        take (Z.to_nat requestAmount) answer ++
        received script (len - Z.of_nat (length (take (Z.to_nat requestAmount) answer)))
    end.

(** The calls on the bus and the delays in a trace, without the console
    output. *)
Definition bus_events (evs : list event) : list event :=
  List.filter (fun e => negb (is_serial e)) evs.


(** * Properties *)

(** ** Bit-level facts *)

Lemma land_pow2_eqb (x k : Z) :
  0 <= k -> (Z.land x (2 ^ k) =? 0) = negb (Z.testbit x k).
Proof.
  intros Hk. destruct (Z.testbit x k) eqn:E; simpl.
  - apply Z.eqb_neq. intros H0.
    assert (Hb : Z.testbit (Z.land x (2 ^ k)) k = true)
      by (rewrite Z.land_spec, E, Z.pow2_bits_true by lia; reflexivity).
    rewrite H0, Z.bits_0 in Hb. discriminate.
  - apply Z.eqb_eq. apply Z.bits_inj'. intros n Hn.
    rewrite Z.land_spec, Z.bits_0, Z.pow2_bits_eqb by lia.
    destruct (Z.eqb_spec k n) as [->|]; [rewrite E|]; apply andb_false_r || reflexivity.
Qed.

Lemma lxor_u16_range (a b : Z) :
  0 <= a < 65536 -> 0 <= b < 65536 -> 0 <= Z.lxor a b < 65536.
Proof.
  intros Ha Hb.
  assert (H0 : 0 <= Z.lxor a b) by (apply Z.lxor_nonneg; lia).
  split; [exact H0|].
  destruct (Z.eq_dec (Z.lxor a b) 0) as [->|Hne]; [lia|].
  change 65536 with (2 ^ 16). apply Z.log2_lt_pow2; [lia|].
  eapply Z.le_lt_trans; [apply Z.log2_lxor; lia|].
  apply Z.max_lub_lt.
  - destruct (Z.eq_dec a 0) as [->|]; [reflexivity|]. apply Z.log2_lt_pow2; lia.
  - destruct (Z.eq_dec b 0) as [->|]; [reflexivity|]. apply Z.log2_lt_pow2; lia.
Qed.

Lemma crc_step_spec_range (r : Z) (b : bool) : 0 <= crc_step_spec r b < 65536.
Proof.
  unfold crc_step_spec.
  assert (H : 0 <= (2 * r) mod 2 ^ 16 < 65536) by (apply Z.mod_pos_bound; lia).
  destruct (xorb _ _); [apply lxor_u16_range; lia | exact H].
Qed.

Lemma testbit15_u16 (r : Z) : 0 <= r < 65536 -> Z.testbit r 15 = (32768 <=? r).
Proof.
  intros Hr. rewrite Z.testbit_odd, Z.shiftr_div_pow2 by lia.
  change (2 ^ 15) with 32768.
  destruct (Z.leb_spec 32768 r).
  - replace (r / 32768) with 1 by (apply Z.div_unique with (r - 32768); lia).
    reflexivity.
  - rewrite Z.div_small by lia. reflexivity.
Qed.

Lemma crc_bit_body_spec (byte k mask r : Z) :
  0 <= k -> mask = 2 ^ k -> 0 <= r < 65536 ->
  crc_bit_body byte mask r = crc_step_spec r (Z.testbit byte k).
Proof.
  intros Hk -> Hr. unfold crc_bit_body, crc_step_spec, u16, polynom.
  rewrite land_pow2_eqb by lia. rewrite testbit15_u16 by lia.
  rewrite Z.shiftl_mul_pow2, Z.shiftr_div_pow2 by lia.
  change (2 ^ 15) with 32768. change (2 ^ 16) with 65536. change (2 ^ 1) with 2.
  rewrite (Z.mul_comm r 2).
  destruct (Z.leb_spec 32768 r).
  - replace (r / 32768) with 1 by (apply Z.div_unique with (r - 32768); lia).
    destruct (Z.testbit byte k); reflexivity.
  - rewrite Z.div_small by lia. destruct (Z.testbit byte k); reflexivity.
Qed.

Lemma crc_bit_loop_unroll (byte r : Z) :
  crc_bit_loop 9 byte 1 r =
  Ok (crc_bit_body byte 128 (crc_bit_body byte 64 (crc_bit_body byte 32
     (crc_bit_body byte 16 (crc_bit_body byte 8 (crc_bit_body byte 4
     (crc_bit_body byte 2 (crc_bit_body byte 1 r)))))))).
Proof. reflexivity. Qed.

Lemma crc_bit_loop_spec (byte r : Z) :
  0 <= r < 65536 ->
  crc_bit_loop 9 byte 1 r = Ok (fold_left crc_step_spec (bits_lsb_first byte) r).
Proof.
  intros Hr. rewrite crc_bit_loop_unroll. unfold bits_lsb_first.
  cbn [fold_left fmap list_fmap].
  rewrite (crc_bit_body_spec byte 0 1 r) by (reflexivity || lia).
  rewrite (crc_bit_body_spec byte 1 2) by (reflexivity || auto using crc_step_spec_range with lia).
  rewrite (crc_bit_body_spec byte 2 4) by (reflexivity || auto using crc_step_spec_range with lia).
  rewrite (crc_bit_body_spec byte 3 8) by (reflexivity || auto using crc_step_spec_range with lia).
  rewrite (crc_bit_body_spec byte 4 16) by (reflexivity || auto using crc_step_spec_range with lia).
  rewrite (crc_bit_body_spec byte 5 32) by (reflexivity || auto using crc_step_spec_range with lia).
  rewrite (crc_bit_body_spec byte 6 64) by (reflexivity || auto using crc_step_spec_range with lia).
  rewrite (crc_bit_body_spec byte 7 128) by (reflexivity || auto using crc_step_spec_range with lia).
  reflexivity.
Qed.

Lemma fold_left_range (bits : list bool) (r : Z) :
  0 <= r < 65536 -> 0 <= fold_left crc_step_spec bits r < 65536.
Proof.
  revert r. induction bits as [|b bits IH]; intros r Hr; simpl; [exact Hr|].
  apply IH, crc_step_spec_range.
Qed.

Lemma rd_Some (a : list Z) (i : Z) :
  0 <= i < Z.of_nat (length a) -> exists x, rd a i = Some x /\ a !! Z.to_nat i = Some x.
Proof.
  intros Hi. unfold rd. destruct (Z.leb_spec 0 i); [|lia].
  destruct (lookup_lt_is_Some_2 a (Z.to_nat i)) as [x Hx]; [lia|]. eauto.
Qed.

Lemma rd_inv (a : list Z) (i x : Z) :
  rd a i = Some x -> 0 <= i < Z.of_nat (length a) /\ a !! Z.to_nat i = Some x.
Proof.
  unfold rd. destruct (Z.leb_spec 0 i); [|discriminate]. intros Hx.
  split; [|exact Hx]. apply lookup_lt_Some in Hx. lia.
Qed.

Lemma crc_byte_loop_S (fuel : nat) (counter length : Z) (data : list Z) (r : Z) :
  crc_byte_loop (S fuel) counter length data r =
  if counter <? length then
    match rd data counter with
    | None => OutOfBounds
    | Some byte =>
        match crc_bit_loop 9 byte 0x01 r with
        | Ok r => crc_byte_loop fuel (u8 (counter + 1)) length data r
        | OutOfBounds => OutOfBounds
        | Hang => Hang
        end
    end
  else Ok r.
Proof. reflexivity. Qed.

(** The byte loop, from [counter] up to [length], folds the specification's
    step over the bits of the bytes it visits. *)
Lemma crc_byte_loop_spec (n : nat) :
  forall (fuel : nat) (counter length : Z) (data : list Z) (r : Z),
    0 <= counter -> length = counter + Z.of_nat n -> length <= 255 ->
    length <= Z.of_nat (List.length data) -> (n < fuel)%nat -> 0 <= r < 65536 ->
    crc_byte_loop fuel counter length data r =
    Ok (fold_left crc_step_spec
          (take n (drop (Z.to_nat counter) data) ≫= bits_lsb_first) r).
Proof.
  induction n as [|n IH]; intros fuel counter len data r Hc Hlen H255 Hdata Hfuel Hr;
    (destruct fuel as [|fuel]; [lia|]); rewrite crc_byte_loop_S.
  - destruct (Z.ltb_spec counter len); [lia|]. reflexivity.
  - destruct (Z.ltb_spec counter len); [|lia].
    destruct (rd_Some data counter) as (byte & -> & Hbyte); [lia|].
    rewrite crc_bit_loop_spec by exact Hr.
    assert (Hu : u8 (counter + 1) = counter + 1) by (apply Z.mod_small; lia).
    rewrite Hu, (IH fuel (counter + 1) len data) by
      (try apply fold_left_range; lia || assumption).
    rewrite (drop_S _ _ _ Hbyte). replace (Z.to_nat (counter + 1)) with (S (Z.to_nat counter)) by lia.
    cbn [take]. rewrite bind_cons, fold_left_app. reflexivity.
Qed.

Lemma crc_pair_of_register (r : Z) :
  0 <= r < 65536 -> (u8 (Z.land r 0x00FF), u8 (Z.shiftr r 8)) = (r mod 256, r / 256).
Proof.
  intros Hr. unfold u8. f_equal.
  - change 255 with (Z.ones 8). rewrite Z.land_ones by lia.
    change (2 ^ 8) with 256. apply Z.mod_mod. lia.
  - rewrite Z.shiftr_div_pow2 by lia. change (2 ^ 8) with 256.
    apply Z.mod_small. split; [apply Z.div_pos; lia | apply Z.div_lt_upper_bound; lia].
Qed.

Lemma crc_register_spec_range (bytes : list Z) : 0 <= crc_register_spec bytes < 65536.
Proof. apply fold_left_range. lia. Qed.

(** [atca_calculate_crc] computes the specification's checksum of the first
    [length] bytes of [data]. *)
Lemma atca_calculate_crc_eq (length : Z) (data : list Z) (s : ATECCX08A) :
  0 <= length <= 255 -> length <= Z.of_nat (List.length data) ->
  atca_calculate_crc length data s =
  Ok (tt, set_crc (crc_spec (take (Z.to_nat length) data)) s).
Proof.
  intros Hl Hd. unfold atca_calculate_crc.
  rewrite (crc_byte_loop_spec (Z.to_nat length)) by lia.
  change (Z.to_nat 0) with 0%nat. rewrite drop_0.
  fold (crc_register_spec (take (Z.to_nat length) data)).
  rewrite crc_pair_of_register by apply crc_register_spec_range. reflexivity.
Qed.

(** ** The monad and the trace *)

Lemma emits_nil (s : ATECCX08A) : emits [] s = s.
Proof. destruct s. unfold emits. simpl. rewrite app_nil_r. reflexivity. Qed.

Lemma emits_emits (e1 e2 : list event) (s : ATECCX08A) :
  emits e2 (emits e1 s) = emits (e1 ++ e2) s.
Proof. unfold emits. simpl. rewrite app_assoc. reflexivity. Qed.

Lemma emit_emits1 (e : event) (s : ATECCX08A) : emit e s = emits [e] s.
Proof. reflexivity. Qed.

Lemma bind_bind {A B C} (m : M A) (k : A -> M B) (k' : B -> M C) (s : ATECCX08A) :
  bind (bind m k) k' s = bind m (fun a => bind (k a) k') s.
Proof. unfold bind. destruct (m s) as [[a s']| |]; reflexivity. Qed.

Lemma bind_ret {A B} (a : A) (k : A -> M B) (s : ATECCX08A) : bind (ret a) k s = k a s.
Proof. reflexivity. Qed.

Lemma bind_get {A B} (f : ATECCX08A -> A) (k : A -> M B) (s : ATECCX08A) :
  bind (get f) k s = k (f s) s.
Proof. reflexivity. Qed.

Lemma bind_modify {B} (f : ATECCX08A -> ATECCX08A) (k : unit -> M B) (s : ATECCX08A) :
  bind (modify f) k s = k tt (f s).
Proof. reflexivity. Qed.

Lemma bind_lift_Some {A B} (a : A) (k : A -> M B) (s : ATECCX08A) :
  bind (lift (Some a)) k s = k a s.
Proof. reflexivity. Qed.

Lemma bind_lift_None {A B} (k : A -> M B) (s : ATECCX08A) :
  bind (lift None) k s = OutOfBounds.
Proof. reflexivity. Qed.

Lemma bind_when_true {B} (m : M unit) (k : unit -> M B) (s : ATECCX08A) :
  bind (when true m) k s = bind m k s.
Proof. reflexivity. Qed.

Lemma bind_when_false {B} (m : M unit) (k : unit -> M B) (s : ATECCX08A) :
  bind (when false m) k s = k tt s.
Proof. reflexivity. Qed.

Lemma bind_Ok {A B} (m : M A) (k : A -> M B) (s s' : ATECCX08A) (a : A) :
  m s = Ok (a, s') -> bind m k s = k a s'.
Proof. intros H. unfold bind. rewrite H. reflexivity. Qed.

Lemma run_ret {A} (a : A) (s : ATECCX08A) : ret a s = Ok (a, s).
Proof. reflexivity. Qed.

Lemma run_modify (f : ATECCX08A -> ATECCX08A) (s : ATECCX08A) : modify f s = Ok (tt, f s).
Proof. reflexivity. Qed.

(** Runs the primitive steps at the head of a computation. *)
Ltac mstep :=
  first [ rewrite bind_bind | rewrite bind_ret | rewrite bind_get
        | rewrite bind_modify | rewrite bind_lift_Some | rewrite bind_lift_None
        | rewrite bind_when_true | rewrite bind_when_false
        | rewrite run_ret | rewrite run_modify ];
  cbv beta.
Ltac mrun := repeat mstep.

Ltac fields :=
  cbn [_i2caddr inputBuffer random32Bytes crc countGlobal rxBuffer slave trace
       set_inputBuffer set_random32Bytes set_crc set_countGlobal set_rxBuffer
       set_slave emit emits fst snd] in *.

Lemma serial_only_app (e1 e2 : list event) :
  serial_only e1 -> serial_only e2 -> serial_only (e1 ++ e2).
Proof. apply Forall_app_2. Qed.

Lemma serial_only_cons (e : event) (evs : list event) :
  is_serial e = true -> serial_only evs -> serial_only (e :: evs).
Proof. intros He Hevs. constructor; assumption. Qed.

Lemma serial_only_nil : serial_only [].
Proof. constructor. Qed.

Ltac serial :=
  repeat first [ assumption | apply serial_only_nil | apply serial_only_app
               | apply serial_only_cons; [reflexivity|] ].

Ltac mgo := repeat (progress (mrun; fields)).
Ltac trace_norm := rewrite ?emit_emits1, ?emits_emits.

(** ** checkCount and checkCrc *)

Lemma checkCount_eq (debug : bool) (s : ATECCX08A) (b0 : Z) :
  rd (inputBuffer s) 0 = Some b0 ->
  exists evs, checkCount debug s = Ok (b0 =? countGlobal s, emits evs s) /\
              serial_only evs.
Proof.
  intros Hb. unfold checkCount.
  destruct debug; mgo; rewrite Hb; mgo; try (rewrite Hb; mgo);
    destruct (b0 =? countGlobal s); cbn [negb]; mgo; trace_norm;
    try (eexists; split; [reflexivity | solve [serial]]);
    exists []; rewrite emits_nil; split; [reflexivity | serial].
Qed.

Lemma checkCrc_eq (debug : bool) (s : ATECCX08A) (lo hi : Z) :
  2 <= countGlobal s < 256 ->
  rd (inputBuffer s) (countGlobal s - 2) = Some lo ->
  rd (inputBuffer s) (countGlobal s - 1) = Some hi ->
  let c := crc_spec (take (Z.to_nat (countGlobal s - 2)) (inputBuffer s)) in
  exists evs,
    checkCrc debug s = Ok ((hi =? snd c) && (lo =? fst c), emits evs (set_crc c s)) /\
    serial_only evs.
Proof.
  intros Hcg Hlo Hhi c. unfold checkCrc. mgo.
  assert (Hu : u8 (countGlobal s - 2) = countGlobal s - 2) by (apply Z.mod_small; lia).
  apply rd_inv in Hlo as Hlo'. rewrite Hu.
  rewrite (bind_Ok _ _ _ _ _ (atca_calculate_crc_eq (countGlobal s - 2) (inputBuffer s) s
                                ltac:(lia) ltac:(lia))).
  fold c.
  destruct debug; mgo; rewrite Hhi; mgo;
    (destruct (hi =? snd c); cbn [negb andb]; mgo;
     [rewrite Hlo; mgo; destruct (lo =? fst c); cbn [negb]; mgo|]);
    trace_norm; try (eexists; split; [reflexivity | solve [serial]]);
    exists []; rewrite emits_nil; split; [reflexivity | serial].
Qed.

(** A response that passes [checkCrc] has at least its two checksum bytes,
    inside the buffer. *)
Lemma checkCrc_true_inv (debug : bool) (s s' : ATECCX08A) :
  0 <= countGlobal s < 256 ->
  checkCrc debug s = Ok (true, s') ->
  2 <= countGlobal s <= Z.of_nat (length (inputBuffer s)).
Proof.
  intros Hcg. unfold checkCrc. mgo. unfold bind at 1.
  destruct (atca_calculate_crc _ _ s) as [[[] s1]| |] eqn:Hcrc; try discriminate.
  assert (Hbuf : inputBuffer s1 = inputBuffer s /\ countGlobal s1 = countGlobal s).
  { revert Hcrc. unfold atca_calculate_crc.
    destruct (crc_byte_loop _ _ _ _ _); try discriminate.
    intros [= <-]. split; reflexivity. }
  intros H.
  assert (Hhi : exists hi, rd (inputBuffer s) (countGlobal s - 1) = Some hi).
  { destruct (rd (inputBuffer s) (countGlobal s - 1)) eqn:E; [eauto|].
    exfalso. revert H. destruct debug; mgo; rewrite ?E; mgo; discriminate. }
  destruct Hhi as [hi Hhi]. apply rd_inv in Hhi as Hhi'.
  split; [|lia].
  destruct (Z.eq_dec (countGlobal s) 1) as [H1|]; [|lia].
  exfalso. revert H. rewrite H1 in *.
  assert (Hlo : rd (inputBuffer s) (1 - 2) = None) by reflexivity.
  destruct debug; mgo; rewrite Hhi; mgo;
    (destruct (hi =? snd (crc s1)); cbn [negb]; mgo;
     [rewrite Hlo; mgo; discriminate | discriminate]).
Qed.

(** ** Error detection: the step is a bijection of the register *)

Lemma u16_double (r : Z) :
  0 <= r < 65536 ->
  (2 * r) mod 2 ^ 16 = if 32768 <=? r then 2 * r - 65536 else 2 * r.
Proof.
  intros Hr. change (2 ^ 16) with 65536. destruct (Z.leb_spec 32768 r).
  - symmetry. apply Z.mod_unique with 1; lia.
  - apply Z.mod_small. lia.
Qed.

Lemma odd_lxor_polynom (x : Z) : Z.odd (Z.lxor x 0x8005) = negb (Z.odd x).
Proof.
  rewrite <- !Z.bit0_odd, Z.lxor_spec. change (Z.testbit 32773 0) with true.
  apply xorb_true_r.
Qed.

Lemma crc_step_spec_parity (r : Z) (b : bool) :
  0 <= r < 65536 -> Z.odd (crc_step_spec r b) = xorb b (Z.testbit r 15).
Proof.
  intros Hr. unfold crc_step_spec. rewrite u16_double by exact Hr.
  assert (He : Z.odd (if 32768 <=? r then 2 * r - 65536 else 2 * r) = false).
  { destruct (32768 <=? r).
    - replace (2 * r - 65536) with (2 * (r - 32768)) by lia. apply Z.odd_even.
    - apply Z.odd_even. }
  destruct (xorb b (Z.testbit r 15)); [rewrite odd_lxor_polynom, He; reflexivity | exact He].
Qed.

Lemma lxor_cancel_r (a b c : Z) : Z.lxor a c = Z.lxor b c -> a = b.
Proof.
  intros H. apply (f_equal (fun x => Z.lxor x c)) in H.
  rewrite !Z.lxor_assoc, Z.lxor_nilpotent, !Z.lxor_0_r in H. exact H.
Qed.

Lemma crc_step_spec_inj (r1 r2 : Z) (b : bool) :
  0 <= r1 < 65536 -> 0 <= r2 < 65536 ->
  crc_step_spec r1 b = crc_step_spec r2 b -> r1 = r2.
Proof.
  intros H1 H2 He.
  assert (Hp : xorb b (Z.testbit r1 15) = xorb b (Z.testbit r2 15))
    by (rewrite <- !crc_step_spec_parity by assumption; congruence).
  assert (Ht : Z.testbit r1 15 = Z.testbit r2 15)
    by (destruct b, (Z.testbit r1 15), (Z.testbit r2 15); simpl in Hp; congruence).
  revert He. unfold crc_step_spec. rewrite <- Ht.
  destruct (xorb b (Z.testbit r1 15)); intros He; [apply lxor_cancel_r in He|];
    rewrite !u16_double in He by assumption;
    rewrite !testbit15_u16 in Ht by assumption;
    destruct (32768 <=? r1), (32768 <=? r2); try discriminate; lia.
Qed.

Lemma crc_step_spec_flip (r : Z) (b : bool) :
  0 <= r < 65536 -> crc_step_spec r b <> crc_step_spec r (negb b).
Proof.
  intros Hr He. apply (f_equal Z.odd) in He.
  rewrite !crc_step_spec_parity in He by exact Hr.
  destruct b, (Z.testbit r 15); discriminate.
Qed.

Lemma fold_left_step_inj (bits : list bool) (r1 r2 : Z) :
  0 <= r1 < 65536 -> 0 <= r2 < 65536 -> r1 <> r2 ->
  fold_left crc_step_spec bits r1 <> fold_left crc_step_spec bits r2.
Proof.
  revert r1 r2. induction bits as [|b bits IH]; intros r1 r2 H1 H2 Hne; simpl; [exact Hne|].
  apply IH; try apply crc_step_spec_range.
  intros He. apply Hne. eapply crc_step_spec_inj; eassumption.
Qed.

(** Two bit streams that differ in exactly one bit leave different
    registers. *)
Lemma fold_left_step_flip (pre post : list bool) (b : bool) (r : Z) :
  0 <= r < 65536 ->
  fold_left crc_step_spec (pre ++ b :: post) r <>
  fold_left crc_step_spec (pre ++ negb b :: post) r.
Proof.
  intros Hr. rewrite !fold_left_app. simpl.
  apply fold_left_step_inj; try apply crc_step_spec_range.
  apply crc_step_spec_flip, fold_left_range, Hr.
Qed.

Lemma lxor_pow2_neq (x j : Z) : 0 <= j -> Z.lxor x (2 ^ j) <> x.
Proof.
  intros Hj He. apply (f_equal (fun y => Z.testbit y j)) in He.
  rewrite Z.lxor_spec, Z.pow2_bits_true in He by exact Hj.
  destruct (Z.testbit x j); discriminate.
Qed.

Lemma bits_lsb_first_flip (x j : Z) :
  0 <= j < 8 ->
  exists pre b post,
    bits_lsb_first x = pre ++ b :: post /\
    bits_lsb_first (Z.lxor x (2 ^ j)) = pre ++ negb b :: post.
Proof.
  intros Hj.
  exists (take (Z.to_nat j) (bits_lsb_first x)), (Z.testbit x j),
         (drop (S (Z.to_nat j)) (bits_lsb_first x)).
  assert (Hc : j = 0 \/ j = 1 \/ j = 2 \/ j = 3 \/ j = 4 \/ j = 5 \/ j = 6 \/ j = 7) by lia.
  unfold bits_lsb_first. cbn [fmap list_fmap].
  rewrite !Z.lxor_spec, !Z.pow2_bits_eqb by lia.
  destruct Hc as [->|[->|[->|[->|[->|[->|[->| ->]]]]]]];
    cbn [Z.eqb Pos.eqb]; rewrite ?xorb_false_r, ?xorb_true_r;
    split; reflexivity.
Qed.

(** Flipping one bit of a message changes its checksum register. *)
Lemma crc_register_spec_flip (msg : list Z) (i j : Z) :
  0 <= i < Z.of_nat (length msg) -> 0 <= j < 8 ->
  crc_register_spec (flip_bit i j msg) <> crc_register_spec msg.
Proof.
  intros Hi Hj. unfold flip_bit.
  destruct (lookup_lt_is_Some_2 msg (Z.to_nat i)) as [x Hx]; [lia|].
  rewrite <- (take_drop_middle msg _ x Hx) at 2.
  assert (Ha : alter (fun x => Z.lxor x (2 ^ j)) (Z.to_nat i) msg =
               take (Z.to_nat i) msg ++ Z.lxor x (2 ^ j) :: drop (S (Z.to_nat i)) msg).
  { rewrite <- (take_drop_middle msg _ x Hx) at 1.
    rewrite alter_app_r_alt by (rewrite length_take; lia).
    replace (Z.to_nat i - length (take (Z.to_nat i) msg))%nat with 0%nat
      by (rewrite length_take; lia).
    reflexivity. }
  rewrite Ha. unfold crc_register_spec. rewrite !bind_app, !bind_cons.
  destruct (bits_lsb_first_flip x j Hj) as (pre & b & post & -> & ->).
  rewrite <- !app_assoc, !app_assoc. cbn [app]. rewrite <- !app_assoc.
  rewrite !(app_assoc _ pre). cbn [app].
  intros He. symmetry in He. revert He. apply fold_left_step_flip. lia.
Qed.

Lemma crc_spec_fields_inj (m1 m2 : list Z) :
  fst (crc_spec m1) = fst (crc_spec m2) -> snd (crc_spec m1) = snd (crc_spec m2) ->
  crc_register_spec m1 = crc_register_spec m2.
Proof.
  unfold crc_spec. cbn [fst snd]. intros Hm Hd.
  rewrite (Z.div_mod (crc_register_spec m1) 256), (Z.div_mod (crc_register_spec m2) 256) by lia.
  congruence.
Qed.

(** ** Loops over the buffers *)

Lemma frame_trans (s1 s2 s3 : ATECCX08A) : frame s1 s2 -> frame s2 s3 -> frame s1 s3.
Proof. unfold frame. intros [? ?] [? ?]. split; congruence. Qed.

Lemma wr_Some (a : list Z) (i v : Z) :
  0 <= i < Z.of_nat (length a) -> wr a i v = Some (<[Z.to_nat i := v]> a).
Proof.
  intros Hi. unfold wr.
  destruct (Z.leb_spec 0 i); [|lia]. destruct (Z.ltb_spec i (Z.of_nat (length a))); [|lia].
  reflexivity.
Qed.

Lemma wr_None (a : list Z) (i v : Z) :
  Z.of_nat (length a) <= i -> wr a i v = None.
Proof.
  intros Hi. unfold wr.
  destruct (Z.ltb_spec i (Z.of_nat (length a))); [lia|].
  rewrite andb_false_r. reflexivity.
Qed.

Lemma clean_loop (n : nat) :
  forall (i : Z) (s : ATECCX08A),
    0 <= i -> i + Z.of_nat n <= Z.of_nat (length (inputBuffer s)) ->
    for_range n i (fun i =>
      buf <- get inputBuffer ;;
      buf <- lift (wr buf i 0) ;;
      modify (set_inputBuffer buf)) s =
    Ok (tt, set_inputBuffer (take (Z.to_nat i) (inputBuffer s) ++ replicate n 0 ++
                             drop (Z.to_nat i + n) (inputBuffer s)) s).
Proof.
  induction n as [|n IH]; intros i s Hi Hn; cbn [for_range].
  - mgo. rewrite Nat.add_0_r. cbn [replicate app]. rewrite take_drop.
    destruct s; reflexivity.
  - mgo. rewrite wr_Some by lia. mgo. rewrite IH by (fields; rewrite ?length_insert; lia).
    fields. unfold set_inputBuffer; fields. do 3 f_equal.
    replace (Z.to_nat (i + 1)) with (S (Z.to_nat i)) by lia.
    rewrite (take_S_r _ _ 0) by (apply list_lookup_insert_eq; lia).
    rewrite take_insert_ge by lia. rewrite drop_insert_lt by lia.
    rewrite <- app_assoc. cbn [replicate app].
    replace (S (Z.to_nat i) + n)%nat with (Z.to_nat i + S n)%nat by lia. reflexivity.
Qed.

Lemma cleanInputBuffer_eq (s : ATECCX08A) :
  cleanInputBuffer s = Ok (tt, set_inputBuffer (replicate (length (inputBuffer s)) 0) s).
Proof.
  unfold cleanInputBuffer, for_upto. mgo. rewrite clean_loop by lia.
  rewrite Nat2Z.id. change (Z.to_nat 0) with 0%nat. cbn [take app Nat.add].
  rewrite drop_all, app_nil_r. reflexivity.
Qed.

(** The inner loop of the reception stores the bytes of the bus at
    [countGlobal] and after, in the order the bus hands them over. *)
Lemma drain_run (rx : list Z) :
  forall (len : Z) (s : ATECCX08A),
    0 <= countGlobal s ->
    countGlobal s + Z.of_nat (length rx) <= Z.of_nat (length (inputBuffer s)) ->
    countGlobal s + Z.of_nat (length rx) < 256 ->
    Z.of_nat (length rx) <= len < 256 ->
    exists s',
      drain rx len s = Ok (len - Z.of_nat (length rx), s') /\
      countGlobal s' = countGlobal s + Z.of_nat (length rx) /\
      inputBuffer s' =
        take (Z.to_nat (countGlobal s)) (inputBuffer s) ++ (u8 <$> rx) ++
        drop (Z.to_nat (countGlobal s) + length rx) (inputBuffer s) /\
      slave s' = slave s /\ trace s' = trace s /\ crc s' = crc s /\ frame s s'.
Proof.
  induction rx as [|b rx IH]; intros len s Hcg Hbuf H256 Hlen; cbn [drain length] in *.
  - exists s. mgo. rewrite Z.sub_0_r, Z.add_0_r, Nat.add_0_r. cbn [fmap list_fmap app].
    rewrite take_drop. repeat split; reflexivity.
  - mgo. rewrite wr_Some by lia. mgo.
    assert (Hu : u8 (countGlobal s + 1) = countGlobal s + 1) by (apply Z.mod_small; lia).
    assert (Hl : u8 (len - 1) = len - 1) by (apply Z.mod_small; lia).
    rewrite Hu, Hl.
    edestruct (IH (len - 1)) as (s' & Hrun & Hc & Hb & Hs & Ht & Hcrc & Hf);
      [| | | | rewrite Hrun]; fields; rewrite ?length_insert; try lia.
    exists s'. fields.
    split; [f_equal; f_equal; lia|]. split; [lia|].
    split; [|auto].
    rewrite Hb. replace (Z.to_nat (countGlobal s + 1)) with (S (Z.to_nat (countGlobal s))) by lia.
    rewrite (take_S_r _ _ (u8 b)) by (apply list_lookup_insert_eq; lia).
    rewrite take_insert_ge by lia. rewrite drop_insert_lt by lia.
    rewrite <- app_assoc. cbn [fmap list_fmap app].
    replace (S (Z.to_nat (countGlobal s)) + length rx)%nat
      with (Z.to_nat (countGlobal s) + S (length rx))%nat by lia.
    reflexivity.
Qed.

Lemma drain_oob (rx : list Z) :
  forall (len : Z) (s : ATECCX08A),
    0 <= countGlobal s <= Z.of_nat (length (inputBuffer s)) ->
    Z.of_nat (length (inputBuffer s)) < countGlobal s + Z.of_nat (length rx) ->
    countGlobal s + Z.of_nat (length rx) < 256 ->
    drain rx len s = OutOfBounds.
Proof.
  induction rx as [|b rx IH]; intros len s Hcg Hbuf H256; cbn [drain length] in *; [lia|].
  mgo. destruct (Z.ltb_spec (countGlobal s) (Z.of_nat (length (inputBuffer s)))).
  - rewrite wr_Some by lia. mgo.
    assert (Hu : u8 (countGlobal s + 1) = countGlobal s + 1) by (apply Z.mod_small; lia).
    rewrite Hu. apply IH; fields; rewrite ?length_insert; lia.
  - rewrite wr_None by lia. mgo. reflexivity.
Qed.

(** ** The reception loop *)

Lemma splice_splice (buf X Y : list Z) (n m : nat) :
  (n + length X <= length buf)%nat ->
  take (n + length X) (take n buf ++ X ++ drop (n + length X) buf) ++ Y ++
  drop (n + length X + m) (take n buf ++ X ++ drop (n + length X) buf) =
  take n buf ++ (X ++ Y) ++ drop (n + length X + m) buf.
Proof.
  intros Hn.
  assert (Hl : length (take n buf ++ X) = (n + length X)%nat)
    by (rewrite length_app, length_take; lia).
  rewrite !(app_assoc (take n buf) X).
  rewrite (take_app_length' _ _ _ (eq_sym Hl)).
  rewrite (drop_app_add' (take n buf ++ X) _ (n + length X) m (eq_sym Hl)).
  rewrite drop_drop, <- !app_assoc. reflexivity.
Qed.

Lemma receive_loop_0 (script : list (list Z)) (s : ATECCX08A) :
  receive_loop script 0 s = Ok (tt, s).
Proof. destruct script; reflexivity. Qed.

Lemma receive_loop_nil (len : Z) (s : ATECCX08A) :
  len <> 0 -> receive_loop [] len s = Hang.
Proof. intros H. cbn [receive_loop]. destruct (Z.eqb_spec len 0); [lia|]. reflexivity. Qed.

Lemma receive_loop_cons (answer : list Z) (script : list (list Z)) (len : Z) (s : ATECCX08A) :
  len <> 0 ->
  receive_loop (answer :: script) len s =
  (let requestAmount := if len >? 32 then 32 else len in
   addr <- get _i2caddr ;;
   modify (emit (RequestFrom addr requestAmount)) ;;;
   modify (set_slave script) ;;;
   let rx := take (Z.to_nat requestAmount) answer in
   modify (set_rxBuffer rx) ;;;
   len <- drain rx len ;;
   receive_loop script len) s.
Proof. intros H. cbn [receive_loop]. destruct (Z.eqb_spec len 0); [lia|]. reflexivity. Qed.

Lemma receive_loop_inv (script : list (list Z)) :
  forall (len : Z) (s s' : ATECCX08A),
    0 <= countGlobal s <= Z.of_nat (length (inputBuffer s)) ->
    0 <= len -> countGlobal s + len < 256 ->
    slave s = script ->
    receive_loop script len s = Ok (tt, s') ->
    exists (reqs : list Z) (consumed : list (list Z)),
      script = consumed ++ slave s' /\
      requests_ok len reqs (chunks_of reqs consumed) /\
      length reqs = length consumed /\
      trace s' = trace s ++ (RequestFrom (_i2caddr s) <$> reqs) /\
      countGlobal s' = countGlobal s + len /\
      countGlobal s + len <= Z.of_nat (length (inputBuffer s)) /\
      inputBuffer s' =
        take (Z.to_nat (countGlobal s)) (inputBuffer s) ++
        (u8 <$> concat (chunks_of reqs consumed)) ++
        drop (Z.to_nat (countGlobal s + len)) (inputBuffer s) /\
      crc s' = crc s /\ frame s s'.
Proof.
  induction script as [|answer script IH]; intros len s s' Hcg Hlen H256 Hsl Hrun.
  - destruct (Z.eq_dec len 0) as [->|Hne]; [|rewrite receive_loop_nil in Hrun by exact Hne; discriminate].
    rewrite receive_loop_0 in Hrun. injection Hrun as <-.
    exists [], []. cbn [chunks_of zip_with concat fmap list_fmap app requests_ok length].
    rewrite Z.add_0_r, take_drop, app_nil_r.
    repeat split; auto; lia.
  - destruct (Z.eq_dec len 0) as [->|Hne].
    { rewrite receive_loop_0 in Hrun. injection Hrun as <-.
      exists [], []. cbn [chunks_of zip_with concat fmap list_fmap app requests_ok length].
      rewrite Z.add_0_r, take_drop, app_nil_r.
      repeat split; auto; lia. }
    rewrite receive_loop_cons in Hrun by exact Hne. cbv zeta in Hrun.
    set (q := if len >? 32 then 32 else len) in *.
    assert (Hq : 0 < q <= 32 /\ q <= len) by (subst q; destruct (Z.gtb_spec len 32); lia).
    set (rx := take (Z.to_nat q) answer) in *.
    assert (Hrx : Z.of_nat (length rx) <= q) by (subst rx; rewrite length_take; lia).
    revert Hrun. mgo.
    set (s1 := set_rxBuffer rx (set_slave script (emit (RequestFrom (_i2caddr s) q) s))).
    destruct (Z.leb_spec (countGlobal s + Z.of_nat (length rx))
                         (Z.of_nat (length (inputBuffer s)))) as [Hin|Hout].
    + destruct (drain_run rx len s1) as (s2 & Hd & Hc2 & Hb2 & Hs2 & Ht2 & Hcrc2 & Hf2);
        try (subst s1; fields; lia).
      rewrite (bind_Ok _ _ _ _ _ Hd). intros Hrun.
      subst s1; fields.
      assert (Hlb2 : length (inputBuffer s2) = length (inputBuffer s)).
      { rewrite Hb2, !length_app, length_take, length_fmap, length_drop. lia. }
      destruct (IH (len - Z.of_nat (length rx)) s2 s') 
        as (reqs & consumed & Hsc & Hok & Hlr & Ht & Hc & Hbnd & Hb & Hcrc & Hf);
        [lia | lia | lia | exact Hs2 | exact Hrun |].
      exists (q :: reqs), (answer :: consumed).
      cbn [chunks_of zip_with concat requests_ok length app fmap list_fmap].
      fold (chunks_of reqs consumed). fold rx.
      split; [rewrite Hsc at 1; reflexivity|].
      split; [repeat split; auto; lia|].
      split; [lia|].
      split; [rewrite Ht, Ht2; destruct Hf2 as [-> _]; fields;
              rewrite <- app_assoc; reflexivity|].
      split; [lia|]. split; [lia|].
      split; [|split; [congruence | eapply frame_trans; [|exact Hf]; exact Hf2]].
      rewrite Hb, Hc2, Hb2, fmap_app.
      replace (Z.to_nat (countGlobal s + Z.of_nat (length rx))) with
        (Z.to_nat (countGlobal s) + length rx)%nat by lia.
      replace (Z.to_nat (countGlobal s + Z.of_nat (length rx) + (len - Z.of_nat (length rx))))
        with (Z.to_nat (countGlobal s) + length rx +
              Z.to_nat (len - Z.of_nat (length rx)))%nat by lia.
      rewrite <- (length_fmap u8 rx).
      rewrite splice_splice by (rewrite length_fmap; lia).
      do 3 f_equal. rewrite length_fmap. lia.
    + unfold bind at 1. rewrite drain_oob by (subst s1; fields; lia). discriminate.
Qed.

Lemma receive_loop_ok (script : list (list Z)) :
  forall (len : Z) (s : ATECCX08A),
    0 <= countGlobal s -> 0 <= len -> countGlobal s + len < 256 ->
    countGlobal s + len <= Z.of_nat (length (inputBuffer s)) ->
    delivers script len = true ->
    exists s', receive_loop script len s = Ok (tt, s').
Proof.
  induction script as [|answer script IH]; intros len s Hcg Hlen H256 Hbuf Hdel.
  - destruct (Z.eq_dec len 0) as [->|Hne]; [rewrite receive_loop_0; eauto|].
    revert Hdel. cbn [delivers]. destruct (Z.eqb_spec len 0); [lia | discriminate].
  - destruct (Z.eq_dec len 0) as [->|Hne]; [rewrite receive_loop_0; eauto|].
    revert Hdel. cbn [delivers]. destruct (Z.eqb_spec len 0); [lia|]. cbv zeta.
    rewrite receive_loop_cons by exact Hne. cbv zeta.
    set (q := if len >? 32 then 32 else len).
    assert (Hq : 0 < q <= 32 /\ q <= len) by (subst q; destruct (Z.gtb_spec len 32); lia).
    set (rx := take (Z.to_nat q) answer).
    assert (Hrx : Z.of_nat (length rx) <= q) by (subst rx; rewrite length_take; lia).
    intros Hdel. mgo.
    set (s1 := set_rxBuffer rx (set_slave script (emit (RequestFrom (_i2caddr s) q) s))).
    destruct (drain_run rx len s1) as (s2 & Hd & Hc2 & Hb2 & _);
      try (subst s1; fields; lia).
    rewrite (bind_Ok _ _ _ _ _ Hd). subst s1; fields.
    apply IH; try lia; [|exact Hdel].
    rewrite Hc2, Hb2, !length_app, length_take, length_fmap, length_drop. lia.
Qed.

(** The debug loops print the elements of an array and change nothing
    else. *)
Lemma print_loop (arr : ATECCX08A -> list Z) (n : nat) :
  (forall e s, arr (emit e s) = arr s) ->
  forall (i : Z) (s : ATECCX08A),
    0 <= i -> i + Z.of_nat n <= Z.of_nat (length (arr s)) ->
    exists evs,
      for_range n i (fun i =>
        a <- get arr ;;
        b <- lift (rd a i) ;;
        modify (emit (SerialPrintHex b)) ;;;
        modify (emit (SerialPrint ","))) s = Ok (tt, emits evs s) /\
      serial_only evs.
Proof.
  intros Harr. induction n as [|n IH]; intros i s Hi Hn; cbn [for_range].
  - exists []. rewrite emits_nil. split; [reflexivity | serial].
  - mgo. destruct (rd_Some (arr s) i) as (b & -> & _); [lia|]. mgo.
    set (s1 := emit _ (emit _ s)).
    destruct (IH (i + 1) s1) as (evs & -> & Hev);
      [lia | subst s1; rewrite !Harr; lia |].
    subst s1. trace_norm. eexists. split; [reflexivity|].
    serial.
Qed.

(** ** What the requests of one reception add up to *)

Lemma requests_ok_total (reqs : list Z) :
  forall (chunks : list (list Z)) (len : Z),
    requests_ok len reqs chunks -> Z.of_nat (length (concat chunks)) = len.
Proof.
  induction reqs as [|q reqs IH]; intros [|c chunks] len; cbn [requests_ok concat length];
    try tauto; try lia.
  intros (_ & _ & _ & Hrest). apply IH in Hrest. rewrite length_app. lia.
Qed.

Lemma requests_ok_bounds (reqs : list Z) :
  forall (chunks : list (list Z)) (len : Z),
    0 <= len -> requests_ok len reqs chunks -> Forall (fun q => 0 < q <= 32) reqs.
Proof.
  induction reqs as [|q reqs IH]; intros [|c chunks] len Hlen; cbn [requests_ok];
    try tauto; [constructor|].
  intros (Hne & Hq & Hc & Hrest).
  assert (Hq' : 0 < q <= 32 /\ q <= len) by (subst q; destruct (Z.gtb_spec len 32); lia).
  constructor; [lia|]. apply (IH chunks (len - Z.of_nat (length c))); [lia | exact Hrest].
Qed.

Lemma requests_ok_lookup (reqs : list Z) :
  forall (chunks : list (list Z)) (len : Z) (k : nat) (q : Z),
    requests_ok len reqs chunks -> reqs !! k = Some q ->
    let remaining := len - Z.of_nat (length (concat (take k chunks))) in
    q = (if remaining >? 32 then 32 else remaining).
Proof.
  induction reqs as [|q0 reqs IH]; intros [|c chunks] len k q; cbn [requests_ok];
    try tauto; try discriminate.
  intros (Hne & Hq & Hc & Hrest). destruct k as [|k]; cbn [lookup list_lookup take concat].
  - intros [= <-]. cbn [length]. rewrite Z.sub_0_r. exact Hq.
  - intros Hk. cbv zeta. rewrite length_app.
    replace (len - Z.of_nat (length c + length (concat (take k chunks))))
      with (len - Z.of_nat (length c) - Z.of_nat (length (concat (take k chunks)))) by lia.
    exact (IH chunks _ k q Hrest Hk).
Qed.

Lemma requests_ok_several (reqs : list Z) (chunks : list (list Z)) (len : Z) :
  32 < len -> requests_ok len reqs chunks -> (2 <= length reqs)%nat.
Proof.
  intros Hlen.
  destruct reqs as [|q reqs], chunks as [|c chunks]; cbn [requests_ok]; try tauto; [lia|].
  intros (_ & Hq & Hc & Hrest).
  destruct (Z.gtb_spec len 32); [|lia]. subst q.
  destruct reqs as [|q' reqs], chunks as [|c' chunks]; cbn [requests_ok] in Hrest;
    try tauto; [lia|]. cbn [length]. lia.
Qed.

Lemma requests_ok_sizes (reqs : list Z) :
  forall (chunks : list (list Z)) (len : Z),
    requests_ok len reqs chunks ->
    Forall2 (fun q c => Z.of_nat (length c) <= q) reqs chunks.
Proof.
  induction reqs as [|q reqs IH]; intros [|c chunks] len; cbn [requests_ok];
    try tauto; [constructor|].
  intros (_ & _ & Hc & Hrest). constructor; [exact Hc | exact (IH _ _ Hrest)].
Qed.

(** ** receiveResponseData *)

Lemma print_inputBuffer_eq (debug : bool) (s : ATECCX08A) :
  0 <= countGlobal s <= Z.of_nat (length (inputBuffer s)) ->
  exists prints,
    when debug print_inputBuffer s = Ok (tt, emits prints s) /\
    serial_only prints /\ (debug = false -> prints = []).
Proof.
  intros Hcg. destruct debug; cbn [when].
  - unfold print_inputBuffer, for_upto. mgo.
    destruct (print_loop inputBuffer (Z.to_nat (countGlobal s)) ltac:(reflexivity) 0
                (emit (SerialPrint "inputBuffer: ") s)) as (evs & He & Hev);
      [lia | fields; lia |].
    rewrite (bind_Ok _ _ _ _ _ He). mgo. trace_norm.
    eexists. split; [reflexivity|]. split; [serial | discriminate].
  - exists []. rewrite emits_nil. repeat split; auto. serial.
Qed.

Lemma receiveResponseData_unfold (len : Z) (debug : bool) (s : ATECCX08A) :
  receiveResponseData len debug s =
  (receive_loop (slave s) len ;;; when debug print_inputBuffer ;;; ret true)
    (set_inputBuffer (replicate (length (inputBuffer s)) 0) (set_countGlobal 0 s)).
Proof.
  unfold receiveResponseData. mgo.
  rewrite (bind_Ok _ _ _ _ _ (cleanInputBuffer_eq _)). mgo. reflexivity.
Qed.

(** What a reception that returns has done. *)
Lemma receiveResponseData_inv (len : Z) (debug : bool) (s s' : ATECCX08A) (r : bool) :
  0 <= len < 256 ->
  receiveResponseData len debug s = Ok (r, s') ->
  r = true /\
  exists (reqs : list Z) (consumed : list (list Z)) (prints : list event),
    slave s = consumed ++ slave s' /\
    requests_ok len reqs (chunks_of reqs consumed) /\
    length reqs = length consumed /\
    trace s' = trace s ++ (RequestFrom (_i2caddr s) <$> reqs) ++ prints /\
    serial_only prints /\ (debug = false -> prints = []) /\
    countGlobal s' = len /\
    len <= Z.of_nat (length (inputBuffer s)) /\
    inputBuffer s' =
      (u8 <$> concat (chunks_of reqs consumed)) ++
      replicate (length (inputBuffer s) - Z.to_nat len) 0 /\
    crc s' = crc s /\ frame s s'.
Proof.
  intros Hlen. rewrite receiveResponseData_unfold.
  set (s0 := set_inputBuffer _ _). unfold bind at 1.
  destruct (receive_loop (slave s) len s0) as [[[] s1]| |] eqn:Hloop; try discriminate.
  apply receive_loop_inv in Hloop;
    [| subst s0; fields; lia | lia | subst s0; fields; lia | reflexivity].
  destruct Hloop as (reqs & consumed & Hsc & Hok & Hlr & Ht & Hc & Hbnd & Hb & Hcrc & Hf).
  subst s0; fields. rewrite length_replicate in *.
  apply requests_ok_total in Hok as Hsum.
  destruct (print_inputBuffer_eq debug s1) as (prints & Hp & Hser & Hnil);
    [rewrite Hc, Hb, !length_app, length_fmap, length_drop, length_replicate;
     cbn [take length]; lia|].
  rewrite (bind_Ok _ _ _ _ _ Hp). mgo. intros [= <- <-]. split; [reflexivity|].
  exists reqs, consumed, prints. fields.
  destruct Hf as [? ?].
  repeat split; try assumption; try lia.
  - rewrite Ht, app_assoc. reflexivity.
  - rewrite Hb. cbn [take app]. rewrite drop_replicate. repeat f_equal; lia.
Qed.

Lemma receiveResponseData_ok (len : Z) (debug : bool) (s : ATECCX08A) :
  0 <= len < 256 -> len <= Z.of_nat (length (inputBuffer s)) ->
  delivers (slave s) len = true ->
  exists s', receiveResponseData len debug s = Ok (true, s').
Proof.
  intros Hlen Hbuf Hdel. rewrite receiveResponseData_unfold.
  set (s0 := set_inputBuffer _ _).
  destruct (receive_loop_ok (slave s) len s0) as [s1 Hloop];
    try (subst s0; fields; rewrite ?length_replicate; lia); [exact Hdel|].
  rewrite (bind_Ok _ _ _ _ _ Hloop).
  apply receive_loop_inv in Hloop;
    [| subst s0; fields; lia | lia | subst s0; fields; lia | reflexivity].
  destruct Hloop as (reqs & consumed & Hsc & Hok & Hlr & Ht & Hc & Hbnd & Hb & Hcrc & Hf).
  apply requests_ok_total in Hok as Hsum.
  subst s0; fields. rewrite length_replicate in *.
  destruct (print_inputBuffer_eq debug s1) as (prints & Hp & Hser & Hnil);
    [rewrite Hc, Hb, !length_app, length_fmap, length_drop, length_replicate;
     cbn [take length]; lia|].
  rewrite (bind_Ok _ _ _ _ _ Hp). mgo. eauto.
Qed.

(** The value [receiveResponseData] returns is the constant of its last
    statement. *)
Lemma receiveResponseData_true (len : Z) (debug : bool) (s s' : ATECCX08A) (r : bool) :
  receiveResponseData len debug s = Ok (r, s') -> r = true.
Proof.
  unfold receiveResponseData. unfold bind at 1. cbn [modify].
  unfold bind at 1. destruct (cleanInputBuffer _) as [[[] s1]| |]; try discriminate.
  unfold bind at 1. cbn [get].
  unfold bind at 1. destruct (receive_loop _ _ _) as [[[] s2]| |]; try discriminate.
  unfold bind at 1. destruct (when debug _ s2) as [[[] s3]| |]; try discriminate.
  unfold ret. intros [= <- _]. reflexivity.
Qed.

Lemma bind_ext {A B} (m : M A) (k1 k2 : A -> M B) (s : ATECCX08A) :
  (forall a s', m s = Ok (a, s') -> k1 a s' = k2 a s') -> bind m k1 s = bind m k2 s.
Proof. intros H. unfold bind. destruct (m s) as [[a s']| |]; auto. Qed.

(** Two callers that differ only in the statement run when
    [receiveResponseData] answers false. *)
Ltac dead_branch :=
  repeat (apply bind_ext; intros ? ? ?);
  match goal with
  | H : receiveResponseData _ _ _ = Ok (?r, _) |- _ =>
      apply receiveResponseData_true in H; subst r; reflexivity
  end.

(** ** wakeUp *)

Lemma list_length_4 {A} (l : list A) :
  length l = 4%nat -> exists a0 a1 a2 a3, l = [a0; a1; a2; a3].
Proof.
  destruct l as [|a0 [|a1 [|a2 [|a3 [|a4 l]]]]]; try discriminate. eauto.
Qed.

Lemma wakeUp_with_inv (k : M bool) (s s' : ATECCX08A) (b : bool) :
  wakeUp_with k s = Ok (b, s') ->
  exists (reqs : list Z) (consumed : list (list Z)) (a0 a1 a2 a3 : Z) (evs : list event),
    slave s = consumed ++ slave s' /\
    requests_ok 4 reqs (chunks_of reqs consumed) /\
    length reqs = length consumed /\
    u8 <$> concat (chunks_of reqs consumed) = [a0; a1; a2; a3] /\
    inputBuffer s' = [a0; a1; a2; a3] ++ replicate (length (inputBuffer s) - 4) 0 /\
    countGlobal s' = 4 /\
    trace s' = trace s ++ [BeginTransmission 0; EndTransmission; DelayMicroseconds 1500] ++
               (RequestFrom (_i2caddr s) <$> reqs) ++ evs /\
    serial_only evs /\
    b = wake_ok a0 a1 a2 a3 /\
    frame s s' /\
    4 <= Z.of_nat (length (inputBuffer s)).
Proof.
  unfold wakeUp_with. mgo.
  set (s0 := set_countGlobal 0 _). unfold bind at 1.
  destruct (receiveResponseData 4 false s0) as [[r s1]| |] eqn:Hrecv; try discriminate.
  apply receiveResponseData_inv in Hrecv; [|lia].
  destruct Hrecv as (-> & reqs & consumed & prints & Hsc & Hok & Hlr & Ht & _ & Hnil &
                     Hc & Hbnd & Hb & _ & Hf).
  rewrite (Hnil eq_refl), app_nil_r in Ht. subst s0; unfold frame in *; fields.
  destruct (list_length_4 (u8 <$> concat (chunks_of reqs consumed))) as (a0 & a1 & a2 & a3 & Hack);
    [rewrite length_fmap; apply requests_ok_total in Hok; lia|].
  rewrite Hack in Hb. change (Z.to_nat 4) with 4%nat in Hb.
  assert (H0 : rd (inputBuffer s1) 0 = Some a0) by (rewrite Hb; reflexivity).
  assert (H1 : rd (inputBuffer s1) 1 = Some a1) by (rewrite Hb; reflexivity).
  assert (H2 : rd (inputBuffer s1) (countGlobal s1 - 2) = Some a2) by (rewrite Hb, Hc; reflexivity).
  assert (H3 : rd (inputBuffer s1) (countGlobal s1 - 1) = Some a3) by (rewrite Hb, Hc; reflexivity).
  assert (Hcrc : crc_spec (take (Z.to_nat (countGlobal s1 - 2)) (inputBuffer s1)) =
                 crc_spec [a0; a1]) by (rewrite Hb, Hc; reflexivity).
  cbn [negb]. destruct (checkCount_eq false s1 a0 H0) as (e1 & He1 & Hs1).
  rewrite (bind_Ok _ _ _ _ _ He1). rewrite Hc.
  assert (Htr : forall evs, trace s1 ++ evs =
            trace s ++ [BeginTransmission 0; EndTransmission; DelayMicroseconds 1500] ++
            (RequestFrom (_i2caddr s) <$> reqs) ++ evs).
  { intros evs. rewrite Ht, <- !app_assoc. reflexivity. }
  destruct (a0 =? 4) eqn:E0; cbn [negb andb].
  2: { mgo. intros [= <- <-]. exists reqs, consumed, a0, a1, a2, a3, e1. fields.
       unfold wake_ok. rewrite E0.
       repeat split; try assumption; try apply Hf; try lia; apply Htr. }
  destruct (checkCrc_eq false (emits e1 s1) a2 a3) as (e2 & He2 & Hs2);
    fields; try assumption; try lia.
  rewrite (bind_Ok _ _ _ _ _ He2). fields. rewrite Hcrc.
  destruct ((a3 =? snd (crc_spec [a0; a1])) && (a2 =? fst (crc_spec [a0; a1]))) eqn:E1;
    cbn [negb andb].
  2: { mgo. intros [= <- <-]. exists reqs, consumed, a0, a1, a2, a3, (e1 ++ e2). fields.
       unfold wake_ok. rewrite E0, E1.
       repeat split; try assumption; try apply Hf; try lia; [|serial].
       rewrite <- app_assoc. apply Htr. }
  mgo. rewrite H1. mgo.
  destruct (a1 =? 17) eqn:E2; mgo; intros [= <- <-];
    exists reqs, consumed, a0, a1, a2, a3, (e1 ++ e2); fields;
    unfold wake_ok; rewrite E0, E1, E2;
    (repeat split; try assumption; try apply Hf; try lia; [|serial]);
    rewrite <- app_assoc; apply Htr.
Qed.

(** When the slave hands over the four bytes, [wakeUp] returns. *)
Lemma wakeUp_with_ok (k : M bool) (s : ATECCX08A) :
  4 <= Z.of_nat (length (inputBuffer s)) ->
  delivers (slave s) 4 = true ->
  exists b s', wakeUp_with k s = Ok (b, s').
Proof.
  intros Hbuf Hdel. unfold wakeUp_with. mgo.
  set (s0 := set_countGlobal 0 _).
  destruct (receiveResponseData_ok 4 false s0) as [s1 Hrecv];
    try (subst s0; fields; lia); [exact Hdel|].
  rewrite (bind_Ok _ _ _ _ _ Hrecv). cbn [negb].
  apply receiveResponseData_inv in Hrecv; [|lia].
  destruct Hrecv as (_ & reqs & consumed & prints & Hsc & Hok & Hlr & Ht & _ & Hnil &
                     Hc & Hbnd & Hb & _ & Hf).
  subst s0; fields.
  destruct (list_length_4 (u8 <$> concat (chunks_of reqs consumed))) as (a0 & a1 & a2 & a3 & Hack);
    [rewrite length_fmap; apply requests_ok_total in Hok; lia|].
  rewrite Hack in Hb. change (Z.to_nat 4) with 4%nat in Hb.
  assert (H0 : rd (inputBuffer s1) 0 = Some a0) by (rewrite Hb; reflexivity).
  assert (H1 : rd (inputBuffer s1) 1 = Some a1) by (rewrite Hb; reflexivity).
  assert (H2 : rd (inputBuffer s1) (countGlobal s1 - 2) = Some a2) by (rewrite Hb, Hc; reflexivity).
  assert (H3 : rd (inputBuffer s1) (countGlobal s1 - 1) = Some a3) by (rewrite Hb, Hc; reflexivity).
  destruct (checkCount_eq false s1 a0 H0) as (e1 & He1 & Hs1).
  rewrite (bind_Ok _ _ _ _ _ He1).
  destruct (a0 =? countGlobal s1); cbn [negb]; [|mgo; eauto].
  destruct (checkCrc_eq false (emits e1 s1) a2 a3) as (e2 & He2 & Hs2);
    fields; try assumption; try lia.
  rewrite (bind_Ok _ _ _ _ _ He2).
  destruct (_ && _); cbn [negb]; [|mgo; eauto].
  mgo. rewrite H1. mgo. destruct (a1 =? 17); mgo; eauto.
Qed.

(** ** idleMode and the random fetch *)

Lemma idleMode_eq (s : ATECCX08A) :
  idleMode s =
  Ok (tt, emits [BeginTransmission (_i2caddr s); WireWrite [WORD_ADDRESS_VALUE_IDLE];
                 EndTransmission] s).
Proof. unfold idleMode. mgo. trace_norm. reflexivity. Qed.

Lemma copy_loop (n : nat) :
  forall (i : Z) (s : ATECCX08A),
    0 <= i -> i + Z.of_nat n + 1 <= Z.of_nat (length (inputBuffer s)) ->
    i + Z.of_nat n <= Z.of_nat (length (random32Bytes s)) ->
    for_range n i (fun i =>
      buf <- get inputBuffer ;;
      rnd <- get random32Bytes ;;
      b <- lift (rd buf (i + 1)) ;;
      rnd <- lift (wr rnd i b) ;;
      modify (set_random32Bytes rnd)) s =
    Ok (tt, set_random32Bytes
              (take (Z.to_nat i) (random32Bytes s) ++
               take n (drop (Z.to_nat i + 1) (inputBuffer s)) ++
               drop (Z.to_nat i + n) (random32Bytes s)) s).
Proof.
  induction n as [|n IH]; intros i s Hi Hbuf Hrnd; cbn [for_range].
  - mgo. rewrite Nat.add_0_r, take_0, app_nil_l, take_drop. destruct s; reflexivity.
  - mgo. destruct (rd_Some (inputBuffer s) (i + 1)) as (b & -> & Hb); [lia|]. mgo.
    rewrite wr_Some by lia. mgo.
    rewrite IH by (fields; rewrite ?length_insert; lia).
    fields. unfold set_random32Bytes; fields. do 3 f_equal.
    replace (Z.to_nat (i + 1)) with (S (Z.to_nat i)) in * by lia.
    rewrite (take_S_r _ _ b) by (apply list_lookup_insert_eq; lia).
    rewrite take_insert_ge by lia. rewrite drop_insert_lt by lia.
    replace (Z.to_nat i + 1)%nat with (S (Z.to_nat i)) by lia.
    rewrite (drop_S _ _ _ Hb). cbn [take].
    rewrite <- app_assoc. cbn [app].
    replace (S (Z.to_nat i) + 1)%nat with (S (S (Z.to_nat i))) by lia.
    replace (S (Z.to_nat i) + n)%nat with (Z.to_nat i + S n)%nat by lia.
    reflexivity.
Qed.

Lemma print_random32Bytes_eq (debug : bool) (s : ATECCX08A) :
  exists prints, when debug print_random32Bytes s = Ok (tt, emits prints s) /\
                 serial_only prints.
Proof.
  destruct debug; cbn [when].
  - unfold print_random32Bytes, for_upto. mgo.
    destruct (print_loop random32Bytes (length (random32Bytes s)) ltac:(reflexivity) 0
                (emit (SerialPrint "random32Bytes: ") s)) as (evs & He & Hev);
      [lia | fields; lia |].
    rewrite Nat2Z.id. rewrite (bind_Ok _ _ _ _ _ He). mgo. trace_norm.
    eexists. split; [reflexivity | serial].
  - exists []. rewrite emits_nil. split; [reflexivity | serial].
Qed.

Lemma rd_app_l (l1 l2 : list Z) (i : Z) :
  0 <= i < Z.of_nat (length l1) -> rd (l1 ++ l2) i = rd l1 i.
Proof.
  intros Hi. unfold rd. destruct (0 <=? i); [|reflexivity]. apply lookup_app_l. lia.
Qed.

(** The command packet of the random fetch. *)
Lemma updateRandom32Bytes_with_unfold (k : M bool) (debug : bool) (s : ATECCX08A) :
  updateRandom32Bytes_with k debug s =
  (wakeUp ;;;
   addr <- get _i2caddr ;;
   modify (emits [BeginTransmission addr; WireWrite (random_packet); EndTransmission;
                  Delay 23]) ;;;
   r <- receiveResponseData 35 debug ;;
   if negb r then k else
   idleMode ;;;
   r <- checkCount debug ;;
   if negb r then ret false else
   r <- checkCrc debug ;;
   if negb r then ret false else
   for_upto 32 (fun i =>
     buf <- get inputBuffer ;;
     rnd <- get random32Bytes ;;
     b <- lift (rd buf (i + 1)) ;;
     rnd <- lift (wr rnd i b) ;;
     modify (set_random32Bytes rnd)) ;;;
   when debug print_random32Bytes ;;;
   ret true) (set_crc (crc_spec [7; COMMAND_OPCODE_RANDOM; 0; 0; 0]) s).
Proof.
  unfold updateRandom32Bytes_with. cbv zeta. change (u8 (7 - 2)) with 5.
  rewrite (bind_Ok _ _ _ _ _ (atca_calculate_crc_eq 5 [7; COMMAND_OPCODE_RANDOM; 0; 0; 0] s
                                ltac:(lia) ltac:(cbn [length]; lia))).
  mgo. apply bind_ext. intros w sb _. mgo. trace_norm. reflexivity.
Qed.

(** The fetch once the wake-up has returned and the 35 bytes have been
    received: the two checks, then the copy. *)
Lemma updateRandom32Bytes_with_run (k : M bool) (debug w : bool) (s sb s1 : ATECCX08A) :
  (32 <= length (random32Bytes s))%nat ->
  wakeUp (set_crc (crc_spec [7; COMMAND_OPCODE_RANDOM; 0; 0; 0]) s) = Ok (w, sb) ->
  receiveResponseData 35 debug
    (emits [BeginTransmission (_i2caddr sb); WireWrite random_packet; EndTransmission;
            Delay 23] sb) = Ok (true, s1) ->
  exists (b : bool) (s' : ATECCX08A) (checks : list event),
    updateRandom32Bytes_with k debug s = Ok (b, s') /\
    inputBuffer s' = inputBuffer s1 /\ countGlobal s' = countGlobal s1 /\
    slave s' = slave s1 /\ _i2caddr s' = _i2caddr s1 /\
    b = fetch_ok (take 35 (inputBuffer s1)) /\
    random32Bytes s' =
      (if b then take 32 (drop 1 (inputBuffer s1)) ++ drop 32 (random32Bytes s)
       else random32Bytes s) /\
    trace s' = trace s1 ++ [BeginTransmission (_i2caddr s1);
                            WireWrite [WORD_ADDRESS_VALUE_IDLE]; EndTransmission] ++ checks /\
    serial_only checks.
Proof.
  intros Hrnd Hwake Hrecv. rewrite updateRandom32Bytes_with_unfold.
  rewrite (bind_Ok _ _ _ _ _ Hwake). mgo. rewrite (bind_Ok _ _ _ _ _ Hrecv). cbn [negb].
  apply wakeUp_with_inv in Hwake.
  destruct Hwake as (_ & _ & a0 & a1 & a2 & a3 & _ & _ & _ & _ & _ & Hwb &
                     _ & _ & _ & _ & Hwf & Hw4).
  unfold frame in Hwf; fields. destruct Hwf as [Hwa Hwr].
  apply receiveResponseData_inv in Hrecv; [|lia].
  destruct Hrecv as (_ & reqs & consumed & _ & _ & Hok & _ & _ & _ & _ &
                     Hc & Hbnd & Hb & _ & Hf).
  unfold frame in Hf; fields. destruct Hf as [Ha Hr].
  set (response := u8 <$> concat (chunks_of reqs consumed)) in *.
  assert (Hl35 : length response = 35%nat)
    by (subst response; rewrite length_fmap; apply requests_ok_total in Hok; lia).
  assert (Ht35 : take 35 (inputBuffer s1) = response)
    by (rewrite Hb; apply take_app_length'; lia).
  rewrite Ht35.
  rewrite (bind_Ok _ _ _ _ _ (idleMode_eq s1)).
  set (idle := [BeginTransmission (_i2caddr s1); _; _]).
  set (s2 := emits idle s1).
  destruct (rd_Some response 0) as (c0 & Hr0 & _); [lia|].
  destruct (rd_Some response 33) as (lo & Hr33 & _); [lia|].
  destruct (rd_Some response 34) as (hi & Hr34 & _); [lia|].
  assert (H0 : rd (inputBuffer s2) 0 = Some c0)
    by (subst s2; fields; rewrite Hb, rd_app_l by lia; exact Hr0).
  assert (H33 : rd (inputBuffer s2) (countGlobal s2 - 2) = Some lo)
    by (subst s2; fields; rewrite Hb, Hc, rd_app_l by lia; exact Hr33).
  assert (H34 : rd (inputBuffer s2) (countGlobal s2 - 1) = Some hi)
    by (subst s2; fields; rewrite Hb, Hc, rd_app_l by lia; exact Hr34).
  assert (Hcrc : crc_spec (take (Z.to_nat (countGlobal s2 - 2)) (inputBuffer s2)) =
                 crc_spec (take 33 response)).
  { subst s2; fields. rewrite Hb, Hc. change (Z.to_nat (35 - 2)) with 33%nat.
    rewrite take_app_le by lia. reflexivity. }
  assert (Hfetch : fetch_ok response =
            (c0 =? 35) && ((hi =? snd (crc_spec (take 33 response))) &&
                           (lo =? fst (crc_spec (take 33 response)))))
    by (unfold fetch_ok; rewrite Hr0, Hr33, Hr34; reflexivity).
  rewrite Hfetch.
  destruct (checkCount_eq debug s2 c0 H0) as (e1 & He1 & Hs1).
  assert (Hc2 : countGlobal s2 = 35) by (subst s2; fields; lia).
  rewrite (bind_Ok _ _ _ _ _ He1), Hc2.
  destruct (c0 =? 35) eqn:E0; cbn [negb andb] in *.
  2: { mgo. exists false, (emits e1 s2), e1. subst s2; fields.
       repeat split; try assumption; try congruence.
       rewrite <- app_assoc. reflexivity. }
  destruct (checkCrc_eq debug (emits e1 s2) lo hi) as (e2 & He2 & Hs2);
    [fields; lia | exact H33 | exact H34 |].
  rewrite (bind_Ok _ _ _ _ _ He2).
  replace (countGlobal (emits e1 s2)) with (countGlobal s2) by reflexivity.
  replace (inputBuffer (emits e1 s2)) with (inputBuffer s2) by reflexivity.
  rewrite Hcrc.
  destruct ((hi =? snd (crc_spec (take 33 response))) &&
            (lo =? fst (crc_spec (take 33 response)))) eqn:E1; cbn [negb] in *.
  2: { mgo. eexists false, _, (e1 ++ e2). split; [reflexivity|]. subst s2; fields.
       repeat split; try assumption; try congruence; [|serial].
       rewrite <- !app_assoc. reflexivity. }
  unfold for_upto at 1. change (Z.to_nat 32) with 32%nat.
  set (s3 := emits e2 _).
  rewrite (bind_Ok _ _ _ _ _ (copy_loop 32 0 s3 ltac:(lia)
             ltac:(subst s3 s2; fields; rewrite Hb, length_app, length_replicate; lia)
             ltac:(subst s3 s2; fields; rewrite Hr, Hwr; lia))).
  set (s4 := set_random32Bytes _ s3).
  destruct (print_random32Bytes_eq debug s4) as (prints' & Hp & Hs3).
  rewrite (bind_Ok _ _ _ _ _ Hp). mgo.
  eexists true, _, (e1 ++ e2 ++ prints'). split; [reflexivity|]. subst s4 s3 s2; fields.
  repeat split; try assumption; try congruence; [| |serial].
  - change (Z.to_nat 0) with 0%nat. rewrite take_0, app_nil_l. cbn [Nat.add].
    rewrite Hr, Hwr. reflexivity.
  - rewrite <- !app_assoc. reflexivity.
Qed.

Lemma updateRandom32Bytes_with_inv (k : M bool) (debug : bool) (s s' : ATECCX08A) (b : bool) :
  (32 <= length (random32Bytes s))%nat ->
  updateRandom32Bytes_with k debug s = Ok (b, s') ->
  exists (woken : list (list Z)) (reqs : list Z) (consumed : list (list Z)) (response : list Z)
         (wreqs : list Z) (wevs prints checks : list event),
    slave s = woken ++ consumed ++ slave s' /\
    requests_ok 35 reqs (chunks_of reqs consumed) /\
    length reqs = length consumed /\
    response = u8 <$> concat (chunks_of reqs consumed) /\
    length response = 35%nat /\
    inputBuffer s' = response ++ replicate (length (inputBuffer s) - 35) 0 /\
    countGlobal s' = 35 /\
    b = fetch_ok response /\
    random32Bytes s' =
      (if b then take 32 (drop 1 response) ++ drop 32 (random32Bytes s)
       else random32Bytes s) /\
    _i2caddr s' = _i2caddr s /\
    trace s' =
      trace s ++
      [BeginTransmission 0; EndTransmission; DelayMicroseconds 1500] ++
      (RequestFrom (_i2caddr s) <$> wreqs) ++ wevs ++
      [BeginTransmission (_i2caddr s); WireWrite random_packet; EndTransmission; Delay 23] ++
      (RequestFrom (_i2caddr s) <$> reqs) ++ prints ++
      [BeginTransmission (_i2caddr s); WireWrite [WORD_ADDRESS_VALUE_IDLE]; EndTransmission] ++
      checks /\
    serial_only wevs /\ serial_only prints /\ serial_only checks.
Proof.
  intros Hrnd Hrun. pose proof Hrun as Hrun0. revert Hrun0.
  rewrite updateRandom32Bytes_with_unfold. unfold bind at 1.
  set (sa := set_crc _ s).
  destruct (wakeUp sa) as [[w sb]| |] eqn:Hwake; try discriminate.
  mgo. unfold bind at 1.
  destruct (receiveResponseData 35 debug _) as [[r s1]| |] eqn:Hrecv; try discriminate.
  intros _.
  pose proof (receiveResponseData_true _ _ _ _ _ Hrecv) as ->.
  destruct (updateRandom32Bytes_with_run k debug w s sb s1 Hrnd Hwake Hrecv)
    as (b' & s'' & checks & Hrun' & Hbuf & Hcg & Hsl & Haddr & Hb' & Hrb & Htr & Hser).
  rewrite Hrun in Hrun'. injection Hrun' as <- <-.
  apply wakeUp_with_inv in Hwake.
  destruct Hwake as (wreqs & woken & a0 & a1 & a2 & a3 & wevs & Hwsc & _ & _ & _ & Hwb &
                     _ & Hwt & Hws & _ & Hwf & Hw4).
  subst sa; unfold frame in Hwf; fields. destruct Hwf as [Hwa Hwr].
  apply receiveResponseData_inv in Hrecv; [|lia].
  destruct Hrecv as (_ & reqs & consumed & prints & Hsc & Hok & Hlr & Ht & Hps & _ &
                     Hc & Hbnd & Hb & _ & Hf).
  unfold frame in Hf; fields. destruct Hf as [Ha Hr].
  assert (Hlen : length (inputBuffer sb) = length (inputBuffer s))
    by (rewrite Hwb, length_app, length_replicate; cbn [length]; lia).
  rewrite Hlen in *.
  set (response := u8 <$> concat (chunks_of reqs consumed)) in *.
  assert (Hl35 : length response = 35%nat)
    by (subst response; rewrite length_fmap; apply requests_ok_total in Hok; lia).
  assert (Ht35 : take 35 (inputBuffer s1) = response)
    by (rewrite Hb; apply take_app_length'; lia).
  assert (Hd : take 32 (drop 1 (inputBuffer s1)) = take 32 (drop 1 response)).
  { rewrite Hb, drop_app_le, take_app_le by (rewrite ?length_drop; lia). reflexivity. }
  rewrite Ht35 in Hb'. rewrite Hd in Hrb.
  exists woken, reqs, consumed, response, wreqs, wevs, prints, checks.
  repeat split; try assumption; try congruence.
  - rewrite Hbuf, Hb. reflexivity.
  - rewrite Htr, Ht, Hwt, Ha, Hwa. fields. rewrite <- !app_assoc. reflexivity.
Qed.

(** The script left once a reception of [len] bytes has taken its answers. *)
Lemma answers_left_spec (consumed : list (list Z)) :
  forall (reqs : list Z) (rest : list (list Z)) (len : Z),
    length reqs = length consumed ->
    requests_ok len reqs (chunks_of reqs consumed) ->
    answers_left (consumed ++ rest) len = rest.
Proof.
  induction consumed as [|a consumed IH]; intros [|q reqs] rest len Hl; try discriminate;
    cbn [chunks_of zip_with requests_ok].
  - intros ->. destruct rest; reflexivity.
  - intros (Hne & Hq & _ & Hok). cbn [app answers_left].
    destruct (Z.eqb_spec len 0); [lia|]. cbv zeta. rewrite <- Hq.
    apply (IH reqs); [cbn [length] in Hl; lia | exact Hok].
Qed.

(** When the slave answers the wake-up and then the read of 35 bytes, the
    fetch returns. *)
Lemma updateRandom32Bytes_with_ok (k : M bool) (debug : bool) (s : ATECCX08A) :
  35 <= Z.of_nat (length (inputBuffer s)) ->
  (32 <= length (random32Bytes s))%nat ->
  delivers (slave s) 4 = true ->
  delivers (answers_left (slave s) 4) 35 = true ->
  exists b s', updateRandom32Bytes_with k debug s = Ok (b, s').
Proof.
  intros Hbuf Hrnd Hd4 Hd35.
  set (sa := set_crc (crc_spec [7; COMMAND_OPCODE_RANDOM; 0; 0; 0]) s).
  destruct (wakeUp_with_ok (ret false) sa) as (w & sb & Hwake);
    [subst sa; fields; lia | exact Hd4 |].
  pose proof (wakeUp_with_inv _ _ _ _ Hwake)
    as (wreqs & woken & a0 & a1 & a2 & a3 & wevs & Hwsc & Hwok & Hwl & _ & Hwb & _).
  subst sa; fields.
  assert (Hleft : slave sb = answers_left (slave s) 4)
    by (rewrite Hwsc; symmetry; apply (answers_left_spec woken wreqs); assumption).
  destruct (receiveResponseData_ok 35 debug
              (emits [BeginTransmission (_i2caddr sb); WireWrite random_packet;
                      EndTransmission; Delay 23] sb)) as [s1 Hrecv];
    [lia | fields; rewrite Hwb, length_app, length_replicate; cbn [length]; lia
     | fields; rewrite Hleft; exact Hd35 |].
  destruct (updateRandom32Bytes_with_run k debug w s sb s1 Hrnd Hwake Hrecv)
    as (b & s' & _ & Hrun & _).
  eauto.
Qed.


(** ** Signed integers and the accessors *)

Lemma sint_eq (w x : Z) :
  0 < w -> sint w x = x - 2 ^ w * ((x + 2 ^ (w - 1)) / 2 ^ w).
Proof.
  intros Hw. unfold sint. rewrite Z.mod_eq by (apply Z.pow_nonzero; lia). lia.
Qed.

Lemma sint_congr (w x y k : Z) : 0 < w -> y = x + 2 ^ w * k -> sint w y = sint w x.
Proof.
  intros Hw ->. unfold sint. f_equal.
  replace (x + 2 ^ w * k + 2 ^ (w - 1)) with (x + 2 ^ (w - 1) + k * 2 ^ w) by lia.
  apply Z_mod_plus_full.
Qed.

Lemma sint_mod_pow2 (w n x : Z) : 0 <= n <= w -> 0 < w -> sint w x mod 2 ^ n = x mod 2 ^ n.
Proof.
  intros Hn Hw. rewrite sint_eq by exact Hw.
  replace (2 ^ w) with (2 ^ n * 2 ^ (w - n)) by (rewrite <- Z.pow_add_r; [f_equal|..]; lia).
  set (q := (x + 2 ^ (w - 1)) / (2 ^ n * 2 ^ (w - n))).
  replace (x - 2 ^ n * 2 ^ (w - n) * q) with (x + (- (2 ^ (w - n) * q)) * 2 ^ n) by lia.
  apply Z_mod_plus_full.
Qed.

Lemma sint_small (w x : Z) : 0 < w -> - 2 ^ (w - 1) <= x < 2 ^ (w - 1) -> sint w x = x.
Proof.
  intros Hw Hx. unfold sint.
  assert (H2 : 2 ^ w = 2 * 2 ^ (w - 1))
    by (replace w with (1 + (w - 1)) at 1 by lia; rewrite Z.pow_add_r by lia; reflexivity).
  rewrite Z.mod_small by lia. lia.
Qed.

(** A multiple of 256 stays one when read as a signed integer of at least
    nine bits, and a byte can be added below it without a carry. *)
Lemma sint_mul256 (w x : Z) :
  9 <= w -> sint w (256 * x) = 256 * ((x + 2 ^ (w - 9)) mod 2 ^ (w - 8) - 2 ^ (w - 9)).
Proof.
  intros Hw. unfold sint.
  replace (2 ^ (w - 1)) with (256 * 2 ^ (w - 9))
    by (change 256 with (2 ^ 8); rewrite <- Z.pow_add_r; [f_equal|..]; lia).
  replace (2 ^ w) with (256 * 2 ^ (w - 8))
    by (change 256 with (2 ^ 8); rewrite <- Z.pow_add_r; [f_equal|..]; lia).
  rewrite <- Z.mul_add_distr_l, Z.mul_mod_distr_l by (try apply Z.pow_nonzero; lia).
  lia.
Qed.

Lemma sint_add_low (w x b : Z) :
  9 <= w -> 0 <= b < 256 -> sint w (256 * x + b) = sint w (256 * x) + b.
Proof.
  intros Hw Hb. rewrite sint_mul256 by exact Hw. unfold sint.
  assert (Hh : 2 ^ (w - 1) = 256 * 2 ^ (w - 9))
    by (change 256 with (2 ^ 8); rewrite <- Z.pow_add_r; [f_equal|..]; lia).
  assert (Hm : 2 ^ w = 256 * 2 ^ (w - 8))
    by (change 256 with (2 ^ 8); rewrite <- Z.pow_add_r; [f_equal|..]; lia).
  assert (Hp : 0 < 2 ^ (w - 8)) by (apply Z.pow_pos_nonneg; lia).
  rewrite Hh, Hm.
  set (t := x + 2 ^ (w - 9)).
  replace (256 * x + b + 256 * 2 ^ (w - 9)) with (256 * t + b) by (subst t; lia).
  assert (Ht : 0 <= t mod 2 ^ (w - 8) < 2 ^ (w - 8)) by (apply Z.mod_pos_bound; lia).
  assert (E : (256 * t + b) mod (256 * 2 ^ (w - 8)) = 256 * (t mod 2 ^ (w - 8)) + b).
  { symmetry. apply Z.mod_unique with (t / 2 ^ (w - 8)); [lia|].
    rewrite (Z.div_mod t (2 ^ (w - 8))) at 1 by lia. lia. }
  rewrite E. lia.
Qed.

Lemma lor_add_low (a b : Z) : 0 <= b < 256 -> Z.lor (256 * a) b = 256 * a + b.
Proof.
  intros Hb. rewrite <- Z.lxor_lor, <- Z.add_nocarry_lxor; try reflexivity;
    apply Z.bits_inj'; intros n Hn; rewrite Z.land_spec, Z.bits_0;
    (destruct (Z.ltb_spec n 8);
     [ change 256 with (2 ^ 8); rewrite Z.mul_comm, Z.mul_pow2_bits_low by lia; reflexivity
     | rewrite (Z.bits_above_log2 b n), andb_false_r; [reflexivity | lia |];
       destruct (Z.eq_dec b 0) as [->|]; [simpl; lia|];
       apply Z.lt_le_trans with 8; [apply Z.log2_lt_pow2; lia | lia] ]).
Qed.


(** * The claims *)

(** C1.  [atca_calculate_crc] is the checksum of the specification: a 16-bit
    register starting at 0, each byte taken least significant bit first, each
    data bit compared with the top bit of the register, the register shifted
    left by one and XORed with 0x8005 when the two differ; [crc[0]] receives
    the low byte of the final register and [crc[1]] the high byte.  [length]
    is a [uint8_t] and the [length] bytes lie inside [data]. *)
Theorem atca_calculate_crc_refines_spec (length : Z) (data : list Z) (s : ATECCX08A) :
  0 <= length <= 255 -> length <= Z.of_nat (List.length data) ->
  atca_calculate_crc length data s =
  Ok (tt, set_crc (crc_spec (take (Z.to_nat length) data)) s).
Proof. exact (atca_calculate_crc_eq length data s). Qed.

(** C2.  A message followed by the two bytes [atca_calculate_crc] computes
    over it passes [checkCrc], when [countGlobal] is the total length. *)
Theorem checkCrc_round_trip (debug : bool) (msg rest : list Z) (s : ATECCX08A) :
  Z.of_nat (length msg) + 2 < 256 ->
  exists s1,
    atca_calculate_crc (Z.of_nat (length msg)) msg s = Ok (tt, s1) /\
    exists s2,
      checkCrc debug
        (set_countGlobal (Z.of_nat (length msg) + 2)
           (set_inputBuffer (msg ++ [fst (crc s1); snd (crc s1)] ++ rest) s1)) =
      Ok (true, s2).
Proof.
  intros Hlen. rewrite atca_calculate_crc_eq by lia. eexists. split; [reflexivity|].
  rewrite Nat2Z.id, firstn_all. fields.
  set (c := crc_spec msg).
  set (s1 := set_countGlobal _ _).
  assert (Hlo : rd (inputBuffer s1) (countGlobal s1 - 2) = Some (fst c)).
  { subst s1; fields. unfold rd. destruct (Z.leb_spec 0 (Z.of_nat (length msg) + 2 - 2)); [|lia].
    replace (Z.to_nat (Z.of_nat (length msg) + 2 - 2)) with (length msg + 0)%nat by lia.
    rewrite lookup_app_r by lia. replace (length msg + 0 - length msg)%nat with 0%nat by lia.
    reflexivity. }
  assert (Hhi : rd (inputBuffer s1) (countGlobal s1 - 1) = Some (snd c)).
  { subst s1; fields. unfold rd. destruct (Z.leb_spec 0 (Z.of_nat (length msg) + 2 - 1)); [|lia].
    replace (Z.to_nat (Z.of_nat (length msg) + 2 - 1)) with (length msg + 1)%nat by lia.
    rewrite lookup_app_r by lia. replace (length msg + 1 - length msg)%nat with 1%nat by lia.
    reflexivity. }
  destruct (checkCrc_eq debug s1 (fst c) (snd c)) as (evs & He & _);
    [subst s1; fields; lia | exact Hlo | exact Hhi |].
  rewrite He. subst s1; fields.
  replace (Z.to_nat (Z.of_nat (length msg) + 2 - 2)) with (length msg) by lia.
  rewrite take_app_length. fold c. rewrite !Z.eqb_refl. eauto.
Qed.

(** C3.  A response that passes [checkCrc] no longer passes it once any
    single bit of any of its [countGlobal] bytes is flipped. *)
Theorem checkCrc_detects_bit_flip (debug : bool) (s s1 : ATECCX08A) (i j : Z) :
  0 <= countGlobal s < 256 ->
  checkCrc debug s = Ok (true, s1) ->
  0 <= i < countGlobal s -> 0 <= j < 8 ->
  exists s2,
    checkCrc debug (set_inputBuffer (flip_bit i j (inputBuffer s)) s) = Ok (false, s2).
Proof.
  intros Hcg Hpass Hi Hj.
  destruct (checkCrc_true_inv debug s s1 Hcg Hpass) as [H2 Hbuf].
  destruct (rd_Some (inputBuffer s) (countGlobal s - 2)) as (lo & Hlo & Hlo'); [lia|].
  destruct (rd_Some (inputBuffer s) (countGlobal s - 1)) as (hi & Hhi & Hhi'); [lia|].
  destruct (checkCrc_eq debug s lo hi) as (evs & He & _); [lia | assumption..|].
  rewrite He in Hpass. injection Hpass as Hb _.
  apply andb_true_iff in Hb as [Hb1 Hb0]. apply Z.eqb_eq in Hb1, Hb0.
  set (s' := set_inputBuffer _ s).
  assert (Hlen : length (inputBuffer s') = length (inputBuffer s))
    by (subst s'; fields; unfold flip_bit; apply length_alter).
  destruct (rd_Some (inputBuffer s') (countGlobal s' - 2)) as (lo' & Hlo2 & Hlo2');
    [subst s'; fields; fields; rewrite Hlen; lia|].
  destruct (rd_Some (inputBuffer s') (countGlobal s' - 1)) as (hi' & Hhi2 & Hhi2');
    [subst s'; fields; fields; rewrite Hlen; lia|].
  destruct (checkCrc_eq debug s' lo' hi') as (evs' & He' & _);
    [subst s'; fields; lia | assumption..|].
  rewrite He'. eexists. f_equal. f_equal.
  apply andb_false_iff.
  subst s'; fields. unfold flip_bit in *.
  destruct (Z.ltb_spec i (countGlobal s - 2)) as [Hlt|Hge].
  - (* the flipped bit lies in the bytes the checksum covers *)
    rewrite list_lookup_alter_ne in Hlo2', Hhi2' by lia.
    assert (lo' = lo) by congruence. assert (hi' = hi) by congruence. subst lo' hi'.
    rewrite take_alter_lt by lia.
    pose proof (crc_register_spec_flip (take (Z.to_nat (countGlobal s - 2)) (inputBuffer s)) i j
                  ltac:(rewrite length_take; lia) Hj) as Hne.
    unfold flip_bit in Hne.
    match goal with |- (hi =? ?x) = false \/ _ => destruct (Z.eqb_spec hi x) as [E1|] end;
      [|auto].
    right. apply Z.eqb_neq. intros E0. apply Hne. apply crc_spec_fields_inj.
    + transitivity lo; [symmetry; exact E0 | exact Hb0].
    + transitivity hi; [symmetry; exact E1 | exact Hb1].
  - (* the flipped bit lies in one of the two checksum bytes *)
    rewrite take_alter_ge by lia.
    destruct (Z.eq_dec i (countGlobal s - 2)) as [->|Hne].
    + right. rewrite list_lookup_alter_eq, Hlo' in Hlo2'.
      injection Hlo2' as <-. apply Z.eqb_neq. intros E. apply (lxor_pow2_neq lo j); [lia|].
      transitivity (fst (crc_spec (take (Z.to_nat (countGlobal s - 2)) (inputBuffer s))));
        [exact E | symmetry; exact Hb0].
    + left. assert (i = countGlobal s - 1) as -> by lia.
      rewrite list_lookup_alter_eq, Hhi' in Hhi2'.
      injection Hhi2' as <-. apply Z.eqb_neq. intros E. apply (lxor_pow2_neq hi j); [lia|].
      transitivity (snd (crc_spec (take (Z.to_nat (countGlobal s - 2)) (inputBuffer s))));
        [exact E | symmetry; exact Hb1].
Qed.


(** C5.  [checkCount] returns false exactly when the first byte of the
    buffer differs from [countGlobal], and true otherwise; it changes nothing
    but the console output. *)
Theorem checkCount_iff (debug : bool) (s : ATECCX08A) (count : Z) :
  inputBuffer s !! 0%nat = Some count ->
  exists b evs,
    checkCount debug s = Ok (b, emits evs s) /\ serial_only evs /\
    (b = false <-> count <> countGlobal s) /\
    (b = true <-> count = countGlobal s).
Proof.
  intros Hb. destruct (checkCount_eq debug s count Hb) as (evs & He & Hs).
  exists (count =? countGlobal s), evs.
  split; [exact He|]. split; [exact Hs|].
  destruct (Z.eqb_spec count (countGlobal s)); split; split; congruence.
Qed.

(** C6.  [checkCrc] recomputes the checksum over the received bytes but the
    last two, and returns false exactly when byte [countGlobal - 2] differs
    from the low checksum byte or byte [countGlobal - 1] from the high one;
    otherwise it returns true. *)
Theorem checkCrc_iff (debug : bool) (s : ATECCX08A) (lo hi : Z) :
  2 <= countGlobal s < 256 ->
  inputBuffer s !! Z.to_nat (countGlobal s - 2) = Some lo ->
  inputBuffer s !! Z.to_nat (countGlobal s - 1) = Some hi ->
  let covered := take (Z.to_nat (countGlobal s - 2)) (inputBuffer s) in
  exists b s' s1,
    checkCrc debug s = Ok (b, s') /\
    atca_calculate_crc (countGlobal s - 2) (inputBuffer s) s = Ok (tt, s1) /\
    crc s' = crc s1 /\ crc s1 = crc_spec covered /\
    (b = false <-> lo <> fst (crc s1) \/ hi <> snd (crc s1)) /\
    (b = true <-> lo = fst (crc s1) /\ hi = snd (crc s1)).
Proof.
  intros Hcg Hlo Hhi covered.
  assert (Hlo' : rd (inputBuffer s) (countGlobal s - 2) = Some lo)
    by (unfold rd; destruct (Z.leb_spec 0 (countGlobal s - 2)); [exact Hlo | lia]).
  assert (Hhi' : rd (inputBuffer s) (countGlobal s - 1) = Some hi)
    by (unfold rd; destruct (Z.leb_spec 0 (countGlobal s - 1)); [exact Hhi | lia]).
  destruct (checkCrc_eq debug s lo hi Hcg Hlo' Hhi') as (evs & He & _).
  apply rd_inv in Hlo' as [Hr _].
  rewrite atca_calculate_crc_eq by lia. fold covered in He |- *.
  do 3 eexists. split; [exact He|]. split; [reflexivity|]. fields.
  split; [reflexivity|]. split; [reflexivity|].
  destruct (Z.eqb_spec hi (snd (crc_spec covered))), (Z.eqb_spec lo (fst (crc_spec covered)));
    cbn [andb]; split; split; intros; try discriminate; try tauto.
Qed.

(** A single answer long enough serves the whole reception. *)
Lemma requests_single (len : Z) (ack : list Z) (rest rest' : list (list Z))
      (reqs : list Z) (consumed : list (list Z)) :
  0 < len <= 32 -> len <= Z.of_nat (length ack) ->
  ack :: rest = consumed ++ rest' -> length reqs = length consumed ->
  requests_ok len reqs (chunks_of reqs consumed) ->
  reqs = [len] /\ consumed = [ack] /\ rest' = rest.
Proof.
  intros Hlen Hack Hsc Hl Hok.
  destruct reqs as [|q reqs], consumed as [|a consumed]; try discriminate;
    cbn [chunks_of zip_with requests_ok] in Hok; [lia|].
  injection Hsc as <- Hsc. destruct Hok as (_ & Hq & _ & Hok).
  destruct (Z.gtb_spec len 32); [lia|]. subst q.
  rewrite length_take in Hok.
  replace (len - Z.of_nat (Z.to_nat len `min` length ack)) with 0 in Hok by lia.
  destruct reqs as [|q reqs], consumed as [|a consumed]; try discriminate;
    cbn [zip_with requests_ok] in Hok; [|lia].
  cbn [app] in Hsc. auto.
Qed.

(** C4 (as amended).  When the bus hands over four bytes, [wakeUp] returns,
    and it returns true exactly when the first of them is 4 (the count
    check), the last two are the checksum of the first two (the checksum
    check) and the second is 0x11; otherwise it returns false.  It sends one
    wake pulse and then only read requests: nothing is retried.  The
    acknowledgement 0x04 0x11 0x33 0x43 yields true; with 0x44 for its last
    byte it fails the checksum check and yields false. *)
Theorem wakeUp_acknowledgement (s : ATECCX08A) :
  4 <= Z.of_nat (length (inputBuffer s)) ->
  delivers (slave s) 4 = true ->
  exists (b : bool) (s' : ATECCX08A) (a0 a1 a2 a3 : Z)
         (reqs : list Z) (consumed : list (list Z)) (evs : list event),
    wakeUp s = Ok (b, s') /\
    slave s = consumed ++ slave s' /\
    u8 <$> concat (chunks_of reqs consumed) = [a0; a1; a2; a3] /\
    inputBuffer s' = [a0; a1; a2; a3] ++ replicate (length (inputBuffer s) - 4) 0 /\
    countGlobal s' = 4 /\
    (b = true <-> a0 = 4 /\ crc_spec [a0; a1] = (a2, a3) /\ a1 = 0x11) /\
    (b = false <-> ~ (a0 = 4 /\ crc_spec [a0; a1] = (a2, a3) /\ a1 = 0x11)) /\
    trace s' = trace s ++ [BeginTransmission 0; EndTransmission; DelayMicroseconds 1500] ++
               (RequestFrom (_i2caddr s) <$> reqs) ++ evs /\
    serial_only evs /\
    (forall ack rest, slave s = ack :: rest -> 4 <= Z.of_nat (length ack) ->
       [a0; a1; a2; a3] = u8 <$> take 4 ack /\ reqs = [4] /\ slave s' = rest) /\
    (forall rest, slave s = [0x04; 0x11; 0x33; 0x43] :: rest -> b = true) /\
    (forall rest, slave s = [0x04; 0x11; 0x33; 0x44] :: rest -> b = false).
Proof.
  intros Hbuf Hdel.
  destruct (wakeUp_with_ok (ret false) s Hbuf Hdel) as (b & s' & Hrun).
  destruct (wakeUp_with_inv _ _ _ _ Hrun)
    as (reqs & consumed & a0 & a1 & a2 & a3 & evs & Hsc & Hok & Hlr & Hack & Hb & Hc &
        Ht & Hs & Hw & _ & _).
  exists b, s', a0, a1, a2, a3, reqs, consumed, evs.
  assert (Hiff : b = true <-> a0 = 4 /\ crc_spec [a0; a1] = (a2, a3) /\ a1 = 17).
  { rewrite Hw. unfold wake_ok. rewrite !andb_true_iff, !Z.eqb_eq.
    destruct (crc_spec [a0; a1]) as [c0 c1]. cbn [fst snd].
    split; [intros [[? [? ?]] ?]; repeat split; congruence|].
    intros (? & [= ? ?] & ?). repeat split; congruence. }
  repeat (split; [assumption|]).
  split; [rewrite <- Hiff; destruct b; split; congruence|].
  split; [exact Ht|]. split; [exact Hs|].
  assert (Hsingle : forall ack rest, slave s = ack :: rest -> 4 <= Z.of_nat (length ack) ->
            [a0; a1; a2; a3] = u8 <$> take 4 ack /\ reqs = [4] /\ slave s' = rest).
  { intros ack rest Hhd Hlen.
    destruct (requests_single 4 ack rest (slave s') reqs consumed) as (-> & -> & ->);
      try assumption; try lia; [congruence|].
    rewrite <- Hack. cbn [chunks_of zip_with concat]. rewrite app_nil_r.
    auto. }
  split; [exact Hsingle|].
  split; intros rest Hhd;
    (destruct (Hsingle _ rest Hhd) as ([= -> -> -> ->] & _); [cbn; lia|]);
    rewrite Hw; vm_compute; reflexivity.
Qed.


(** C7.  [receiveResponseData]: when the slave keeps answering, the call
    returns; and whenever it returns, every read request asked for at most 32
    bytes (32 while more than 32 bytes were still to come, what was left
    otherwise), the bytes handed over were stored from the start of the
    buffer in the order of arrival, and the call ended with exactly [len]
    bytes taken; a length above 32 took at least two requests. *)
Theorem receiveResponseData_chunked (len : Z) (debug : bool) (s : ATECCX08A) :
  0 <= len < 256 ->
  (len <= Z.of_nat (length (inputBuffer s)) -> delivers (slave s) len = true ->
   exists s', receiveResponseData len debug s = Ok (true, s')) /\
  (forall (r : bool) (s' : ATECCX08A),
     receiveResponseData len debug s = Ok (r, s') ->
     exists (reqs : list Z) (consumed : list (list Z)) (prints : list event),
       let chunks := chunks_of reqs consumed in
       slave s = consumed ++ slave s' /\
       length reqs = length consumed /\
       trace s' = trace s ++ (RequestFrom (_i2caddr s) <$> reqs) ++ prints /\
       serial_only prints /\
       Forall (fun q => 0 < q <= 32) reqs /\
       (forall (k : nat) (q : Z), reqs !! k = Some q ->
          let remaining := len - Z.of_nat (length (concat (take k chunks))) in
          q = if remaining >? 32 then 32 else remaining) /\
       Forall2 (fun q c => Z.of_nat (length c) <= q) reqs chunks /\
       Z.of_nat (length (concat chunks)) = len /\
       countGlobal s' = len /\
       take (Z.to_nat len) (inputBuffer s') = u8 <$> concat chunks /\
       (32 < len -> (2 <= length reqs)%nat)).
Proof.
  intros Hlen. split; [intros Hbuf Hdel; apply receiveResponseData_ok; assumption|].
  intros r s' Hrun. apply receiveResponseData_inv in Hrun; [|exact Hlen].
  destruct Hrun as (_ & reqs & consumed & prints & Hsc & Hok & Hlr & Ht & Hs & _ &
                    Hc & Hbnd & Hb & _ & _).
  exists reqs, consumed, prints. cbv zeta.
  pose proof (requests_ok_total _ _ _ Hok) as Hsum.
  repeat (split; [assumption|]).
  split; [apply (requests_ok_bounds reqs (chunks_of reqs consumed) len); [lia | exact Hok]|].
  split; [intros k q Hk; exact (requests_ok_lookup _ _ _ k q Hok Hk)|].
  split; [apply (requests_ok_sizes reqs _ len Hok)|].
  split; [exact Hsum|]. split; [exact Hc|].
  split; [|intros H32; exact (requests_ok_several _ _ _ H32 Hok)].
  rewrite Hb. apply take_app_length'. rewrite length_fmap. lia.
Qed.

(** C9.  [receiveResponseData] never returns false, so the statement the
    callers run on a false answer is dead: whatever it is, [wakeUp],
    [getInfo] and [updateRandom32Bytes] behave the same. *)
Theorem receiveResponseData_never_false :
  (forall (len : Z) (debug : bool) (s s' : ATECCX08A) (r : bool),
     receiveResponseData len debug s = Ok (r, s') -> r = true) /\
  (forall (on_receive_false : M bool) (s : ATECCX08A),
     wakeUp_with on_receive_false s = wakeUp s) /\
  (forall (on_receive_false : M bool) (s : ATECCX08A),
     getInfo_with on_receive_false s = getInfo s) /\
  (forall (on_receive_false : M bool) (debug : bool) (s : ATECCX08A),
     updateRandom32Bytes_with on_receive_false debug s = updateRandom32Bytes debug s).
Proof.
  split; [exact receiveResponseData_true|].
  split; [|split].
  - intros k s. unfold wakeUp, wakeUp_with. dead_branch.
  - intros k s. unfold getInfo, getInfo_with. cbv zeta. dead_branch.
  - intros k debug s. unfold updateRandom32Bytes, updateRandom32Bytes_with. cbv zeta.
    dead_branch.
Qed.


(** ** The accessors *)

(** [return_val <<= 8; return_val |= b] on a signed integer of [w] bits. *)
Lemma shift_or_byte (w v b : Z) :
  9 <= w -> 0 <= b < 256 ->
  Z.lor (sint w (Z.shiftl v 8)) b = sint w (v * 256 + b).
Proof.
  intros Hw Hb. rewrite Z.shiftl_mul_pow2 by lia. change (2 ^ 8) with 256.
  rewrite (Z.mul_comm v 256), (sint_add_low w v b Hw Hb), sint_mul256 by exact Hw.
  apply lor_add_low. exact Hb.
Qed.

Lemma sint_shift_or_byte (w x b : Z) :
  9 <= w -> 0 <= b < 256 ->
  Z.lor (sint w (Z.shiftl (sint w x) 8)) b = sint w (x * 256 + b).
Proof.
  intros Hw Hb. rewrite shift_or_byte by assumption.
  apply sint_congr with (k := - (256 * ((x + 2 ^ (w - 1)) / 2 ^ w))); [lia|].
  rewrite (sint_eq w x) by lia. lia.
Qed.

Lemma getRandomByte_eq (debug ok : bool) (s s1 : ATECCX08A) (b0 : Z) :
  updateRandom32Bytes debug s = Ok (ok, s1) ->
  random32Bytes s1 !! 0%nat = Some b0 ->
  getRandomByte debug s = Ok (b0, s1).
Proof.
  intros Hrun H0. unfold getRandomByte. rewrite (bind_Ok _ _ _ _ _ Hrun). mgo.
  change (rd (random32Bytes s1) 0) with (random32Bytes s1 !! 0%nat). rewrite H0. reflexivity.
Qed.

Lemma getRandomInt_eq (debug ok : bool) (s s1 : ATECCX08A) (b0 b1 : Z) :
  updateRandom32Bytes debug s = Ok (ok, s1) ->
  random32Bytes s1 !! 0%nat = Some b0 -> random32Bytes s1 !! 1%nat = Some b1 ->
  getRandomInt debug s = Ok (Z.lor (sint INT_BITS (Z.shiftl b0 8)) b1, s1).
Proof.
  intros Hrun H0 H1. unfold getRandomInt. rewrite (bind_Ok _ _ _ _ _ Hrun). mgo.
  change (rd (random32Bytes s1) 0) with (random32Bytes s1 !! 0%nat). rewrite H0. mgo.
  change (rd (random32Bytes s1) 1) with (random32Bytes s1 !! 1%nat). rewrite H1. mgo.
  reflexivity.
Qed.

Lemma getRandomLong_eq (debug ok : bool) (s s1 : ATECCX08A) (b0 b1 b2 b3 : Z) :
  updateRandom32Bytes debug s = Ok (ok, s1) ->
  random32Bytes s1 !! 0%nat = Some b0 -> random32Bytes s1 !! 1%nat = Some b1 ->
  random32Bytes s1 !! 2%nat = Some b2 -> random32Bytes s1 !! 3%nat = Some b3 ->
  getRandomLong debug s =
  Ok (Z.lor (sint LONG_BITS (Z.shiftl
        (Z.lor (sint LONG_BITS (Z.shiftl
           (Z.lor (sint LONG_BITS (Z.shiftl b0 8)) b1) 8)) b2) 8)) b3, s1).
Proof.
  intros Hrun H0 H1 H2 H3. unfold getRandomLong. rewrite (bind_Ok _ _ _ _ _ Hrun). mgo.
  change (rd (random32Bytes s1) 0) with (random32Bytes s1 !! 0%nat). rewrite H0. mgo.
  change (rd (random32Bytes s1) 1) with (random32Bytes s1 !! 1%nat). rewrite H1. mgo.
  change (rd (random32Bytes s1) 2) with (random32Bytes s1 !! 2%nat). rewrite H2. mgo.
  change (rd (random32Bytes s1) 3) with (random32Bytes s1 !! 3%nat). rewrite H3. mgo.
  reflexivity.
Qed.

Lemma int_of_bytes (b0 b1 : Z) :
  9 <= INT_BITS -> is_byte b1 ->
  Z.lor (sint INT_BITS (Z.shiftl b0 8)) b1 = sint INT_BITS (be16 b0 b1).
Proof. intros Hw H1. apply shift_or_byte; assumption. Qed.

Lemma long_of_bytes (b0 b1 b2 b3 : Z) :
  9 <= LONG_BITS -> is_byte b1 -> is_byte b2 -> is_byte b3 ->
  Z.lor (sint LONG_BITS (Z.shiftl
    (Z.lor (sint LONG_BITS (Z.shiftl
       (Z.lor (sint LONG_BITS (Z.shiftl b0 8)) b1) 8)) b2) 8)) b3 =
  sint LONG_BITS (be32 b0 b1 b2 b3).
Proof.
  intros Hw H1 H2 H3. unfold be32.
  rewrite (shift_or_byte LONG_BITS b0 b1), !sint_shift_or_byte by assumption.
  reflexivity.
Qed.

Lemma list_length_ge_4 {A} (l : list A) :
  (4 <= length l)%nat -> exists a0 a1 a2 a3, take 4 l = [a0; a1; a2; a3].
Proof.
  destruct l as [|a0 [|a1 [|a2 [|a3 l]]]]; cbn [length]; try lia. eauto.
Qed.


Lemma u8_is_byte (x : Z) : is_byte (u8 x).
Proof. unfold is_byte, u8. apply Z.mod_pos_bound. lia. Qed.

Lemma Forall_is_byte_u8 (l : list Z) : Forall is_byte (u8 <$> l).
Proof. apply Forall_fmap, Forall_forall. intros x _. apply u8_is_byte. Qed.

(** What the three accessors return, from the state the fetch leaves. *)
Lemma accessors_eq (debug ok : bool) (s s1 : ATECCX08A) :
  16 <= INT_BITS -> 32 <= LONG_BITS ->
  updateRandom32Bytes debug s = Ok (ok, s1) ->
  (4 <= length (random32Bytes s1))%nat -> Forall is_byte (random32Bytes s1) ->
  exists b0 b1 b2 b3,
    take 4 (random32Bytes s1) = [b0; b1; b2; b3] /\
    getRandomByte debug s = Ok (b0, s1) /\
    getRandomInt debug s = Ok (sint INT_BITS (be16 b0 b1), s1) /\
    getRandomLong debug s = Ok (sint LONG_BITS (be32 b0 b1 b2 b3), s1) /\
    is_byte b0 /\ is_byte b1 /\ is_byte b2 /\ is_byte b3.
Proof.
  intros Hi Hl Hrun Hlen Hbytes.
  destruct (list_length_ge_4 _ Hlen) as (b0 & b1 & b2 & b3 & Ht).
  assert (Hk : forall k b, [b0; b1; b2; b3] !! k = Some b ->
                 random32Bytes s1 !! k = Some b /\ is_byte b).
  { intros k b Hkb. rewrite <- Ht in Hkb. apply lookup_take_Some in Hkb as [Hkb _].
    split; [exact Hkb|]. eapply Forall_lookup_1; eassumption. }
  destruct (Hk 0%nat b0 eq_refl) as [H0 B0]. destruct (Hk 1%nat b1 eq_refl) as [H1 B1].
  destruct (Hk 2%nat b2 eq_refl) as [H2 B2]. destruct (Hk 3%nat b3 eq_refl) as [H3 B3].
  exists b0, b1, b2, b3. split; [exact Ht|].
  split; [exact (getRandomByte_eq _ _ _ _ _ Hrun H0)|].
  split; [rewrite <- int_of_bytes by (assumption || lia);
          exact (getRandomInt_eq _ _ _ _ _ _ Hrun H0 H1)|].
  split; [rewrite <- long_of_bytes by (assumption || lia);
          exact (getRandomLong_eq _ _ _ _ _ _ _ _ Hrun H0 H1 H2 H3)|].
  auto.
Qed.

(** C8.  A successful [updateRandom32Bytes] leaves in [random32Bytes] the
    bytes 1 to 32 of the 35-byte response.  Each accessor runs the fetch
    anew (a Random command goes out on the bus at every call) and answers
    from the buffer the fetch leaves: its first byte, its first two bytes as
    a big-endian 16-bit number, its first four bytes as a big-endian 32-bit
    number, read as the signed [int] and [long] of the target.  When the
    slave answers the wake-up and the read of 35 bytes, the fetch and so the
    accessors return. *)
Theorem random_fetch_and_accessors (debug : bool) (s : ATECCX08A) :
  length (random32Bytes s) = 32%nat -> Forall is_byte (random32Bytes s) ->
  16 <= INT_BITS -> 32 <= LONG_BITS ->
  (35 <= Z.of_nat (length (inputBuffer s)) ->
   delivers (slave s) 4 = true -> delivers (answers_left (slave s) 4) 35 = true ->
   exists ok s1, updateRandom32Bytes debug s = Ok (ok, s1)) /\
  forall (ok : bool) (s1 : ATECCX08A),
    updateRandom32Bytes debug s = Ok (ok, s1) ->
    (ok = true ->
     exists (woken : list (list Z)) (reqs : list Z) (consumed : list (list Z))
            (response : list Z),
       slave s = woken ++ consumed ++ slave s1 /\
       response = u8 <$> concat (chunks_of reqs consumed) /\
       length response = 35%nat /\
       inputBuffer s1 = response ++ replicate (length (inputBuffer s) - 35) 0 /\
       random32Bytes s1 = take 32 (drop 1 response) /\
       forall i : nat, (i < 32)%nat ->
         random32Bytes s1 !! i = inputBuffer s1 !! (i + 1)%nat) /\
    (exists before after : list event,
       trace s1 = trace s ++ before ++
                  [BeginTransmission (_i2caddr s); WireWrite random_packet;
                   EndTransmission; Delay 23] ++ after) /\
    exists b0 b1 b2 b3 v w,
      take 4 (random32Bytes s1) = [b0; b1; b2; b3] /\
      getRandomByte debug s = Ok (b0, s1) /\
      getRandomInt debug s = Ok (v, s1) /\
      v = sint INT_BITS (be16 b0 b1) /\ v mod 2 ^ 16 = be16 b0 b1 /\
      getRandomLong debug s = Ok (w, s1) /\
      w = sint LONG_BITS (be32 b0 b1 b2 b3) /\ w mod 2 ^ 32 = be32 b0 b1 b2 b3.
Proof.
  intros Hlen Hbytes Hi Hl.
  split; [intros Hbuf Hd4 Hd35; apply updateRandom32Bytes_with_ok; assumption || lia|].
  intros ok s1 Hrun.
  destruct (updateRandom32Bytes_with_inv (ret false) debug s s1 ok ltac:(lia) Hrun)
    as (woken & reqs & consumed & response & wreqs & wevs & prints & checks & Hsc & _ & _ &
        Hresp & Hl35 & Hb & _ & _ & Hrnd & _ & Htr & _).
  assert (Hrb : Forall is_byte response) by (rewrite Hresp; apply Forall_is_byte_u8).
  assert (Hd : drop 32 (random32Bytes s) = []) by (apply drop_ge; lia).
  rewrite Hd, app_nil_r in Hrnd.
  split; [|split].
  - intros ->. exists woken, reqs, consumed, response.
    repeat (split; [assumption|]). rewrite Hrnd, Hb.
    intros i Hi32. rewrite lookup_take_lt, lookup_drop by lia.
    rewrite lookup_app_l by lia. f_equal. lia.
  - exists ([BeginTransmission 0; EndTransmission; DelayMicroseconds 1500] ++
            (RequestFrom (_i2caddr s) <$> wreqs) ++ wevs),
           ((RequestFrom (_i2caddr s) <$> reqs) ++ prints ++
            [BeginTransmission (_i2caddr s); WireWrite [WORD_ADDRESS_VALUE_IDLE];
             EndTransmission] ++ checks).
    rewrite Htr, <- !app_assoc. reflexivity.
  - destruct (accessors_eq debug ok s s1 Hi Hl Hrun)
      as (b0 & b1 & b2 & b3 & Ht & HB & HI & HL & B0 & B1 & B2 & B3).
    + rewrite Hrnd. destruct ok; [rewrite length_take, length_drop|]; lia.
    + rewrite Hrnd. destruct ok; [apply Forall_take, Forall_drop|]; assumption.
    + exists b0, b1, b2, b3, (sint INT_BITS (be16 b0 b1)), (sint LONG_BITS (be32 b0 b1 b2 b3)).
      unfold is_byte in *.
      repeat (split; [assumption || reflexivity|]).
      split; [rewrite sint_mod_pow2 by lia; apply Z.mod_small; unfold be16; lia|].
      split; [assumption|]. split; [reflexivity|].
      rewrite sint_mod_pow2 by lia. apply Z.mod_small. unfold be32. lia.
Qed.

(** C10.  When the fetch fails its count or checksum check, [random32Bytes]
    keeps its contents and each accessor still returns the value these
    contents give (0 when they are all zero); what it returns carries no sign
    of the failure. *)
Theorem accessors_after_failed_fetch (debug : bool) (s s1 : ATECCX08A) :
  length (random32Bytes s) = 32%nat -> Forall is_byte (random32Bytes s) ->
  16 <= INT_BITS -> 32 <= LONG_BITS ->
  updateRandom32Bytes debug s = Ok (false, s1) ->
  random32Bytes s1 = random32Bytes s /\
  (exists response, take 35 (inputBuffer s1) = response /\ fetch_ok response = false) /\
  exists b0 b1 b2 b3,
    take 4 (random32Bytes s) = [b0; b1; b2; b3] /\
    getRandomByte debug s = Ok (b0, s1) /\
    getRandomInt debug s = Ok (sint INT_BITS (be16 b0 b1), s1) /\
    getRandomLong debug s = Ok (sint LONG_BITS (be32 b0 b1 b2 b3), s1) /\
    (random32Bytes s = replicate 32 0 ->
     b0 = 0 /\ sint INT_BITS (be16 b0 b1) = 0 /\ sint LONG_BITS (be32 b0 b1 b2 b3) = 0).
Proof.
  intros Hlen Hbytes Hi Hl Hrun.
  destruct (updateRandom32Bytes_with_inv (ret false) debug s s1 false ltac:(lia) Hrun)
    as (woken & reqs & consumed & response & wreqs & wevs & prints & checks & _ & _ & _ & _ &
        Hl35 & Hb & _ & Hok & Hrnd & _).
  cbn [negb] in Hrnd. split; [exact Hrnd|].
  split; [exists response; split; [rewrite Hb; apply take_app_length'; lia | congruence]|].
  destruct (accessors_eq debug false s s1 Hi Hl Hrun)
    as (b0 & b1 & b2 & b3 & Ht & HB & HI & HL & _); [rewrite Hrnd; lia | rewrite Hrnd; exact Hbytes|].
  rewrite Hrnd in Ht. exists b0, b1, b2, b3.
  repeat (split; [assumption|]).
  intros Hz. rewrite Hz in Ht. injection Ht as <- <- <- <-.
  change (be16 0 0) with 0. change (be32 0 0 0 0) with 0.
  assert (Hp : forall w, 16 <= w -> sint w 0 = 0).
  { intros w Hw. apply sint_small; [lia|].
    assert (0 < 2 ^ (w - 1)) by (apply Z.pow_pos_nonneg; lia). lia. }
  rewrite !Hp by lia. auto.
Qed.


(** * Further properties of the code *)

(** ** Calls that do not return *)

Lemma bind_Hang {A B} (m : M A) (k : A -> M B) (s : ATECCX08A) :
  m s = Hang -> bind m k s = Hang.
Proof. intros H. unfold bind. rewrite H. reflexivity. Qed.

Lemma bind_OutOfBounds {A B} (m : M A) (k : A -> M B) (s : ATECCX08A) :
  m s = OutOfBounds -> bind m k s = OutOfBounds.
Proof. intros H. unfold bind. rewrite H. reflexivity. Qed.

(** The reception loop spins for ever once the slave has stopped answering
    with bytes still to come. *)
Lemma receive_loop_hang (script : list (list Z)) :
  forall (len : Z) (s : ATECCX08A),
    0 <= countGlobal s -> 0 <= len -> countGlobal s + len < 256 ->
    countGlobal s + len <= Z.of_nat (length (inputBuffer s)) ->
    delivers script len = false ->
    receive_loop script len s = Hang.
Proof.
  induction script as [|answer script IH]; intros len s Hcg Hlen H256 Hbuf Hdel.
  - destruct (Z.eq_dec len 0) as [->|Hne]; [discriminate Hdel|].
    apply receive_loop_nil. exact Hne.
  - destruct (Z.eq_dec len 0) as [->|Hne]; [discriminate Hdel|].
    revert Hdel. cbn [delivers]. destruct (Z.eqb_spec len 0); [lia|]. cbv zeta.
    rewrite receive_loop_cons by exact Hne. cbv zeta.
    set (q := if len >? 32 then 32 else len).
    assert (Hq : 0 < q <= 32 /\ q <= len) by (subst q; destruct (Z.gtb_spec len 32); lia).
    set (rx := take (Z.to_nat q) answer).
    assert (Hrx : Z.of_nat (length rx) <= q) by (subst rx; rewrite length_take; lia).
    intros Hdel. mgo.
    set (s1 := set_rxBuffer rx (set_slave script (emit (RequestFrom (_i2caddr s) q) s))).
    destruct (drain_run rx len s1) as (s2 & Hd & Hc2 & Hb2 & _);
      try (subst s1; fields; lia).
    rewrite (bind_Ok _ _ _ _ _ Hd). subst s1; fields.
    apply IH; try lia; [|exact Hdel].
    rewrite Hc2, Hb2, !length_app, length_take, length_fmap, length_drop. lia.
Qed.

(** Asked for more bytes than the buffer has room for, the loop stores a
    byte past its end. *)
Lemma receive_loop_oob (script : list (list Z)) :
  forall (len : Z) (s : ATECCX08A),
    0 <= countGlobal s <= Z.of_nat (length (inputBuffer s)) ->
    0 <= len -> countGlobal s + len < 256 ->
    Z.of_nat (length (inputBuffer s)) < countGlobal s + len ->
    delivers script len = true ->
    receive_loop script len s = OutOfBounds.
Proof.
  induction script as [|answer script IH]; intros len s Hcg Hlen H256 Hbuf Hdel.
  - destruct (Z.eq_dec len 0) as [->|Hne]; [lia|].
    revert Hdel. cbn [delivers]. destruct (Z.eqb_spec len 0); [lia | discriminate].
  - destruct (Z.eq_dec len 0) as [->|Hne]; [lia|].
    revert Hdel. cbn [delivers]. destruct (Z.eqb_spec len 0); [lia|]. cbv zeta.
    rewrite receive_loop_cons by exact Hne. cbv zeta.
    set (q := if len >? 32 then 32 else len).
    assert (Hq : 0 < q <= 32 /\ q <= len) by (subst q; destruct (Z.gtb_spec len 32); lia).
    set (rx := take (Z.to_nat q) answer).
    assert (Hrx : Z.of_nat (length rx) <= q) by (subst rx; rewrite length_take; lia).
    intros Hdel. mgo.
    set (s1 := set_rxBuffer rx (set_slave script (emit (RequestFrom (_i2caddr s) q) s))).
    destruct (Z.leb_spec (countGlobal s + Z.of_nat (length rx))
                         (Z.of_nat (length (inputBuffer s)))) as [Hin|Hout].
    + destruct (drain_run rx len s1) as (s2 & Hd & Hc2 & Hb2 & _);
        try (subst s1; fields; lia).
      rewrite (bind_Ok _ _ _ _ _ Hd). subst s1; fields.
      assert (Hlb2 : length (inputBuffer s2) = length (inputBuffer s)).
      { rewrite Hb2, !length_app, length_take, length_fmap, length_drop. lia. }
      apply IH; try lia. exact Hdel.
    + apply bind_OutOfBounds. apply drain_oob; subst s1; fields; lia.
Qed.





Lemma receiveResponseData_hang (len : Z) (debug : bool) (s : ATECCX08A) :
  0 <= len < 256 -> len <= Z.of_nat (length (inputBuffer s)) ->
  delivers (slave s) len = false ->
  receiveResponseData len debug s = Hang.
Proof.
  intros Hlen Hbuf Hdel. rewrite receiveResponseData_unfold.
  apply bind_Hang. apply receive_loop_hang; fields; rewrite ?length_replicate; try lia.
  exact Hdel.
Qed.

(** X1.  [cleanInputBuffer] sets every element of [inputBuffer] to zero,
    whatever the size of the array; it stays inside the array and changes
    nothing else. *)
Theorem cleanInputBuffer_zeroes (s : ATECCX08A) :
  exists s',
    cleanInputBuffer s = Ok (tt, s') /\
    length (inputBuffer s') = length (inputBuffer s) /\
    (forall i : nat, (i < length (inputBuffer s))%nat -> inputBuffer s' !! i = Some 0) /\
    _i2caddr s' = _i2caddr s /\ random32Bytes s' = random32Bytes s /\ crc s' = crc s /\
    countGlobal s' = countGlobal s /\ rxBuffer s' = rxBuffer s /\ slave s' = slave s /\
    trace s' = trace s.
Proof.
  eexists. split; [apply cleanInputBuffer_eq|]. fields.
  split; [apply length_replicate|].
  split; [|repeat split].
  intros i Hi. apply lookup_replicate_2. exact Hi.
Qed.

(** X2.  [receiveResponseData] starts from a cleared buffer and a counter
    reset to zero: what the buffer and [countGlobal] held before the call has
    no influence on its result. *)
Theorem receiveResponseData_forgets_previous
        (len : Z) (debug : bool) (s : ATECCX08A) (buf : list Z) (cg : Z) :
  length buf = length (inputBuffer s) ->
  receiveResponseData len debug (set_countGlobal cg (set_inputBuffer buf s)) =
  receiveResponseData len debug s.
Proof.
  intros Hl. rewrite !receiveResponseData_unfold. fields. rewrite Hl. reflexivity.
Qed.


(** X4.  [receiveResponseData] does not return when the slave stops
    answering before [len] bytes have arrived: an empty answer leaves
    [length] as it is, and nothing bounds the number of requests. *)
Theorem receiveResponseData_slave_stops (len : Z) (debug : bool) (s : ATECCX08A) :
  0 <= len < 256 -> len <= Z.of_nat (length (inputBuffer s)) ->
  delivers (slave s) len = false ->
  receiveResponseData len debug s = Hang.
Proof. exact (receiveResponseData_hang len debug s). Qed.

(** X5.  [receiveResponseData] does not compare [length] with the size of
    [inputBuffer]: asked for more bytes than the array has, and the slave
    delivering them, it stores a byte outside the array. *)
Theorem receiveResponseData_overruns_buffer (len : Z) (debug : bool) (s : ATECCX08A) :
  0 <= len < 256 -> Z.of_nat (length (inputBuffer s)) < len ->
  delivers (slave s) len = true ->
  receiveResponseData len debug s = OutOfBounds.
Proof.
  intros Hlen Hbuf Hdel. rewrite receiveResponseData_unfold.
  apply bind_OutOfBounds. apply receive_loop_oob; fields; rewrite ?length_replicate; try lia.
  exact Hdel.
Qed.

(** ** A slave that fills every request *)

Lemma full_requests_0 : full_requests 0 = [].
Proof. reflexivity. Qed.

Lemma full_requests_last (len : Z) : 0 < len <= 32 -> full_requests len = [len].
Proof.
  intros Hlen. unfold full_requests. destruct (Z.eq_dec len 32) as [->|Hne]; [reflexivity|].
  rewrite Z.div_small, Z.mod_small by lia.
  destruct (Z.eqb_spec len 0); [lia | reflexivity].
Qed.

Lemma full_requests_more (len : Z) :
  32 < len -> full_requests len = 32 :: full_requests (len - 32).
Proof.
  intros Hlen. unfold full_requests.
  assert (Hd : len / 32 = (len - 32) / 32 + 1)
    by (replace len with ((len - 32) + 1 * 32) at 1 by lia; apply Z.div_add; lia).
  assert (Hm : len mod 32 = (len - 32) mod 32)
    by (replace len with ((len - 32) + 1 * 32) at 1 by lia; apply Z_mod_plus_full).
  rewrite Hd, Hm.
  replace (Z.to_nat ((len - 32) / 32 + 1)) with (S (Z.to_nat ((len - 32) / 32)))
    by (assert (0 <= (len - 32) / 32) by (apply Z.div_pos; lia); lia).
  reflexivity.
Qed.

Lemma full_requests_length (len : Z) :
  0 <= len -> Z.of_nat (length (full_requests len)) = (len + 31) / 32.
Proof.
  intros Hlen. unfold full_requests. rewrite length_app, length_replicate.
  assert (H0 : 0 <= len / 32) by (apply Z.div_pos; lia).
  destruct (Z.eqb_spec (len mod 32) 0) as [Hm|Hm]; cbn [length];
    [apply Z.div_unique with 31 | apply Z.div_unique with (len mod 32 - 1)];
    pose proof (Z.div_mod len 32 ltac:(lia)); pose proof (Z.mod_pos_bound len 32 ltac:(lia));
    lia.
Qed.

Lemma requests_full (reqs : list Z) :
  forall (consumed : list (list Z)) (len : Z),
    0 <= len -> length reqs = length consumed ->
    Forall (fun answer => 32 <= Z.of_nat (length answer)) consumed ->
    requests_ok len reqs (chunks_of reqs consumed) ->
    reqs = full_requests len.
Proof.
  induction reqs as [|q reqs IH]; intros [|a consumed] len Hlen Hl Hfull; try discriminate;
    cbn [chunks_of zip_with requests_ok].
  - intros ->. reflexivity.
  - intros (Hne & Hq & _ & Hok). apply Forall_cons in Hfull as [Ha Hfull].
    assert (Hq' : 0 < q <= 32 /\ q <= len) by (subst q; destruct (Z.gtb_spec len 32); lia).
    rewrite length_take in Hok.
    replace (Z.of_nat (Z.to_nat q `min` length a)) with q in Hok by lia.
    apply IH in Hok; [|lia | cbn [length] in Hl; lia | exact Hfull].
    rewrite Hok. destruct (Z.gtb_spec len 32).
    + subst q. symmetry. apply full_requests_more. lia.
    + subst q. rewrite Z.sub_diag, full_requests_0. symmetry. apply full_requests_last. lia.
Qed.

(** X6.  In front of a slave that fills every request, a reception of
    [len] bytes takes the requests 32, 32, ... and then what is left: as many
    as [len / 32] rounded up, each answered by one answer of the slave. *)
Theorem receiveResponseData_full_answers
        (len : Z) (debug : bool) (s s' : ATECCX08A) (r : bool) :
  0 <= len < 256 ->
  Forall (fun answer => 32 <= Z.of_nat (length answer)) (slave s) ->
  receiveResponseData len debug s = Ok (r, s') ->
  exists prints,
    trace s' = trace s ++ (RequestFrom (_i2caddr s) <$> full_requests len) ++ prints /\
    serial_only prints /\
    Z.of_nat (length (full_requests len)) = (len + 31) / 32 /\
    slave s' = drop (length (full_requests len)) (slave s).
Proof.
  intros Hlen Hfull Hrun. apply receiveResponseData_inv in Hrun; [|exact Hlen].
  destruct Hrun as (_ & reqs & consumed & prints & Hsc & Hok & Hlr & Ht & Hs & _).
  rewrite Hsc in Hfull. apply Forall_app in Hfull as [Hfull _].
  apply requests_full in Hok; [|lia | exact Hlr | exact Hfull]. subst reqs.
  exists prints. split; [exact Ht|]. split; [exact Hs|].
  split; [apply full_requests_length; lia|].
  rewrite Hsc, Hlr, drop_app_length. reflexivity.
Qed.

(** ** Reads outside the arrays *)

Lemma rd_None (a : list Z) (i : Z) : Z.of_nat (length a) <= i -> rd a i = None.
Proof.
  intros Hi. unfold rd. destruct (0 <=? i); [|reflexivity]. apply lookup_ge_None_2. lia.
Qed.

(** The byte loop of the checksum walks off the end of an array shorter
    than [length]. *)
Lemma crc_byte_loop_oob (n : nat) :
  forall (fuel : nat) (counter length : Z) (data : list Z) (r : Z),
    0 <= counter -> Z.of_nat (List.length data) = counter + Z.of_nat n ->
    Z.of_nat (List.length data) < length <= 255 -> (n < fuel)%nat -> 0 <= r < 65536 ->
    crc_byte_loop fuel counter length data r = OutOfBounds.
Proof.
  induction n as [|n IH]; intros fuel counter len data r Hc Hn Hlen Hfuel Hr;
    (destruct fuel as [|fuel]; [lia|]); rewrite crc_byte_loop_S;
    (destruct (Z.ltb_spec counter len); [|lia]).
  - rewrite rd_None by lia. reflexivity.
  - destruct (rd_Some data counter) as (byte & -> & _); [lia|].
    rewrite crc_bit_loop_spec by exact Hr.
    assert (Hu : u8 (counter + 1) = counter + 1) by (apply Z.mod_small; lia).
    rewrite Hu. apply IH; try lia. apply fold_left_range. exact Hr.
Qed.

Lemma atca_calculate_crc_oob (length : Z) (data : list Z) (s : ATECCX08A) :
  Z.of_nat (List.length data) < length <= 255 ->
  atca_calculate_crc length data s = OutOfBounds.
Proof.
  intros Hlen. unfold atca_calculate_crc.
  rewrite (crc_byte_loop_oob (List.length data)) by lia. reflexivity.
Qed.

(** X7.  [atca_calculate_crc] trusts its [length]: over an array of fewer
    than [length] elements it reads past the end of the array. *)
Theorem atca_calculate_crc_reads_past_data (length : Z) (data : list Z) (s : ATECCX08A) :
  Z.of_nat (List.length data) < length <= 255 ->
  atca_calculate_crc length data s = OutOfBounds.
Proof. exact (atca_calculate_crc_oob length data s). Qed.


(** ** The all-zero message *)

Lemma crc_register_spec_zeros (n : nat) : crc_register_spec (replicate n 0) = 0.
Proof.
  unfold crc_register_spec. induction n as [|n IH]; [reflexivity|].
  cbn [replicate]. rewrite bind_cons, fold_left_app.
  assert (H0 : fold_left crc_step_spec (bits_lsb_first 0) 0 = 0) by (vm_compute; reflexivity).
  rewrite H0. exact IH.
Qed.

(** X9.  The register starts at zero, so the checksum of zeros is 0x00
    0x00: a response of [countGlobal] zero bytes passes [checkCrc], and it is
    [checkCount] that turns it down. *)
Theorem checkCrc_accepts_zeros (debug : bool) (s : ATECCX08A) :
  2 <= countGlobal s < 256 ->
  take (Z.to_nat (countGlobal s)) (inputBuffer s) = replicate (Z.to_nat (countGlobal s)) 0 ->
  (exists s', checkCrc debug s = Ok (true, s')) /\
  (exists s', checkCount debug s = Ok (false, s')).
Proof.
  intros Hcg Hz.
  assert (Hlen : countGlobal s <= Z.of_nat (length (inputBuffer s))).
  { apply (f_equal length) in Hz. rewrite length_take, length_replicate in Hz. lia. }
  assert (Hk : forall i, 0 <= i < countGlobal s -> rd (inputBuffer s) i = Some 0).
  { intros i Hi. unfold rd. destruct (Z.leb_spec 0 i); [|lia].
    rewrite <- (lookup_take_lt (inputBuffer s) (Z.to_nat (countGlobal s))) by lia.
    rewrite Hz. apply lookup_replicate_2. lia. }
  split.
  - destruct (checkCrc_eq debug s 0 0) as (evs & He & _); [lia | apply Hk; lia..|].
    rewrite He. eexists. f_equal. f_equal.
    replace (take (Z.to_nat (countGlobal s - 2)) (inputBuffer s))
      with (replicate (Z.to_nat (countGlobal s - 2)) 0).
    + unfold crc_spec. rewrite crc_register_spec_zeros. reflexivity.
    + replace (Z.to_nat (countGlobal s - 2))
        with (Z.to_nat (countGlobal s - 2) `min` Z.to_nat (countGlobal s))%nat at 2 by lia.
      rewrite <- take_take, Hz, take_replicate. f_equal. lia.
  - destruct (checkCount_eq debug s 0) as (evs & He & _); [apply Hk; lia|].
    rewrite He. eexists. f_equal. f_equal. apply Z.eqb_neq. lia.
Qed.

(** ** getInfo *)

(** The command packet of [getInfo]. *)
Lemma getInfo_with_unfold (k : M bool) (s : ATECCX08A) :
  getInfo_with k s =
  (wakeUp ;;;
   addr <- get _i2caddr ;;
   modify (emits [BeginTransmission addr; WireWrite info_packet; EndTransmission;
                  Delay 1]) ;;;
   modify (set_countGlobal 0) ;;;
   r <- receiveResponseData 7 true ;;
   if negb r then k else
   idleMode ;;;
   r <- checkCount false ;;
   if negb r then ret false else
   r <- checkCrc false ;;
   if negb r then ret false else
   buf <- get inputBuffer ;;
   b <- lift (rd buf 3) ;;
   if b =? 0x50 then ret true else ret false)
    (set_crc (crc_spec [7; COMMAND_OPCODE_INFO; 0; 0; 0]) s).
Proof.
  unfold getInfo_with. cbv zeta. change (u8 (7 - 2)) with 5.
  rewrite (bind_Ok _ _ _ _ _ (atca_calculate_crc_eq 5 [7; COMMAND_OPCODE_INFO; 0; 0; 0] s
                                ltac:(lia) ltac:(cbn [length]; lia))).
  mgo. apply bind_ext. intros w sb _. mgo. trace_norm. reflexivity.
Qed.

(** [getInfo] once the wake-up has returned and the 7 bytes have been
    received: the idle command, then the three checks. *)
Lemma getInfo_with_run (k : M bool) (w : bool) (s sb s1 : ATECCX08A) :
  wakeUp (set_crc (crc_spec [7; COMMAND_OPCODE_INFO; 0; 0; 0]) s) = Ok (w, sb) ->
  receiveResponseData 7 true
    (set_countGlobal 0
       (emits [BeginTransmission (_i2caddr sb); WireWrite info_packet; EndTransmission;
               Delay 1] sb)) = Ok (true, s1) ->
  exists (b : bool) (s' : ATECCX08A) (checks : list event),
    getInfo_with k s = Ok (b, s') /\
    inputBuffer s' = inputBuffer s1 /\ countGlobal s' = countGlobal s1 /\
    slave s' = slave s1 /\ _i2caddr s' = _i2caddr s1 /\
    random32Bytes s' = random32Bytes s1 /\
    b = info_ok (take 7 (inputBuffer s1)) /\
    trace s' = trace s1 ++ [BeginTransmission (_i2caddr s1);
                            WireWrite [WORD_ADDRESS_VALUE_IDLE]; EndTransmission] ++ checks /\
    serial_only checks.
Proof.
  intros Hwake Hrecv. rewrite getInfo_with_unfold.
  rewrite (bind_Ok _ _ _ _ _ Hwake). mgo. rewrite (bind_Ok _ _ _ _ _ Hrecv). cbn [negb].
  apply receiveResponseData_inv in Hrecv; [|lia].
  destruct Hrecv as (_ & reqs & consumed & _ & _ & Hok & _ & _ & _ & _ &
                     Hc & Hbnd & Hb & _ & Hf).
  set (response := u8 <$> concat (chunks_of reqs consumed)) in *.
  assert (Hl7 : length response = 7%nat)
    by (subst response; rewrite length_fmap; apply requests_ok_total in Hok; lia).
  assert (Ht7 : take 7 (inputBuffer s1) = response)
    by (rewrite Hb; apply take_app_length'; lia).
  rewrite Ht7.
  rewrite (bind_Ok _ _ _ _ _ (idleMode_eq s1)).
  set (idle := [BeginTransmission (_i2caddr s1); _; _]).
  set (s2 := emits idle s1).
  destruct (rd_Some response 0) as (c0 & Hr0 & _); [lia|].
  destruct (rd_Some response 3) as (rev & Hr3 & _); [lia|].
  destruct (rd_Some response 5) as (lo & Hr5 & _); [lia|].
  destruct (rd_Some response 6) as (hi & Hr6 & _); [lia|].
  assert (H0 : rd (inputBuffer s2) 0 = Some c0)
    by (subst s2; fields; rewrite Hb, rd_app_l by lia; exact Hr0).
  assert (H3 : rd (inputBuffer s2) 3 = Some rev)
    by (subst s2; fields; rewrite Hb, rd_app_l by lia; exact Hr3).
  assert (H5 : rd (inputBuffer s2) (countGlobal s2 - 2) = Some lo)
    by (subst s2; fields; rewrite Hb, Hc, rd_app_l by lia; exact Hr5).
  assert (H6 : rd (inputBuffer s2) (countGlobal s2 - 1) = Some hi)
    by (subst s2; fields; rewrite Hb, Hc, rd_app_l by lia; exact Hr6).
  assert (Hcrc : crc_spec (take (Z.to_nat (countGlobal s2 - 2)) (inputBuffer s2)) =
                 crc_spec (take 5 response)).
  { subst s2; fields. rewrite Hb, Hc. change (Z.to_nat (7 - 2)) with 5%nat.
    rewrite take_app_le by lia. reflexivity. }
  assert (Hinfo : info_ok response =
            (c0 =? 7) && ((hi =? snd (crc_spec (take 5 response))) &&
                          (lo =? fst (crc_spec (take 5 response)))) && (rev =? 0x50))
    by (unfold info_ok; rewrite Hr0, Hr3, Hr5, Hr6; reflexivity).
  rewrite Hinfo.
  destruct (checkCount_eq false s2 c0 H0) as (e1 & He1 & Hs1).
  assert (Hc2 : countGlobal s2 = 7) by (subst s2; fields; lia).
  rewrite (bind_Ok _ _ _ _ _ He1), Hc2.
  destruct (c0 =? 7) eqn:E0; cbn [negb andb] in *.
  2: { mgo. exists false, (emits e1 s2), e1. subst s2; fields.
       repeat split; try assumption; try congruence.
       rewrite <- app_assoc. reflexivity. }
  destruct (checkCrc_eq false (emits e1 s2) lo hi) as (e2 & He2 & Hs2);
    [fields; lia | exact H5 | exact H6 |].
  rewrite (bind_Ok _ _ _ _ _ He2).
  replace (countGlobal (emits e1 s2)) with (countGlobal s2) by reflexivity.
  replace (inputBuffer (emits e1 s2)) with (inputBuffer s2) by reflexivity.
  rewrite Hcrc.
  destruct ((hi =? snd (crc_spec (take 5 response))) &&
            (lo =? fst (crc_spec (take 5 response)))) eqn:E1; cbn [negb andb] in *.
  2: { mgo. eexists false, _, (e1 ++ e2). split; [reflexivity|]. subst s2; fields.
       repeat split; try assumption; try congruence; [|serial].
       rewrite <- !app_assoc. reflexivity. }
  mgo. rewrite H3. mgo.
  destruct (rev =? 80); mgo;
    (eexists _, _, (e1 ++ e2); split; [reflexivity|]; subst s2; fields;
     repeat split; try assumption; try congruence; [|serial];
     rewrite <- !app_assoc; reflexivity).
Qed.

Lemma list_length_7 {A} (l : list A) :
  length l = 7%nat -> exists a0 a1 a2 a3 a4 a5 a6, l = [a0; a1; a2; a3; a4; a5; a6].
Proof.
  destruct l as [|a0 [|a1 [|a2 [|a3 [|a4 [|a5 [|a6 [|a7 l]]]]]]]]; try discriminate.
  intros _. do 7 eexists. reflexivity.
Qed.

Lemma info_ok_iff (r0 r1 r2 r3 r4 r5 r6 : Z) :
  info_ok [r0; r1; r2; r3; r4; r5; r6] = true <->
  r0 = 7 /\ crc_spec [r0; r1; r2; r3; r4] = (r5, r6) /\ r3 = 0x50.
Proof.
  unfold info_ok.
  change (rd [r0; r1; r2; r3; r4; r5; r6] 0) with (Some r0).
  change (rd [r0; r1; r2; r3; r4; r5; r6] 3) with (Some r3).
  change (rd [r0; r1; r2; r3; r4; r5; r6] 5) with (Some r5).
  change (rd [r0; r1; r2; r3; r4; r5; r6] 6) with (Some r6).
  change (take 5 [r0; r1; r2; r3; r4; r5; r6]) with [r0; r1; r2; r3; r4].
  cbv iota beta.
  rewrite !andb_true_iff, !Z.eqb_eq.
  destruct (crc_spec [r0; r1; r2; r3; r4]) as [c0 c1]. cbn [fst snd].
  split; [intros [[? [? ?]] ?]; repeat split; congruence|].
  intros (? & [= ? ?] & ?). repeat split; congruence.
Qed.

Lemma getInfo_with_inv (k : M bool) (s s' : ATECCX08A) (b : bool) :
  getInfo_with k s = Ok (b, s') ->
  exists (woken consumed : list (list Z)) (wreqs reqs : list Z) (response : list Z)
         (wevs prints checks : list event),
    slave s = woken ++ consumed ++ slave s' /\
    requests_ok 4 wreqs (chunks_of wreqs woken) /\ length wreqs = length woken /\
    requests_ok 7 reqs (chunks_of reqs consumed) /\ length reqs = length consumed /\
    response = u8 <$> concat (chunks_of reqs consumed) /\
    length response = 7%nat /\
    inputBuffer s' = response ++ replicate (length (inputBuffer s) - 7) 0 /\
    countGlobal s' = 7 /\
    b = info_ok response /\
    random32Bytes s' = random32Bytes s /\
    _i2caddr s' = _i2caddr s /\
    trace s' =
      trace s ++
      [BeginTransmission 0; EndTransmission; DelayMicroseconds 1500] ++
      (RequestFrom (_i2caddr s) <$> wreqs) ++ wevs ++
      [BeginTransmission (_i2caddr s); WireWrite info_packet; EndTransmission; Delay 1] ++
      (RequestFrom (_i2caddr s) <$> reqs) ++ prints ++
      [BeginTransmission (_i2caddr s); WireWrite [WORD_ADDRESS_VALUE_IDLE]; EndTransmission] ++
      checks /\
    serial_only wevs /\ serial_only prints /\ serial_only checks.
Proof.
  intros Hrun. pose proof Hrun as Hrun0. revert Hrun0.
  rewrite getInfo_with_unfold. unfold bind at 1.
  set (sa := set_crc _ s).
  destruct (wakeUp sa) as [[w sb]| |] eqn:Hwake; try discriminate.
  mgo. unfold bind at 1.
  destruct (receiveResponseData 7 true _) as [[r s1]| |] eqn:Hrecv; try discriminate.
  intros _.
  pose proof (receiveResponseData_true _ _ _ _ _ Hrecv) as ->.
  destruct (getInfo_with_run k w s sb s1 Hwake Hrecv)
    as (b' & s'' & checks & Hrun' & Hbuf & Hcg & Hsl & Haddr & Hrnd & Hb' & Htr & Hser).
  rewrite Hrun in Hrun'. injection Hrun' as <- <-.
  apply wakeUp_with_inv in Hwake.
  destruct Hwake as (wreqs & woken & a0 & a1 & a2 & a3 & wevs & Hwsc & Hwok & Hwl & _ & Hwb &
                     _ & Hwt & Hws & _ & Hwf & Hw4).
  subst sa; unfold frame in Hwf; fields. destruct Hwf as [Hwa Hwr].
  apply receiveResponseData_inv in Hrecv; [|lia].
  destruct Hrecv as (_ & reqs & consumed & prints & Hsc & Hok & Hlr & Ht & Hps & _ &
                     Hc & Hbnd & Hb & _ & Hf).
  unfold frame in Hf; fields. destruct Hf as [Ha Hr].
  assert (Hlen : length (inputBuffer sb) = length (inputBuffer s))
    by (rewrite Hwb, length_app, length_replicate; cbn [length]; lia).
  rewrite Hlen in *.
  set (response := u8 <$> concat (chunks_of reqs consumed)) in *.
  assert (Hl7 : length response = 7%nat)
    by (subst response; rewrite length_fmap; apply requests_ok_total in Hok; lia).
  assert (Ht7 : take 7 (inputBuffer s1) = response)
    by (rewrite Hb; apply take_app_length'; lia).
  rewrite Ht7 in Hb'.
  exists woken, consumed, wreqs, reqs, response, wevs, prints, checks.
  repeat split; try assumption; try congruence.
  - rewrite Hbuf, Hb. reflexivity.
  - rewrite Htr, Ht, Hwt, Ha, Hwa. fields. rewrite <- !app_assoc. reflexivity.
Qed.

Lemma getInfo_with_ok (k : M bool) (s : ATECCX08A) :
  7 <= Z.of_nat (length (inputBuffer s)) ->
  delivers (slave s) 4 = true ->
  delivers (answers_left (slave s) 4) 7 = true ->
  exists b s', getInfo_with k s = Ok (b, s').
Proof.
  intros Hbuf Hd4 Hd7.
  set (sa := set_crc (crc_spec [7; COMMAND_OPCODE_INFO; 0; 0; 0]) s).
  destruct (wakeUp_with_ok (ret false) sa) as (w & sb & Hwake);
    [subst sa; fields; lia | exact Hd4 |].
  pose proof (wakeUp_with_inv _ _ _ _ Hwake)
    as (wreqs & woken & a0 & a1 & a2 & a3 & wevs & Hwsc & Hwok & Hwl & _ & Hwb & _).
  subst sa; fields.
  assert (Hleft : slave sb = answers_left (slave s) 4)
    by (rewrite Hwsc; symmetry; apply (answers_left_spec woken wreqs); assumption).
  destruct (receiveResponseData_ok 7 true
              (set_countGlobal 0
                 (emits [BeginTransmission (_i2caddr sb); WireWrite info_packet;
                         EndTransmission; Delay 1] sb))) as [s1 Hrecv];
    [lia | fields; rewrite Hwb, length_app, length_replicate; cbn [length]; lia
     | fields; rewrite Hleft; exact Hd7 |].
  destruct (getInfo_with_run k w s sb s1 Hwake Hrecv) as (b & s' & _ & Hrun & _).
  eauto.
Qed.

(** X10.  [getInfo] writes the Info packet (word address, count 7, opcode,
    three zero bytes, checksum) after a wake-up whose result it does not
    look at, waits 1 ms, reads 7 bytes, and sends the idle command before it
    checks anything.  It returns true exactly when the first byte of the
    response is 7, its last two bytes are the checksum of the first five and
    its fourth byte is 0x50.  [random32Bytes] and the bus address are left
    alone.  When the slave answers the wake-up and the read, the call
    returns. *)
Theorem getInfo_response (s : ATECCX08A) :
  (7 <= Z.of_nat (length (inputBuffer s)) ->
   delivers (slave s) 4 = true -> delivers (answers_left (slave s) 4) 7 = true ->
   exists b s', getInfo s = Ok (b, s')) /\
  forall (b : bool) (s' : ATECCX08A),
    getInfo s = Ok (b, s') ->
    exists (woken consumed : list (list Z)) (wreqs reqs : list Z)
           (r0 r1 r2 r3 r4 r5 r6 : Z) (wevs prints checks : list event),
      slave s = woken ++ consumed ++ slave s' /\
      u8 <$> concat (chunks_of reqs consumed) = [r0; r1; r2; r3; r4; r5; r6] /\
      inputBuffer s' =
        [r0; r1; r2; r3; r4; r5; r6] ++ replicate (length (inputBuffer s) - 7) 0 /\
      (b = true <-> r0 = 7 /\ crc_spec [r0; r1; r2; r3; r4] = (r5, r6) /\ r3 = 0x50) /\
      random32Bytes s' = random32Bytes s /\
      _i2caddr s' = _i2caddr s /\
      trace s' =
        trace s ++
        [BeginTransmission 0; EndTransmission; DelayMicroseconds 1500] ++
        (RequestFrom (_i2caddr s) <$> wreqs) ++ wevs ++
        [BeginTransmission (_i2caddr s); WireWrite info_packet; EndTransmission; Delay 1] ++
        (RequestFrom (_i2caddr s) <$> reqs) ++ prints ++
        [BeginTransmission (_i2caddr s); WireWrite [WORD_ADDRESS_VALUE_IDLE];
         EndTransmission] ++
        checks /\
      serial_only wevs /\ serial_only prints /\ serial_only checks.
Proof.
  split; [intros Hbuf Hd4 Hd7; apply getInfo_with_ok; assumption|].
  intros b s' Hrun.
  destruct (getInfo_with_inv (ret false) s s' b Hrun)
    as (woken & consumed & wreqs & reqs & response & wevs & prints & checks & Hsc & _ & _ &
        _ & _ & Hresp & Hl7 & Hb & _ & Hok & Hrnd & Ha & Htr & Hs1 & Hs2 & Hs3).
  destruct (list_length_7 response Hl7) as (r0 & r1 & r2 & r3 & r4 & r5 & r6 & Hr).
  exists woken, consumed, wreqs, reqs, r0, r1, r2, r3, r4, r5, r6, wevs, prints, checks.
  split; [exact Hsc|]. split; [rewrite <- Hresp; exact Hr|].
  split; [rewrite Hb, Hr; reflexivity|].
  split; [rewrite Hok, Hr; apply info_ok_iff|].
  repeat (split; [assumption|]). assumption.
Qed.

(** ** A chip that does not answer *)

Lemma wakeUp_with_hang (k : M bool) (s : ATECCX08A) :
  4 <= Z.of_nat (length (inputBuffer s)) -> delivers (slave s) 4 = false ->
  wakeUp_with k s = Hang.
Proof.
  intros Hbuf Hdel. unfold wakeUp_with. mgo. apply bind_Hang.
  apply receiveResponseData_hang; fields; try lia. exact Hdel.
Qed.

Lemma begin_eq (i2caddr : Z) (s : ATECCX08A) :
  begin i2caddr s = wakeUp (set_i2caddr i2caddr s).
Proof. reflexivity. Qed.

(** X11.  A chip that does not answer the wake-up is not reported: the
    reception loop inside [wakeUp] keeps requesting, so [begin], [wakeUp],
    [getInfo], the random fetch and the three accessors do not return, rather
    than return false. *)
Theorem unanswered_wakeUp_never_returns (i2caddr : Z) (debug : bool) (s : ATECCX08A) :
  4 <= Z.of_nat (length (inputBuffer s)) -> delivers (slave s) 4 = false ->
  begin i2caddr s = Hang /\ wakeUp s = Hang /\ getInfo s = Hang /\
  updateRandom32Bytes debug s = Hang /\
  getRandomByte debug s = Hang /\ getRandomInt debug s = Hang /\
  getRandomLong debug s = Hang.
Proof.
  intros Hbuf Hdel.
  assert (Hu : updateRandom32Bytes debug s = Hang).
  { unfold updateRandom32Bytes. rewrite updateRandom32Bytes_with_unfold.
    apply bind_Hang. apply wakeUp_with_hang; fields; assumption. }
  split; [rewrite begin_eq; apply wakeUp_with_hang; assumption|].
  split; [apply wakeUp_with_hang; assumption|].
  split; [unfold getInfo; rewrite getInfo_with_unfold; apply bind_Hang;
          apply wakeUp_with_hang; fields; assumption|].
  split; [exact Hu|].
  repeat split; apply bind_Hang; exact Hu.
Qed.

(** X12.  Likewise once the chip has acknowledged the wake-up but stops
    before the whole response has arrived: [getInfo] and the random fetch do
    not return. *)
Theorem unanswered_command_never_returns (debug : bool) (s : ATECCX08A) :
  delivers (slave s) 4 = true ->
  (7 <= Z.of_nat (length (inputBuffer s)) ->
   delivers (answers_left (slave s) 4) 7 = false -> getInfo s = Hang) /\
  (35 <= Z.of_nat (length (inputBuffer s)) ->
   delivers (answers_left (slave s) 4) 35 = false ->
   updateRandom32Bytes debug s = Hang /\ getRandomByte debug s = Hang /\
   getRandomInt debug s = Hang /\ getRandomLong debug s = Hang).
Proof.
  intros Hd4.
  assert (Hwake : forall c, 4 <= Z.of_nat (length (inputBuffer s)) ->
            exists w sb, wakeUp (set_crc c s) = Ok (w, sb) /\
                         slave sb = answers_left (slave s) 4 /\
                         length (inputBuffer sb) = length (inputBuffer s)).
  { intros c Hbuf.
    destruct (wakeUp_with_ok (ret false) (set_crc c s)) as (w & sb & Hwake);
      [fields; lia | exact Hd4 |].
    pose proof (wakeUp_with_inv _ _ _ _ Hwake)
      as (wreqs & woken & a0 & a1 & a2 & a3 & wevs & Hwsc & Hwok & Hwl & _ & Hwb & _).
    fields. exists w, sb. split; [exact Hwake|].
    split; [rewrite Hwsc; symmetry; apply (answers_left_spec woken wreqs); assumption|].
    rewrite Hwb, length_app, length_replicate. cbn [length]. lia. }
  split.
  - intros Hbuf Hdel. unfold getInfo. rewrite getInfo_with_unfold.
    destruct (Hwake (crc_spec [7; COMMAND_OPCODE_INFO; 0; 0; 0])) as (w & sb & Hw & Hsl & Hl);
      [lia|].
    rewrite (bind_Ok _ _ _ _ _ Hw). mgo. apply bind_Hang.
    apply receiveResponseData_hang; fields; rewrite ?Hl, ?Hsl; try lia. exact Hdel.
  - intros Hbuf Hdel.
    assert (Hu : updateRandom32Bytes debug s = Hang).
    { unfold updateRandom32Bytes. rewrite updateRandom32Bytes_with_unfold.
      destruct (Hwake (crc_spec [7; COMMAND_OPCODE_RANDOM; 0; 0; 0]))
        as (w & sb & Hw & Hsl & Hl); [lia|].
      rewrite (bind_Ok _ _ _ _ _ Hw). mgo. apply bind_Hang.
      apply receiveResponseData_hang; fields; rewrite ?Hl, ?Hsl; try lia. exact Hdel. }
    split; [exact Hu|]. repeat split; apply bind_Hang; exact Hu.
Qed.

(** ** begin *)

(** X13.  [begin] stores the bus address it is given and wakes the chip:
    the read requests that follow go to the new address, whatever the object
    held before, and the value returned is the verdict of [wakeUp] on the
    four bytes received. *)
Theorem begin_wakes_at_address (i2caddr : Z) (s : ATECCX08A) :
  4 <= Z.of_nat (length (inputBuffer s)) -> delivers (slave s) 4 = true ->
  exists (b : bool) (s' : ATECCX08A) (a0 a1 a2 a3 : Z) (reqs : list Z) (evs : list event),
    begin i2caddr s = Ok (b, s') /\
    _i2caddr s' = i2caddr /\
    inputBuffer s' = [a0; a1; a2; a3] ++ replicate (length (inputBuffer s) - 4) 0 /\
    (b = true <-> a0 = 4 /\ crc_spec [a0; a1] = (a2, a3) /\ a1 = 0x11) /\
    trace s' = trace s ++ [BeginTransmission 0; EndTransmission; DelayMicroseconds 1500] ++
               (RequestFrom i2caddr <$> reqs) ++ evs /\
    serial_only evs /\
    random32Bytes s' = random32Bytes s.
Proof.
  intros Hbuf Hdel. rewrite begin_eq.
  destruct (wakeUp_with_ok (ret false) (set_i2caddr i2caddr s) Hbuf Hdel) as (b & s' & Hrun).
  destruct (wakeUp_with_inv _ _ _ _ Hrun)
    as (reqs & consumed & a0 & a1 & a2 & a3 & evs & _ & _ & _ & _ & Hb & _ &
        Ht & Hs & Hw & [Ha Hr] & _).
  cbn [set_i2caddr _i2caddr inputBuffer random32Bytes trace] in *.
  exists b, s', a0, a1, a2, a3, reqs, evs.
  split; [exact Hrun|]. split; [exact Ha|]. split; [exact Hb|].
  split; [|auto].
  rewrite Hw. unfold wake_ok. rewrite !andb_true_iff, !Z.eqb_eq.
  destruct (crc_spec [a0; a1]) as [c0 c1]. cbn [fst snd].
  split; [intros [[? [? ?]] ?]; repeat split; congruence|].
  intros (? & [= ? ?] & ?). repeat split; congruence.
Qed.

(** ** The result of the wake-up is not looked at *)

Lemma delivers_single (len : Z) (answer : list Z) (rest : list (list Z)) :
  0 < len <= 32 -> len <= Z.of_nat (length answer) -> delivers (answer :: rest) len = true.
Proof.
  intros Hlen Ha. cbn [delivers]. destruct (Z.eqb_spec len 0); [lia|].
  destruct (Z.gtb_spec len 32); [lia|]. rewrite length_take.
  replace (len - Z.of_nat (Z.to_nat len `min` length answer)) with 0 by lia.
  destruct rest; reflexivity.
Qed.

Lemma delivers_double (len : Z) (c1 c2 : list Z) (rest : list (list Z)) :
  32 < len <= 64 -> 32 <= Z.of_nat (length c1) -> len - 32 <= Z.of_nat (length c2) ->
  delivers (c1 :: c2 :: rest) len = true.
Proof.
  intros Hlen H1 H2. cbn [delivers]. destruct (Z.eqb_spec len 0); [lia|].
  destruct (Z.gtb_spec len 32); [|lia]. rewrite length_take.
  replace (len - Z.of_nat (Z.to_nat 32 `min` length c1)) with (len - 32) by lia.
  apply (delivers_single (len - 32) c2 rest); lia.
Qed.

(** Two answers long enough serve a reception of 33 to 64 bytes. *)
Lemma requests_double (len : Z) (c1 c2 : list Z) (rest rest' : list (list Z))
      (reqs : list Z) (consumed : list (list Z)) :
  32 < len <= 64 -> 32 <= Z.of_nat (length c1) -> len - 32 <= Z.of_nat (length c2) ->
  c1 :: c2 :: rest = consumed ++ rest' -> length reqs = length consumed ->
  requests_ok len reqs (chunks_of reqs consumed) ->
  reqs = [32; len - 32] /\ consumed = [c1; c2] /\ rest' = rest.
Proof.
  intros Hlen H1 H2 Hsc Hl Hok.
  destruct reqs as [|q reqs], consumed as [|a consumed]; try discriminate;
    cbn [chunks_of zip_with requests_ok] in Hok; [lia|].
  injection Hsc as <- Hsc. destruct Hok as (_ & Hq & _ & Hok).
  destruct (Z.gtb_spec len 32); [|lia]. subst q.
  rewrite length_take in Hok.
  replace (len - Z.of_nat (Z.to_nat 32 `min` length c1)) with (len - 32) in Hok by lia.
  destruct (requests_single (len - 32) c2 rest rest' reqs consumed) as (-> & -> & ->);
    try assumption; try lia; [cbn [length] in Hl; lia|].
  auto.
Qed.

(** A wake-up in front of a single answer of four bytes or more. *)
Lemma wakeUp_single (k : M bool) (s : ATECCX08A) (ack : list Z) (rest : list (list Z)) :
  slave s = ack :: rest -> 4 <= Z.of_nat (length ack) ->
  4 <= Z.of_nat (length (inputBuffer s)) ->
  exists (a0 a1 a2 a3 : Z) (sb : ATECCX08A),
    u8 <$> take 4 ack = [a0; a1; a2; a3] /\
    wakeUp_with k s = Ok (wake_ok a0 a1 a2 a3, sb) /\
    slave sb = rest /\ length (inputBuffer sb) = length (inputBuffer s) /\
    random32Bytes sb = random32Bytes s.
Proof.
  intros Hsl Hack Hbuf.
  destruct (wakeUp_with_ok k s) as (w & sb & Hwake);
    [exact Hbuf | rewrite Hsl; apply delivers_single; lia |].
  pose proof (wakeUp_with_inv _ _ _ _ Hwake)
    as (reqs & consumed & a0 & a1 & a2 & a3 & evs & Hsc & Hok & Hl & Hbytes & Hb & _ &
        _ & _ & Hw & [_ Hr] & _).
  destruct (requests_single 4 ack rest (slave sb) reqs consumed) as (-> & -> & Hrest);
    try assumption; try lia; [congruence|].
  cbn [chunks_of zip_with concat] in Hbytes. rewrite app_nil_r in Hbytes.
  exists a0, a1, a2, a3, sb. split; [exact Hbytes|]. split; [rewrite <- Hw; exact Hwake|].
  split; [exact Hrest|]. split; [|exact Hr].
  rewrite Hb, length_app, length_replicate. cbn [length]. lia.
Qed.

(** X14.  [getInfo] and [updateRandom32Bytes] call [wakeUp] and drop what
    it returns.  In front of a slave that answers the wake-up with four bytes
    or more, whatever they are, and then the reads of the response, the
    value returned depends on the response only: the command succeeds after
    a wake-up that failed. *)
Theorem commands_ignore_wakeUp_result
        (debug : bool) (s : ATECCX08A) (ack : list Z) (answers : list (list Z)) :
  slave s = ack :: answers -> 4 <= Z.of_nat (length ack) ->
  (exists a0 a1 a2 a3 sb,
     u8 <$> take 4 ack = [a0; a1; a2; a3] /\
     (4 <= Z.of_nat (length (inputBuffer s)) -> wakeUp s = Ok (wake_ok a0 a1 a2 a3, sb))) /\
  (forall (response : list Z) (rest : list (list Z)),
     answers = response :: rest -> 7 <= Z.of_nat (length response) ->
     7 <= Z.of_nat (length (inputBuffer s)) ->
     exists s', getInfo s = Ok (info_ok (u8 <$> take 7 response), s') /\ slave s' = rest) /\
  (forall (c1 c2 : list Z) (rest : list (list Z)),
     answers = c1 :: c2 :: rest ->
     32 <= Z.of_nat (length c1) -> 3 <= Z.of_nat (length c2) ->
     35 <= Z.of_nat (length (inputBuffer s)) -> length (random32Bytes s) = 32%nat ->
     let response := u8 <$> (take 32 c1 ++ take 3 c2) in
     exists s',
       updateRandom32Bytes debug s = Ok (fetch_ok response, s') /\ slave s' = rest /\
       random32Bytes s' =
         (if fetch_ok response then take 32 (drop 1 response) else random32Bytes s)).
Proof.
  intros Hsl Hack. split; [|split].
  - destruct (list_length_4 (u8 <$> take 4 ack)) as (a0 & a1 & a2 & a3 & Hbytes);
      [rewrite length_fmap, length_take; lia|].
    destruct (Z.le_gt_cases 4 (Z.of_nat (length (inputBuffer s)))) as [Hbuf|Hbuf].
    + destruct (wakeUp_single (ret false) s ack answers Hsl Hack Hbuf)
        as (b0 & b1 & b2 & b3 & sb & Hb & Hw & _).
      rewrite Hbytes in Hb. injection Hb as <- <- <- <-.
      exists a0, a1, a2, a3, sb. auto.
    + exists a0, a1, a2, a3, s. split; [exact Hbytes | lia].
  - intros response rest -> Hresp Hbuf.
    set (sa := set_crc (crc_spec [7; COMMAND_OPCODE_INFO; 0; 0; 0]) s).
    destruct (wakeUp_single (ret false) sa ack (response :: rest))
      as (a0 & a1 & a2 & a3 & sb & _ & Hw & Hsb & Hlb & _);
      [exact Hsl | exact Hack | subst sa; fields; lia |].
    subst sa; fields.
    set (sc := set_countGlobal 0 (emits [BeginTransmission (_i2caddr sb);
                 WireWrite info_packet; EndTransmission; Delay 1] sb)).
    destruct (receiveResponseData_ok 7 true sc) as [s1 Hrecv];
      [lia | subst sc; fields; lia
       | subst sc; fields; rewrite Hsb; apply delivers_single; lia |].
    destruct (getInfo_with_run (ret false) _ s sb s1 Hw Hrecv)
      as (b & s' & _ & Hrun & _ & _ & Hsl' & _ & _ & Hb & _).
    apply receiveResponseData_inv in Hrecv; [|lia].
    destruct Hrecv as (_ & reqs & consumed & _ & Hsc & Hok & Hlr & _ & _ & _ & _ & _ & Hbuf1 & _).
    subst sc; fields. rewrite Hsb in Hsc.
    destruct (requests_single 7 response rest (slave s1) reqs consumed) as (-> & -> & Hrest);
      try assumption; try lia.
    cbn [chunks_of zip_with concat] in Hbuf1. rewrite app_nil_r in Hbuf1.
    change (Z.to_nat 7) with 7%nat in Hbuf1.
    exists s'. split; [|congruence].
    unfold getInfo. rewrite Hrun, Hb, Hbuf1. do 3 f_equal.
    apply take_app_length'. rewrite length_fmap, length_take. lia.
  - intros c1 c2 rest -> H1 H2 Hbuf Hrnd response.
    set (sa := set_crc (crc_spec [7; COMMAND_OPCODE_RANDOM; 0; 0; 0]) s).
    destruct (wakeUp_single (ret false) sa ack (c1 :: c2 :: rest))
      as (a0 & a1 & a2 & a3 & sb & _ & Hw & Hsb & Hlb & Hrb);
      [exact Hsl | exact Hack | subst sa; fields; lia |].
    subst sa; fields.
    set (sc := emits [BeginTransmission (_i2caddr sb); WireWrite random_packet;
                      EndTransmission; Delay 23] sb).
    destruct (receiveResponseData_ok 35 debug sc) as [s1 Hrecv];
      [lia | subst sc; fields; lia
       | subst sc; fields; rewrite Hsb; apply delivers_double; lia |].
    destruct (updateRandom32Bytes_with_run (ret false) debug _ s sb s1 ltac:(lia) Hw Hrecv)
      as (b & s' & _ & Hrun & _ & _ & Hsl' & _ & Hb & Hr & _).
    apply receiveResponseData_inv in Hrecv; [|lia].
    destruct Hrecv as (_ & reqs & consumed & _ & Hsc & Hok & Hlr & _ & _ & _ & _ & _ & Hbuf1 & _).
    subst sc; fields. rewrite Hsb in Hsc.
    destruct (requests_double 35 c1 c2 rest (slave s1) reqs consumed) as (-> & -> & Hrest);
      try assumption; try lia.
    cbn [chunks_of zip_with concat] in Hbuf1. rewrite app_nil_r in Hbuf1.
    change (Z.to_nat 32) with 32%nat in Hbuf1. change (Z.to_nat (35 - 32)) with 3%nat in Hbuf1.
    fold response in Hbuf1.
    assert (Hl35 : length response = 35%nat)
      by (subst response; rewrite length_fmap, length_app, !length_take; lia).
    assert (Ht35 : take 35 (inputBuffer s1) = response)
      by (rewrite Hbuf1; apply take_app_length'; lia).
    assert (Hd : take 32 (drop 1 (inputBuffer s1)) = take 32 (drop 1 response)).
    { rewrite Hbuf1, drop_app_le, take_app_le by (rewrite ?length_drop; lia). reflexivity. }
    rewrite Ht35 in Hb. rewrite Hd in Hr.
    exists s'. split; [unfold updateRandom32Bytes; rewrite Hrun, Hb; reflexivity|].
    split; [congruence|].
    rewrite Hr, <- Hb. destruct b; [|reflexivity].
    rewrite (drop_ge (random32Bytes s)) by lia. apply app_nil_r.
Qed.

(** ** The range of the accessors *)

Lemma sint_exact (w x : Z) :
  0 < w -> 0 <= x < 2 ^ w ->
  sint w x = if x <? 2 ^ (w - 1) then x else x - 2 ^ w.
Proof.
  intros Hw Hx. unfold sint.
  assert (H2 : 2 ^ w = 2 * 2 ^ (w - 1))
    by (replace w with (1 + (w - 1)) at 1 by lia; rewrite Z.pow_add_r by lia; reflexivity).
  destruct (Z.ltb_spec x (2 ^ (w - 1))).
  - rewrite Z.mod_small by lia. lia.
  - replace ((x + 2 ^ (w - 1)) mod 2 ^ w) with (x + 2 ^ (w - 1) - 2 ^ w);
      [lia|]. apply Z.mod_unique with 1; lia.
Qed.

Lemma sint_wide (w n x : Z) : 0 <= n < w -> 0 <= x < 2 ^ n -> sint w x = x.
Proof.
  intros Hn Hx. apply sint_small; [lia|].
  assert (2 ^ n <= 2 ^ (w - 1)) by (apply Z.pow_le_mono_r; lia). lia.
Qed.

(** X15.  The accessors read the integer as a signed one of the width of
    the target.  With a 16-bit [int], [getRandomInt] is negative exactly when
    the first byte of the buffer is 0x80 or more; with a wider [int] it never
    leaves 0 .. 65535.  The same holds for [getRandomLong] with 32 bits and
    more than 32 bits, and [getRandomByte] stays within 0 .. 255. *)
Theorem accessors_range (debug ok : bool) (s s1 : ATECCX08A) :
  length (random32Bytes s) = 32%nat -> Forall is_byte (random32Bytes s) ->
  16 <= INT_BITS -> 32 <= LONG_BITS ->
  updateRandom32Bytes debug s = Ok (ok, s1) ->
  exists b0 b1 b2 b3 v w,
    take 4 (random32Bytes s1) = [b0; b1; b2; b3] /\
    getRandomByte debug s = Ok (b0, s1) /\ 0 <= b0 < 256 /\
    getRandomInt debug s = Ok (v, s1) /\
    (INT_BITS = 16 ->
     v = (if b0 <? 0x80 then be16 b0 b1 else be16 b0 b1 - 2 ^ 16) /\
     (v < 0 <-> 0x80 <= b0) /\ - 2 ^ 15 <= v < 2 ^ 15) /\
    (16 < INT_BITS -> v = be16 b0 b1 /\ 0 <= v < 2 ^ 16) /\
    getRandomLong debug s = Ok (w, s1) /\
    (LONG_BITS = 32 ->
     w = (if b0 <? 0x80 then be32 b0 b1 b2 b3 else be32 b0 b1 b2 b3 - 2 ^ 32) /\
     (w < 0 <-> 0x80 <= b0) /\ - 2 ^ 31 <= w < 2 ^ 31) /\
    (32 < LONG_BITS -> w = be32 b0 b1 b2 b3 /\ 0 <= w < 2 ^ 32).
Proof.
  intros Hlen Hbytes Hi Hl Hrun.
  destruct (updateRandom32Bytes_with_inv (ret false) debug s s1 ok ltac:(lia) Hrun)
    as (woken & reqs & consumed & response & wreqs & wevs & prints & checks & _ & _ & _ &
        Hresp & Hl35 & _ & _ & _ & Hrnd & _).
  assert (Hrb : Forall is_byte response) by (rewrite Hresp; apply Forall_is_byte_u8).
  assert (Hd : drop 32 (random32Bytes s) = []) by (apply drop_ge; lia).
  rewrite Hd, app_nil_r in Hrnd.
  destruct (accessors_eq debug ok s s1 Hi Hl Hrun)
    as (b0 & b1 & b2 & b3 & Ht & HB & HI & HL & B0 & B1 & B2 & B3).
  { rewrite Hrnd. destruct ok; [rewrite length_take, length_drop|]; lia. }
  { rewrite Hrnd. destruct ok; [apply Forall_take, Forall_drop|]; assumption. }
  exists b0, b1, b2, b3, (sint INT_BITS (be16 b0 b1)), (sint LONG_BITS (be32 b0 b1 b2 b3)).
  unfold is_byte in *.
  assert (H16 : 0 <= be16 b0 b1 < 2 ^ 16) by (unfold be16; lia).
  assert (H32 : 0 <= be32 b0 b1 b2 b3 < 2 ^ 32) by (unfold be32; lia).
  split; [exact Ht|]. split; [exact HB|]. split; [exact B0|]. split; [exact HI|].
  split; [|split; [|split; [exact HL|split]]].
  - intros ->. rewrite sint_exact by lia. change (2 ^ (16 - 1)) with 32768.
    unfold be16 in *. destruct (Z.ltb_spec (b0 * 256 + b1) 32768), (Z.ltb_spec b0 128);
      try lia.
  - intros Hw. rewrite (sint_wide INT_BITS 16) by lia. auto.
  - intros ->. rewrite sint_exact by lia. change (2 ^ (32 - 1)) with 2147483648.
    unfold be32 in *.
    destruct (Z.ltb_spec (((b0 * 256 + b1) * 256 + b2) * 256 + b3) 2147483648),
             (Z.ltb_spec b0 128); try lia.
  - intros Hw. rewrite (sint_wide LONG_BITS 32) by lia. auto.
Qed.

(** ** The checksum is linear *)

Lemma lxor_swap (a b c d : Z) :
  Z.lxor (Z.lxor a b) (Z.lxor c d) = Z.lxor (Z.lxor a c) (Z.lxor b d).
Proof.
  apply Z.bits_inj'. intros n _. rewrite !Z.lxor_spec.
  destruct (Z.testbit a n), (Z.testbit b n), (Z.testbit c n), (Z.testbit d n); reflexivity.
Qed.

Lemma u16_double_lxor (r1 r2 : Z) :
  (2 * Z.lxor r1 r2) mod 2 ^ 16 = Z.lxor ((2 * r1) mod 2 ^ 16) ((2 * r2) mod 2 ^ 16).
Proof.
  rewrite <- !Z.land_ones by lia.
  replace (2 * Z.lxor r1 r2) with (Z.shiftl (Z.lxor r1 r2) 1)
    by (rewrite Z.shiftl_mul_pow2; lia).
  replace (2 * r1) with (Z.shiftl r1 1) by (rewrite Z.shiftl_mul_pow2; lia).
  replace (2 * r2) with (Z.shiftl r2 1) by (rewrite Z.shiftl_mul_pow2; lia).
  apply Z.bits_inj'. intros n Hn.
  rewrite Z.lxor_spec, !Z.land_spec, !Z.shiftl_spec, Z.lxor_spec by lia.
  destruct (Z.testbit (Z.ones 16) n); rewrite ?andb_true_r, ?andb_false_r; reflexivity.
Qed.

(** One step on the XOR of two registers and two data bits is the XOR of
    the two steps. *)
Lemma crc_step_spec_xor (r1 r2 : Z) (b1 b2 : bool) :
  crc_step_spec (Z.lxor r1 r2) (xorb b1 b2) =
  Z.lxor (crc_step_spec r1 b1) (crc_step_spec r2 b2).
Proof.
  unfold crc_step_spec. cbv zeta. rewrite Z.lxor_spec, u16_double_lxor.
  set (x1 := (2 * r1) mod 2 ^ 16). set (x2 := (2 * r2) mod 2 ^ 16).
  destruct b1, b2, (Z.testbit r1 15), (Z.testbit r2 15); cbn [xorb];
    apply Z.bits_inj'; intros n _; rewrite ?Z.lxor_spec;
    destruct (Z.testbit x1 n), (Z.testbit x2 n), (Z.testbit 32773 n); reflexivity.
Qed.

Lemma fold_left_step_xor (l1 : list bool) :
  forall (l2 : list bool) (r1 r2 : Z),
    length l1 = length l2 ->
    fold_left crc_step_spec (zip_with xorb l1 l2) (Z.lxor r1 r2) =
    Z.lxor (fold_left crc_step_spec l1 r1) (fold_left crc_step_spec l2 r2).
Proof.
  induction l1 as [|b1 l1 IH]; intros [|b2 l2] r1 r2 Hl; try discriminate; [reflexivity|].
  cbn [zip_with fold_left]. rewrite crc_step_spec_xor. apply IH.
  cbn [length] in Hl. lia.
Qed.

Lemma bits_lsb_first_xor (x y : Z) :
  bits_lsb_first (Z.lxor x y) = zip_with xorb (bits_lsb_first x) (bits_lsb_first y).
Proof.
  unfold bits_lsb_first. cbn [fmap list_fmap zip_with]. rewrite !Z.lxor_spec. reflexivity.
Qed.

Lemma bits_length (a : list Z) :
  length (a ≫= bits_lsb_first) = (8 * length a)%nat.
Proof.
  induction a as [|x a IH]; [reflexivity|].
  rewrite bind_cons, length_app, IH. cbn [length bits_lsb_first fmap list_fmap]. lia.
Qed.

Lemma bits_xor_bytes (a : list Z) :
  forall b : list Z,
    length a = length b ->
    xor_bytes a b ≫= bits_lsb_first =
    zip_with xorb (a ≫= bits_lsb_first) (b ≫= bits_lsb_first).
Proof.
  induction a as [|x a IH]; intros [|y b] Hl; try discriminate; [reflexivity|].
  unfold xor_bytes in *. cbn [zip_with]. rewrite !bind_cons, bits_lsb_first_xor.
  rewrite zip_with_app by reflexivity. f_equal. apply IH. cbn [length] in Hl. lia.
Qed.

Lemma crc_register_spec_xor (a b : list Z) :
  length a = length b ->
  crc_register_spec (xor_bytes a b) = Z.lxor (crc_register_spec a) (crc_register_spec b).
Proof.
  intros Hl. unfold crc_register_spec. rewrite bits_xor_bytes by exact Hl.
  change 0 with (Z.lxor 0 0) at 1. apply fold_left_step_xor.
  rewrite !bits_length, Hl. reflexivity.
Qed.

Lemma crc_spec_xor (a b : list Z) :
  length a = length b ->
  crc_spec (xor_bytes a b) =
  (Z.lxor (fst (crc_spec a)) (fst (crc_spec b)), Z.lxor (snd (crc_spec a)) (snd (crc_spec b))).
Proof.
  intros Hl. unfold crc_spec. cbn [fst snd]. rewrite crc_register_spec_xor by exact Hl.
  set (x := crc_register_spec a). set (y := crc_register_spec b). f_equal.
  - change 256 with (2 ^ 8). rewrite <- !Z.land_ones by lia.
    apply Z.bits_inj'. intros n Hn. rewrite Z.lxor_spec, !Z.land_spec, Z.lxor_spec.
    destruct (Z.testbit (Z.ones 8) n); rewrite ?andb_true_r, ?andb_false_r; reflexivity.
  - change 256 with (2 ^ 8). rewrite <- !Z.shiftr_div_pow2 by lia. apply Z.shiftr_lxor.
Qed.

(** X16.  [atca_calculate_crc] is linear over XOR: the checksum of two
    buffers XORed byte by byte is the XOR of their checksums. *)
Theorem atca_calculate_crc_xor (length : Z) (a b : list Z) (s : ATECCX08A) :
  0 <= length <= 255 ->
  length <= Z.of_nat (List.length a) -> length <= Z.of_nat (List.length b) ->
  exists ca cb : Z * Z,
    atca_calculate_crc length a s = Ok (tt, set_crc ca s) /\
    atca_calculate_crc length b s = Ok (tt, set_crc cb s) /\
    atca_calculate_crc length (xor_bytes a b) s =
    Ok (tt, set_crc (Z.lxor (fst ca) (fst cb), Z.lxor (snd ca) (snd cb)) s).
Proof.
  intros Hlen Ha Hb.
  exists (crc_spec (take (Z.to_nat length) a)), (crc_spec (take (Z.to_nat length) b)).
  rewrite !atca_calculate_crc_eq by
    (try assumption; unfold xor_bytes; rewrite length_zip_with; lia).
  split; [reflexivity|]. split; [reflexivity|].
  unfold xor_bytes. rewrite zip_with_take. fold (xor_bytes (take (Z.to_nat length) a)
                                                           (take (Z.to_nat length) b)).
  rewrite crc_spec_xor by (rewrite !length_take; lia). reflexivity.
Qed.

Lemma rd_xor_bytes (a b : list Z) (i x y : Z) :
  rd a i = Some x -> rd b i = Some y -> rd (xor_bytes a b) i = Some (Z.lxor x y).
Proof.
  unfold rd, xor_bytes. destruct (0 <=? i); [|discriminate].
  intros Ha Hb. rewrite lookup_zip_with, Ha, Hb. reflexivity.
Qed.

Lemma lxor_eq_iff (a b c d : Z) : a = b -> (Z.lxor a c = Z.lxor b d <-> c = d).
Proof.
  intros ->. split; [|intros ->; reflexivity].
  intros H. apply (f_equal (Z.lxor b)) in H.
  rewrite <- !Z.lxor_assoc, Z.lxor_nilpotent, !Z.lxor_0_l in H. exact H.
Qed.

(** The verdict of [checkCrc] on a passing response XORed with an error
    pattern is its verdict on the pattern. *)
Lemma checkCrc_xor (debug : bool) (s s1 : ATECCX08A) (e : list Z) :
  0 <= countGlobal s < 256 ->
  length e = length (inputBuffer s) ->
  checkCrc debug s = Ok (true, s1) ->
  exists (b be : bool) (s2 s3 : ATECCX08A),
    checkCrc debug (set_inputBuffer (xor_bytes (inputBuffer s) e) s) = Ok (b, s2) /\
    checkCrc debug (set_inputBuffer e s) = Ok (be, s3) /\
    b = be.
Proof.
  intros Hcg Hle Hpass.
  destruct (checkCrc_true_inv debug s s1 Hcg Hpass) as [H2 Hbuf].
  destruct (rd_Some (inputBuffer s) (countGlobal s - 2)) as (lo & Hlo & _); [lia|].
  destruct (rd_Some (inputBuffer s) (countGlobal s - 1)) as (hi & Hhi & _); [lia|].
  destruct (rd_Some e (countGlobal s - 2)) as (elo & Helo & _); [lia|].
  destruct (rd_Some e (countGlobal s - 1)) as (ehi & Hehi & _); [lia|].
  destruct (checkCrc_eq debug (set_inputBuffer (xor_bytes (inputBuffer s) e) s)
              (Z.lxor lo elo) (Z.lxor hi ehi)) as (evs1 & He1 & _);
    [fields; lia | fields; apply rd_xor_bytes; assumption..|].
  destruct (checkCrc_eq debug (set_inputBuffer e s) elo ehi) as (evs2 & He2 & _);
    [fields; lia | fields; assumption..|].
  fields. do 4 eexists. split; [exact He1|]. split; [exact He2|].
  clear He1 He2.
  destruct (checkCrc_eq debug s lo hi) as (evs & He & _); [lia | assumption..|].
  rewrite He in Hpass. injection Hpass as Hb _.
  apply andb_true_iff in Hb as [Hb1 Hb0]. apply Z.eqb_eq in Hb1, Hb0.
  set (n := Z.to_nat (countGlobal s - 2)) in *.
  unfold xor_bytes at 1 2. rewrite zip_with_take.
  fold (xor_bytes (take n (inputBuffer s)) (take n e)).
  rewrite crc_spec_xor by (rewrite !length_take; lia).
  set (ca := crc_spec (take n (inputBuffer s))) in *.
  set (ce := crc_spec (take n e)).
  change (fst (Z.lxor (fst ca) (fst ce), Z.lxor (snd ca) (snd ce)))
    with (Z.lxor (fst ca) (fst ce)).
  change (snd (Z.lxor (fst ca) (fst ce), Z.lxor (snd ca) (snd ce)))
    with (Z.lxor (snd ca) (snd ce)).
  assert (Hhi' : hi = snd ca) by exact Hb1.
  assert (Hlo' : lo = fst ca) by exact Hb0.
  apply eq_true_iff_eq. rewrite !andb_true_iff, !Z.eqb_eq.
  rewrite (lxor_eq_iff _ _ _ _ Hhi'), (lxor_eq_iff _ _ _ _ Hlo'). reflexivity.
Qed.

(** X17.  A response that passes [checkCrc] and is then corrupted, its
    bytes XORed with an error pattern, still passes exactly when the error
    pattern passes [checkCrc] by itself: the errors that go unnoticed are the
    patterns that are valid frames of the same length. *)
Theorem checkCrc_error_pattern (debug : bool) (s s1 : ATECCX08A) (e : list Z) :
  0 <= countGlobal s < 256 ->
  length e = length (inputBuffer s) ->
  checkCrc debug s = Ok (true, s1) ->
  exists (b be : bool) (s2 s3 : ATECCX08A),
    checkCrc debug (set_inputBuffer (xor_bytes (inputBuffer s) e) s) = Ok (b, s2) /\
    checkCrc debug (set_inputBuffer e s) = Ok (be, s3) /\
    b = be.
Proof. exact (checkCrc_xor debug s s1 e). Qed.



(** ** Two flipped bits *)

Lemma zero_steps_add (a b : nat) (r : Z) :
  zero_steps (a + b) r = zero_steps b (zero_steps a r).
Proof.
  revert r. induction a as [|a IH]; intros r; [reflexivity|].
  cbn [Nat.add zero_steps]. apply IH.
Qed.

Lemma zero_steps_range (k : nat) (r : Z) :
  0 <= r < 65536 -> 0 <= zero_steps k r < 65536.
Proof.
  revert r. induction k as [|k IH]; intros r Hr; cbn [zero_steps]; [exact Hr|].
  apply IH, crc_step_spec_range.
Qed.

Lemma zero_steps_inj (k : nat) (r1 r2 : Z) :
  0 <= r1 < 65536 -> 0 <= r2 < 65536 -> zero_steps k r1 = zero_steps k r2 -> r1 = r2.
Proof.
  revert r1 r2. induction k as [|k IH]; intros r1 r2 H1 H2; cbn [zero_steps]; [auto|].
  intros He. apply IH in He; try apply crc_step_spec_range.
  eapply crc_step_spec_inj; eassumption.
Qed.

Lemma unit_register_range : 0 <= unit_register < 65536.
Proof. apply crc_step_spec_range. Qed.

Lemma single_bit_pow2 (t : Z) : 0 <= t -> single_bit (2 ^ t) = true.
Proof.
  intros Ht. unfold single_bit. apply andb_true_iff. split.
  - apply Z.ltb_lt. apply Z.pow_pos_nonneg; lia.
  - apply Z.eqb_eq. replace (2 ^ t - 1) with (Z.ones t) by (rewrite Z.ones_equiv; lia).
    rewrite Z.land_ones by lia. apply Z_mod_same_full.
Qed.

Lemma orbit_clear_spec (k : nat) :
  forall (r : Z) (d : nat),
    orbit_clear k r = true -> (d < k)%nat ->
    single_bit (zero_steps d r) = false /\ zero_steps (S d) r <> unit_register.
Proof.
  induction k as [|k IH]; intros r d Hc Hd; [lia|].
  cbn [orbit_clear] in Hc. apply andb_true_iff in Hc as [Hc Hrest].
  apply andb_true_iff in Hc as [Hs Hu].
  apply negb_true_iff in Hs, Hu. apply Z.eqb_neq in Hu.
  destruct d as [|d]; [split; assumption|].
  exact (IH (crc_step_spec r false) d Hrest ltac:(lia)).
Qed.

(** Over the bits of the longest response the register of a single one bit
    passes through 2040 different values, none of them with a single bit
    set. *)
Lemma orbit_clear_2040 : orbit_clear 2040 unit_register = true.
Proof. vm_compute. reflexivity. Qed.

Lemma zero_steps_distinct (k1 k2 : nat) :
  (k1 < k2 < 2040)%nat -> zero_steps k1 unit_register <> zero_steps k2 unit_register.
Proof.
  intros Hk He. replace k2 with ((k2 - k1) + k1)%nat in He by lia.
  rewrite zero_steps_add in He.
  apply zero_steps_inj in He;
    [| apply unit_register_range | apply zero_steps_range, unit_register_range].
  destruct (orbit_clear_spec 2040 unit_register (k2 - k1 - 1) orbit_clear_2040 ltac:(lia))
    as [_ Hne].
  apply Hne. replace (S (k2 - k1 - 1)) with (k2 - k1)%nat by lia. symmetry. exact He.
Qed.

Lemma zero_steps_not_single (k : nat) (t : Z) :
  (k < 2040)%nat -> 0 <= t -> zero_steps k unit_register <> 2 ^ t.
Proof.
  intros Hk Ht He.
  destruct (orbit_clear_spec 2040 unit_register k orbit_clear_2040 Hk) as [Hs _].
  rewrite He, single_bit_pow2 in Hs by exact Ht. discriminate.
Qed.

(** Different bits of a response have different syndromes. *)
Lemma syndrome_inj (count i1 j1 i2 j2 : Z) :
  2 <= count < 256 -> 0 <= i1 < count -> 0 <= j1 < 8 -> 0 <= i2 < count -> 0 <= j2 < 8 ->
  syndrome count i1 j1 = syndrome count i2 j2 -> i1 = i2 /\ j1 = j2.
Proof.
  intros Hc Hi1 Hj1 Hi2 Hj2. unfold syndrome.
  destruct (Z.ltb_spec i1 (count - 2)), (Z.ltb_spec i2 (count - 2)).
  - intros He.
    destruct (Nat.lt_trichotomy (Z.to_nat (8 * (count - 3 - i1) + (7 - j1)))
                                (Z.to_nat (8 * (count - 3 - i2) + (7 - j2))))
      as [Hlt|[Heq|Hgt]].
    + exfalso. revert He. apply zero_steps_distinct. lia.
    + lia.
    + exfalso. symmetry in He. revert He. apply zero_steps_distinct. lia.
  - intros He. exfalso. revert He.
    destruct (i2 =? count - 2); apply zero_steps_not_single; lia.
  - intros He. exfalso. symmetry in He. revert He.
    destruct (i1 =? count - 2); apply zero_steps_not_single; lia.
  - destruct (Z.eqb_spec i1 (count - 2)), (Z.eqb_spec i2 (count - 2)); intros He;
      apply Z.pow_inj_r in He; lia.
Qed.

Lemma fold_zero_bytes (m : nat) (r : Z) :
  fold_left crc_step_spec (replicate m 0 ≫= bits_lsb_first) r = zero_steps (8 * m) r.
Proof.
  revert r. induction m as [|m IH]; intros r; [reflexivity|].
  cbn [replicate]. rewrite bind_cons, fold_left_app, IH.
  replace (8 * S m)%nat with (8 + 8 * m)%nat by lia. rewrite zero_steps_add. reflexivity.
Qed.

Lemma fold_unit_byte (j : Z) :
  0 <= j < 8 ->
  fold_left crc_step_spec (bits_lsb_first (2 ^ j)) 0 =
  zero_steps (Z.to_nat (7 - j)) unit_register.
Proof.
  intros Hj.
  assert (Hc : j = 0 \/ j = 1 \/ j = 2 \/ j = 3 \/ j = 4 \/ j = 5 \/ j = 6 \/ j = 7) by lia.
  destruct Hc as [->|[->|[->|[->|[->|[->|[->| ->]]]]]]]; vm_compute; reflexivity.
Qed.

Lemma alter_replicate (f : Z -> Z) (n i : nat) (x : Z) :
  (i < n)%nat ->
  alter f i (replicate n x) = replicate i x ++ f x :: replicate (n - 1 - i) x.
Proof.
  intros Hi. replace n with (i + S (n - 1 - i))%nat at 1 by lia.
  rewrite replicate_add. cbn [replicate].
  rewrite alter_app_r_alt by (rewrite length_replicate; lia).
  rewrite length_replicate, Nat.sub_diag. reflexivity.
Qed.

(** The register a single one bit leaves: it sits alone in the register
    for the rest of the message. *)
Lemma crc_register_spec_unit (n i : nat) (j : Z) :
  (i < n)%nat -> 0 <= j < 8 ->
  crc_register_spec (alter (fun x => Z.lxor x (2 ^ j)) i (replicate n 0)) =
  zero_steps (Z.to_nat (7 - j) + 8 * (n - 1 - i)) unit_register.
Proof.
  intros Hi Hj. rewrite alter_replicate by exact Hi. rewrite Z.lxor_0_l.
  pose proof (crc_register_spec_zeros i) as Hz.
  unfold crc_register_spec in *. rewrite bind_app, bind_cons, !fold_left_app, Hz.
  rewrite fold_unit_byte by exact Hj. rewrite fold_zero_bytes, <- zero_steps_add.
  reflexivity.
Qed.

Lemma flip_bit_xor_bytes (a e : list Z) (i j : Z) :
  flip_bit i j (xor_bytes a e) = xor_bytes a (flip_bit i j e).
Proof.
  unfold flip_bit, xor_bytes. generalize (Z.to_nat i) as k. revert e.
  induction a as [|x a IH]; intros [|y e] k; try reflexivity.
  destruct k as [|k]; cbn [zip_with alter list_alter].
  - rewrite Z.lxor_assoc. reflexivity.
  - f_equal. apply IH.
Qed.

Lemma xor_bytes_zeros (a : list Z) : xor_bytes a (replicate (length a) 0) = a.
Proof.
  unfold xor_bytes. induction a as [|x a IH]; [reflexivity|].
  cbn [length replicate zip_with]. rewrite Z.lxor_0_r, IH. reflexivity.
Qed.

Lemma lxor_move (a b c d : Z) : Z.lxor a b = Z.lxor c d -> Z.lxor d b = Z.lxor c a.
Proof.
  intros H. apply Z.bits_inj'. intros n _.
  apply (f_equal (fun x => Z.testbit x n)) in H. rewrite !Z.lxor_spec in *.
  destruct (Z.testbit a n), (Z.testbit b n), (Z.testbit c n), (Z.testbit d n);
    simpl in *; congruence.
Qed.

(** The bytes [checkCrc] compares, for a buffer of zeros with one bit
    set. *)
Lemma unit_error_syndrome (N : nat) (count i j : Z) :
  2 <= count < 256 -> count <= Z.of_nat N -> 0 <= i < count -> 0 <= j < 8 ->
  exists lo hi,
    rd (flip_bit i j (replicate N 0)) (count - 2) = Some lo /\
    rd (flip_bit i j (replicate N 0)) (count - 1) = Some hi /\
    Z.lxor (fst (crc_spec (take (Z.to_nat (count - 2)) (flip_bit i j (replicate N 0))))) lo =
      syndrome count i j mod 256 /\
    Z.lxor (snd (crc_spec (take (Z.to_nat (count - 2)) (flip_bit i j (replicate N 0))))) hi =
      syndrome count i j / 256.
Proof.
  intros Hc HN Hi Hj. unfold flip_bit, syndrome, crc_spec. cbn [fst snd].
  assert (Hp : 0 < 2 ^ j < 256).
  { split; [apply Z.pow_pos_nonneg; lia|]. change 256 with (2 ^ 8).
    apply Z.pow_lt_mono_r; lia. }
  assert (Hrd : forall m, 0 <= m < count ->
            rd (alter (fun x => Z.lxor x (2 ^ j)) (Z.to_nat i) (replicate N 0)) m =
            Some (if i =? m then 2 ^ j else 0)).
  { intros m Hm. unfold rd. destruct (Z.leb_spec 0 m); [|lia].
    destruct (Z.eqb_spec i m) as [->|Hne].
    - rewrite list_lookup_alter_eq, lookup_replicate_2 by lia. reflexivity.
    - rewrite list_lookup_alter_ne by lia. apply lookup_replicate_2. lia. }
  rewrite !Hrd by lia. do 2 eexists. split; [reflexivity|]. split; [reflexivity|].
  destruct (Z.ltb_spec i (count - 2)).
  - destruct (Z.eqb_spec i (count - 2)); [lia|]. destruct (Z.eqb_spec i (count - 1)); [lia|].
    rewrite take_alter_lt, take_replicate by lia.
    replace (Z.to_nat (count - 2) `min` N)%nat with (Z.to_nat (count - 2)) by lia.
    rewrite crc_register_spec_unit by lia. rewrite !Z.lxor_0_r.
    replace (Z.to_nat (7 - j) + 8 * (Z.to_nat (count - 2) - 1 - Z.to_nat i))%nat
      with (Z.to_nat (8 * (count - 3 - i) + (7 - j))) by lia.
    split; reflexivity.
  - rewrite take_alter_ge, take_replicate, crc_register_spec_zeros by lia.
    change (0 mod 256) with 0. change (0 / 256) with 0. rewrite !Z.lxor_0_l.
    destruct (Z.eqb_spec i (count - 2)).
    + destruct (Z.eqb_spec i (count - 1)); [lia|].
      rewrite Z.mod_small, Z.div_small by lia. split; reflexivity.
    + destruct (Z.eqb_spec i (count - 1)); [|lia].
      rewrite Z.pow_add_r by lia. change (2 ^ 8) with 256.
      rewrite (Z.mul_comm 256), Z_mod_mult, Z.div_mul by lia. split; reflexivity.
Qed.

(** X18.  A response that passes [checkCrc] no longer passes it once any
    two different bits among its [countGlobal] bytes are flipped, wherever
    they lie: both in the bytes the checksum covers, both in the two checksum
    bytes, or one in each. *)
Theorem checkCrc_detects_two_bit_flips
        (debug : bool) (s s1 : ATECCX08A) (i1 j1 i2 j2 : Z) :
  0 <= countGlobal s < 256 ->
  checkCrc debug s = Ok (true, s1) ->
  0 <= i1 < countGlobal s -> 0 <= j1 < 8 ->
  0 <= i2 < countGlobal s -> 0 <= j2 < 8 ->
  (i1, j1) <> (i2, j2) ->
  exists s2,
    checkCrc debug
      (set_inputBuffer (flip_bit i1 j1 (flip_bit i2 j2 (inputBuffer s))) s) = Ok (false, s2).
Proof.
  intros Hcg Hpass Hi1 Hj1 Hi2 Hj2 Hne.
  destruct (checkCrc_true_inv debug s s1 Hcg Hpass) as [H2 Hbuf].
  set (N := length (inputBuffer s)) in *.
  set (u1 := flip_bit i1 j1 (replicate N 0)).
  set (u2 := flip_bit i2 j2 (replicate N 0)).
  assert (Hl1 : length u1 = N)
    by (subst u1; unfold flip_bit; rewrite length_alter, length_replicate; reflexivity).
  assert (Hl2 : length u2 = N)
    by (subst u2; unfold flip_bit; rewrite length_alter, length_replicate; reflexivity).
  assert (Hflip : flip_bit i1 j1 (flip_bit i2 j2 (inputBuffer s)) =
                  xor_bytes (inputBuffer s) (xor_bytes u2 u1)).
  { rewrite <- (xor_bytes_zeros (inputBuffer s)) at 1. fold N.
    rewrite !flip_bit_xor_bytes. fold u2. f_equal.
    rewrite <- (xor_bytes_zeros u2) at 1. rewrite Hl2, flip_bit_xor_bytes. reflexivity. }
  rewrite Hflip.
  destruct (checkCrc_xor debug s s1 (xor_bytes u2 u1) Hcg) as (b & be & s2 & s3 & Hb & Hbe & ->);
    [unfold xor_bytes; rewrite length_zip_with; lia | exact Hpass |].
  exists s2. rewrite Hb. do 2 f_equal.
  destruct (unit_error_syndrome N (countGlobal s) i1 j1) as (l1 & h1 & Hlo1 & Hhi1 & Hf1 & Hs1);
    try lia.
  destruct (unit_error_syndrome N (countGlobal s) i2 j2) as (l2 & h2 & Hlo2 & Hhi2 & Hf2 & Hs2);
    try lia.
  fold u1 in Hlo1, Hhi1, Hf1, Hs1. fold u2 in Hlo2, Hhi2, Hf2, Hs2.
  set (n := Z.to_nat (countGlobal s - 2)) in *.
  set (c1 := crc_spec (take n u1)) in *. set (c2 := crc_spec (take n u2)) in *.
  destruct (checkCrc_eq debug (set_inputBuffer (xor_bytes u2 u1) s)
              (Z.lxor l2 l1) (Z.lxor h2 h1)) as (evs & He & _);
    [exact (conj H2 (proj2 Hcg)) | apply rd_xor_bytes; assumption..|].
  rewrite He in Hbe. injection Hbe as Hbe _. rewrite <- Hbe. clear He Hbe Hb.
  change (inputBuffer (set_inputBuffer (xor_bytes u2 u1) s)) with (xor_bytes u2 u1).
  change (countGlobal (set_inputBuffer (xor_bytes u2 u1) s)) with (countGlobal s).
  fold n. set (e := take n (xor_bytes u2 u1)).
  change (crc_register_spec e / 256) with (snd (crc_spec e)).
  change (crc_register_spec e mod 256) with (fst (crc_spec e)).
  subst e. unfold xor_bytes. rewrite zip_with_take.
  fold (xor_bytes (take n u2) (take n u1)).
  rewrite crc_spec_xor by (rewrite !length_take; lia). fold c1 c2.
  change (fst (Z.lxor (fst c2) (fst c1), Z.lxor (snd c2) (snd c1)))
    with (Z.lxor (fst c2) (fst c1)).
  change (snd (Z.lxor (fst c2) (fst c1), Z.lxor (snd c2) (snd c1)))
    with (Z.lxor (snd c2) (snd c1)).
  destruct ((Z.lxor h2 h1 =? Z.lxor (snd c2) (snd c1)) &&
            (Z.lxor l2 l1 =? Z.lxor (fst c2) (fst c1))) eqn:E; [exfalso|reflexivity].
  apply andb_true_iff in E as [E1 E0]. apply Z.eqb_eq in E1, E0.
  apply lxor_move in E1, E0.
  apply Hne. destruct (syndrome_inj (countGlobal s) i1 j1 i2 j2) as [-> ->];
    try assumption; try lia; [|reflexivity].
  rewrite (Z.div_mod (syndrome (countGlobal s) i1 j1) 256),
          (Z.div_mod (syndrome (countGlobal s) i2 j2) 256) by lia.
  rewrite <- Hs1, <- Hf1, <- Hs2, <- Hf2, E1, E0. reflexivity.
Qed.

(** ** The debug flag *)

Lemma reception_spec (consumed : list (list Z)) :
  forall (reqs : list Z) (rest : list (list Z)) (len : Z),
    length reqs = length consumed ->
    requests_ok len reqs (chunks_of reqs consumed) ->
    requests (consumed ++ rest) len = reqs /\
    received (consumed ++ rest) len = concat (chunks_of reqs consumed) /\
    delivers (consumed ++ rest) len = true.
Proof.
  induction consumed as [|a consumed IH]; intros [|q reqs] rest len Hl; try discriminate;
    cbn [chunks_of zip_with requests_ok].
  - intros ->. destruct rest; repeat split; reflexivity.
  - intros (Hne & Hq & _ & Hok). cbn [app requests received delivers concat].
    destruct (Z.eqb_spec len 0); [lia|]. cbv zeta. rewrite <- Hq.
    destruct (IH reqs rest _ ltac:(cbn [length] in Hl; lia) Hok) as (-> & -> & ->).
    repeat split; reflexivity.
Qed.

Lemma bus_events_app (e1 e2 : list event) :
  bus_events (e1 ++ e2) = bus_events e1 ++ bus_events e2.
Proof. apply List.filter_app. Qed.

Lemma bus_events_serial (evs : list event) : serial_only evs -> bus_events evs = [].
Proof.
  induction 1 as [|e evs He _ IH]; [reflexivity|].
  unfold bus_events in *. cbn [List.filter]. rewrite He. exact IH.
Qed.

Lemma bus_events_requests (addr : Z) (reqs : list Z) :
  bus_events (RequestFrom addr <$> reqs) = RequestFrom addr <$> reqs.
Proof.
  induction reqs as [|q reqs IH]; [reflexivity|].
  unfold bus_events in *. cbn [fmap list_fmap List.filter is_serial negb]. f_equal. exact IH.
Qed.

(** The fetch as a function of the slave's script. *)
Lemma updateRandom32Bytes_with_fun (k : M bool) (debug : bool) (s s' : ATECCX08A) (b : bool) :
  (32 <= length (random32Bytes s))%nat ->
  updateRandom32Bytes_with k debug s = Ok (b, s') ->
  let script := answers_left (slave s) 4 in
  let response := u8 <$> received script 35 in
  delivers (slave s) 4 = true /\ delivers script 35 = true /\
  35 <= Z.of_nat (length (inputBuffer s)) /\
  b = fetch_ok response /\
  inputBuffer s' = response ++ replicate (length (inputBuffer s) - 35) 0 /\
  countGlobal s' = 35 /\
  random32Bytes s' =
    (if b then take 32 (drop 1 response) ++ drop 32 (random32Bytes s)
     else random32Bytes s) /\
  slave s' = answers_left script 35 /\
  _i2caddr s' = _i2caddr s /\
  bus_events (trace s') =
    bus_events (trace s) ++
    [BeginTransmission 0; EndTransmission; DelayMicroseconds 1500] ++
    (RequestFrom (_i2caddr s) <$> requests (slave s) 4) ++
    [BeginTransmission (_i2caddr s); WireWrite random_packet; EndTransmission; Delay 23] ++
    (RequestFrom (_i2caddr s) <$> requests script 35) ++
    [BeginTransmission (_i2caddr s); WireWrite [WORD_ADDRESS_VALUE_IDLE]; EndTransmission].
Proof.
  intros Hrnd Hrun script response. pose proof Hrun as Hrun0. revert Hrun0.
  rewrite updateRandom32Bytes_with_unfold. unfold bind at 1.
  set (sa := set_crc _ s).
  destruct (wakeUp sa) as [[w sb]| |] eqn:Hwake; try discriminate.
  mgo. unfold bind at 1.
  destruct (receiveResponseData 35 debug _) as [[r s1]| |] eqn:Hrecv; try discriminate.
  intros _.
  pose proof (receiveResponseData_true _ _ _ _ _ Hrecv) as ->.
  destruct (updateRandom32Bytes_with_run k debug w s sb s1 Hrnd Hwake Hrecv)
    as (b' & s'' & checks & Hrun' & Hbuf & Hcg & Hsl & Haddr & Hb' & Hrb & Htr & Hser).
  rewrite Hrun in Hrun'. injection Hrun' as <- <-.
  apply wakeUp_with_inv in Hwake.
  destruct Hwake as (wreqs & woken & a0 & a1 & a2 & a3 & wevs & Hwsc & Hwok & Hwl & _ & Hwb &
                     _ & Hwt & Hws & _ & Hwf & Hw4).
  subst sa; unfold frame in Hwf; fields. destruct Hwf as [Hwa Hwr].
  apply receiveResponseData_inv in Hrecv; [|lia].
  destruct Hrecv as (_ & reqs & consumed & prints & Hsc & Hok & Hlr & Ht & Hps & _ &
                     Hc & Hbnd & Hb & _ & Hf).
  unfold frame in Hf; fields. destruct Hf as [Ha Hr].
  assert (Hlen : length (inputBuffer sb) = length (inputBuffer s))
    by (rewrite Hwb, length_app, length_replicate; cbn [length]; lia).
  rewrite Hlen in *.
  destruct (reception_spec woken wreqs (slave sb) 4 Hwl Hwok) as (Hq4 & _ & Hd4).
  rewrite <- Hwsc in Hq4, Hd4.
  assert (Hleft : slave sb = script)
    by (subst script; rewrite Hwsc; symmetry; apply (answers_left_spec woken wreqs); assumption).
  destruct (reception_spec consumed reqs (slave s1) 35 Hlr Hok) as (Hq35 & Hr35 & Hd35).
  rewrite <- Hsc, Hleft in Hq35, Hr35, Hd35.
  assert (Hresp : u8 <$> concat (chunks_of reqs consumed) = response)
    by (subst response; rewrite Hr35; reflexivity).
  rewrite Hresp in Hb.
  assert (Hl35 : length response = 35%nat)
    by (rewrite <- Hresp, length_fmap; apply requests_ok_total in Hok; lia).
  assert (Ht35 : take 35 (inputBuffer s1) = response)
    by (rewrite Hb; apply take_app_length'; lia).
  assert (Hd : take 32 (drop 1 (inputBuffer s1)) = take 32 (drop 1 response)).
  { rewrite Hb, drop_app_le, take_app_le by (rewrite ?length_drop; lia). reflexivity. }
  rewrite Ht35 in Hb'. rewrite Hd in Hrb.
  repeat split; try assumption; try congruence.
  - rewrite Hbuf, Hb. reflexivity.
  - rewrite Hsl, <- Hleft, Hsc. symmetry.
    apply (answers_left_spec consumed reqs); assumption.
  - rewrite Htr, Ht, Hwt, Ha, Hwa. fields.
    rewrite !bus_events_app, !bus_events_requests, Hq4, Hq35.
    rewrite (bus_events_serial wevs), (bus_events_serial prints), (bus_events_serial checks)
      by assumption.
    rewrite !app_nil_r, <- !app_assoc. reflexivity.
Qed.

(** X19.  The debug flag only adds console output.  A fetch that returns
    with the flag one way returns the same value with the flag the other
    way, and leaves the same buffers, counter, slave script and bus address,
    after the same calls on the bus and the same delays; the three accessors
    return the same number. *)
Theorem debug_only_adds_console_output (debug debug' : bool) (s s1 : ATECCX08A) (b : bool) :
  (32 <= length (random32Bytes s))%nat ->
  updateRandom32Bytes debug s = Ok (b, s1) ->
  exists s2,
    updateRandom32Bytes debug' s = Ok (b, s2) /\
    inputBuffer s2 = inputBuffer s1 /\ random32Bytes s2 = random32Bytes s1 /\
    countGlobal s2 = countGlobal s1 /\ slave s2 = slave s1 /\ _i2caddr s2 = _i2caddr s1 /\
    bus_events (trace s2) = bus_events (trace s1) /\
    (forall v t1, getRandomByte debug s = Ok (v, t1) ->
       exists t2, getRandomByte debug' s = Ok (v, t2)) /\
    (forall v t1, getRandomInt debug s = Ok (v, t1) ->
       exists t2, getRandomInt debug' s = Ok (v, t2)) /\
    (forall v t1, getRandomLong debug s = Ok (v, t1) ->
       exists t2, getRandomLong debug' s = Ok (v, t2)).
Proof.
  intros Hrnd Hrun.
  pose proof (updateRandom32Bytes_with_fun _ _ _ _ _ Hrnd Hrun)
    as (Hd4 & Hd35 & Hbuf & Hb & Hib & Hcg & Hr & Hsl & Ha & Ht).
  destruct (updateRandom32Bytes_with_ok (ret false) debug' s Hbuf Hrnd Hd4 Hd35)
    as (b2 & s2 & Hrun2).
  pose proof (updateRandom32Bytes_with_fun _ _ _ _ _ Hrnd Hrun2)
    as (_ & _ & _ & Hb2 & Hib2 & Hcg2 & Hr2 & Hsl2 & Ha2 & Ht2).
  assert (Hbb : b2 = b) by (transitivity (fetch_ok
            (u8 <$> received (answers_left (slave s) 4) 35)); [exact Hb2 | symmetry; exact Hb]).
  rewrite Hbb in Hrun2, Hr2.
  assert (Hrr : random32Bytes s2 = random32Bytes s1)
    by (etransitivity; [exact Hr2 | symmetry; exact Hr]).
  exists s2. split; [exact Hrun2|].
  split; [etransitivity; [exact Hib2 | symmetry; exact Hib]|].
  split; [exact Hrr|].
  split; [etransitivity; [exact Hcg2 | symmetry; exact Hcg]|].
  split; [etransitivity; [exact Hsl2 | symmetry; exact Hsl]|].
  split; [etransitivity; [exact Ha2 | symmetry; exact Ha]|].
  split; [etransitivity; [exact Ht2 | symmetry; exact Ht]|].
  split; [|split].
  - intros v t1. unfold getRandomByte.
    rewrite (bind_Ok _ _ _ _ _ Hrun), (bind_Ok _ _ _ _ _ Hrun2). mgo. rewrite Hrr.
    destruct (rd (random32Bytes s1) 0); [|discriminate].
    intros [= <- _]. eexists. reflexivity.
  - intros v t1. unfold getRandomInt.
    rewrite (bind_Ok _ _ _ _ _ Hrun), (bind_Ok _ _ _ _ _ Hrun2). mgo. rewrite Hrr.
    destruct (rd (random32Bytes s1) 0); mgo; [|discriminate].
    destruct (rd (random32Bytes s1) 1); mgo; [|discriminate].
    intros [= <- _]. eexists. reflexivity.
  - intros v t1. unfold getRandomLong.
    rewrite (bind_Ok _ _ _ _ _ Hrun), (bind_Ok _ _ _ _ _ Hrun2). mgo. rewrite Hrr.
    destruct (rd (random32Bytes s1) 0); mgo; [|discriminate].
    destruct (rd (random32Bytes s1) 1); mgo; [|discriminate].
    destruct (rd (random32Bytes s1) 2); mgo; [|discriminate].
    destruct (rd (random32Bytes s1) 3); mgo; [|discriminate].
    intros [= <- _]. eexists. reflexivity.
Qed.

End Header.

(** * The theorems at work on the sample objects *)

(** The checksum of the Info command, 0x03 0x5D. *)
Lemma atca_calculate_crc_refines_spec_witness :
  (0 <= 5 <= 255 /\ 5 <= Z.of_nat (length [0x07; 0x30; 0x00; 0x00; 0x00])) /\
  atca_calculate_crc 5 [0x07; 0x30; 0x00; 0x00; 0x00] (sample_object []) =
  Ok (tt, set_crc (0x03, 0x5D) (sample_object [])).
Proof.
  assert (H : 0 <= 5 <= 255 /\ 5 <= Z.of_nat (length [0x07; 0x30; 0x00; 0x00; 0x00]))
    by (cbn; lia).
  split; [exact H|].
  exact (atca_calculate_crc_refines_spec 5 [0x07; 0x30; 0x00; 0x00; 0x00] (sample_object [])
           (proj1 H) (proj2 H)).
Defined.

Lemma checkCrc_round_trip_witness :
  exists s1,
    atca_calculate_crc 5 [0x07; 0x30; 0x00; 0x00; 0x00] (sample_object []) = Ok (tt, s1) /\
    exists s2,
      checkCrc false
        (set_countGlobal 7
           (set_inputBuffer ([0x07; 0x30; 0x00; 0x00; 0x00] ++ [fst (crc s1); snd (crc s1)] ++
                             replicate 121 0) s1)) = Ok (true, s2).
Proof.
  apply (checkCrc_round_trip false [0x07; 0x30; 0x00; 0x00; 0x00] (replicate 121 0)
           (sample_object [])).
  cbn. lia.
Defined.

(** Bit 4 of the status byte of the acknowledgement flipped. *)
Lemma checkCrc_detects_bit_flip_witness :
  exists s2,
    checkCrc false
      (set_inputBuffer (flip_bit 1 4 (inputBuffer acknowledged_object)) acknowledged_object) =
    Ok (false, s2).
Proof.
  apply (checkCrc_detects_bit_flip false acknowledged_object
           (state_after (checkCrc false acknowledged_object) acknowledged_object) 1 4).
  - cbn. lia.
  - vm_compute. reflexivity.
  - cbn. lia.
  - lia.
Defined.

(** The acknowledgement 0x04 0x11 0x33 0x43 wakes the driver. *)
Lemma wakeUp_acknowledgement_witness :
  exists s', wakeUp (sample_object [wake_ack]) = Ok (true, s').
Proof.
  destruct (wakeUp_acknowledgement (sample_object [wake_ack]))
    as (b & s' & a0 & a1 & a2 & a3 & reqs & consumed & evs & Hrun & _ & _ & _ & _ &
        _ & _ & _ & _ & _ & Hgood & _).
  - cbn. lia.
  - vm_compute. reflexivity.
  - exists s'. rewrite Hrun, (Hgood [] eq_refl). reflexivity.
Defined.

(** The acknowledgement as the comments of the source spell it, with 0x44
    for its last byte, does not pass the checksum check. *)
Lemma wakeUp_rejects_33_44 :
  exists s', wakeUp (sample_object [[0x04; 0x11; 0x33; 0x44]]) = Ok (false, s').
Proof. eexists. vm_compute. reflexivity. Qed.

Lemma checkCount_iff_witness :
  exists evs, checkCount false acknowledged_object = Ok (true, emits evs acknowledged_object).
Proof.
  destruct (checkCount_iff false acknowledged_object 4 eq_refl)
    as (b & evs & Hrun & _ & _ & Htrue).
  exists evs. rewrite Hrun. f_equal. f_equal. apply Htrue. reflexivity.
Defined.

Lemma checkCrc_iff_witness :
  exists s', checkCrc false acknowledged_object = Ok (true, s').
Proof.
  destruct (checkCrc_iff false acknowledged_object 0x33 0x43)
    as (b & s' & s1 & Hrun & Hcrc & _ & _ & _ & Htrue).
  - cbn. lia.
  - reflexivity.
  - reflexivity.
  - exists s'. rewrite Hrun. f_equal. f_equal. apply Htrue.
    revert Hcrc. vm_compute. intros [= <-]. auto.
Defined.

(** A 35-byte response arrives in a read of 32 bytes and one of 3. *)
Lemma receiveResponseData_chunked_witness :
  exists s',
    receiveResponseData 35 false
      (sample_object [take 32 sample_random_response; drop 32 sample_random_response]) =
    Ok (true, s') /\
    take 35 (inputBuffer s') = sample_random_response /\
    trace s' = [RequestFrom 0x60 32; RequestFrom 0x60 3].
Proof.
  set (s := sample_object [take 32 sample_random_response; drop 32 sample_random_response]).
  destruct (receiveResponseData_chunked 35 false s ltac:(lia)) as [Hok _].
  destruct Hok as [s' Hrun]; [cbn; lia | vm_compute; reflexivity |].
  exists s'. split; [exact Hrun|].
  revert Hrun. vm_compute. intros [= <-]. auto.
Defined.

Lemma receiveResponseData_never_false_witness :
  receiveResponseData 4 false (sample_object [wake_ack]) =
  Ok (true, state_after (receiveResponseData 4 false (sample_object [wake_ack]))
                        (sample_object [wake_ack])) /\
  wakeUp_with (fun _ => Hang) (sample_object [wake_ack]) = wakeUp (sample_object [wake_ack]).
Proof.
  destruct (receiveResponseData_never_false 0x03 0x02 0x30 0x1B) as (Htrue & Hwake & _ & _).
  split; [|apply Hwake].
  destruct (receiveResponseData 4 false (sample_object [wake_ack])) as [[r s']| |] eqn:Hrun.
  - rewrite (Htrue _ _ _ _ _ Hrun). reflexivity.
  - revert Hrun. vm_compute. discriminate.
  - revert Hrun. vm_compute. discriminate.
Defined.

Lemma Forall_is_byte_zeros (n : nat) : Forall is_byte (replicate n 0).
Proof. apply Forall_replicate. unfold is_byte. lia. Qed.

(** A fetch of DE AD BE EF ... on a target with a 16-bit [int] and a 32-bit
    [long]. *)
Lemma random_fetch_and_accessors_witness :
  random32Bytes
    (state_after (updateRandom32Bytes 0x03 0x02 0x1B false
                    (fetching_object sample_random_response))
                 (fetching_object sample_random_response)) = sample_random_data /\
  getRandomByte 0x03 0x02 0x1B false (fetching_object sample_random_response) =
  Ok (0xDE, state_after (updateRandom32Bytes 0x03 0x02 0x1B false
                           (fetching_object sample_random_response))
                        (fetching_object sample_random_response)) /\
  getRandomInt 0x03 0x02 0x1B 16 false (fetching_object sample_random_response) =
  Ok (0xDEAD - 2 ^ 16,
      state_after (updateRandom32Bytes 0x03 0x02 0x1B false
                     (fetching_object sample_random_response))
                  (fetching_object sample_random_response)) /\
  getRandomLong 0x03 0x02 0x1B 32 false (fetching_object sample_random_response) =
  Ok (0xDEADBEEF - 2 ^ 32,
      state_after (updateRandom32Bytes 0x03 0x02 0x1B false
                     (fetching_object sample_random_response))
                  (fetching_object sample_random_response)).
Proof.
  set (s := fetching_object sample_random_response).
  set (s1 := state_after _ s).
  destruct (random_fetch_and_accessors 0x03 0x02 0x1B 16 32 false s) as [_ Hacc].
  - reflexivity.
  - apply Forall_is_byte_zeros.
  - lia.
  - lia.
  - destruct (Hacc true s1)
      as (_ & _ & b0 & b1 & b2 & b3 & v & w & Ht & HB & HI & -> & _ & HL & -> & _).
    + vm_compute. reflexivity.
    + assert (Hs1 : take 4 (random32Bytes s1) = [0xDE; 0xAD; 0xBE; 0xEF])
        by (vm_compute; reflexivity).
      rewrite Hs1 in Ht. injection Ht as <- <- <- <-.
      split; [vm_compute; reflexivity|].
      split; [exact HB|]. split; [exact HI | exact HL].
Defined.

(** A response with one bit flipped: the fetch fails and the accessors
    answer from the buffer of zeros. *)
Lemma accessors_after_failed_fetch_witness :
  updateRandom32Bytes 0x03 0x02 0x1B false
    (fetching_object (flip_bit 5 0 sample_random_response)) =
  Ok (false, state_after (updateRandom32Bytes 0x03 0x02 0x1B false
                            (fetching_object (flip_bit 5 0 sample_random_response)))
                         (fetching_object (flip_bit 5 0 sample_random_response))) /\
  getRandomByte 0x03 0x02 0x1B false
    (fetching_object (flip_bit 5 0 sample_random_response)) =
  Ok (0, state_after (updateRandom32Bytes 0x03 0x02 0x1B false
                        (fetching_object (flip_bit 5 0 sample_random_response)))
                     (fetching_object (flip_bit 5 0 sample_random_response))) /\
  getRandomInt 0x03 0x02 0x1B 16 false
    (fetching_object (flip_bit 5 0 sample_random_response)) =
  Ok (0, state_after (updateRandom32Bytes 0x03 0x02 0x1B false
                        (fetching_object (flip_bit 5 0 sample_random_response)))
                     (fetching_object (flip_bit 5 0 sample_random_response))) /\
  getRandomLong 0x03 0x02 0x1B 32 false
    (fetching_object (flip_bit 5 0 sample_random_response)) =
  Ok (0, state_after (updateRandom32Bytes 0x03 0x02 0x1B false
                        (fetching_object (flip_bit 5 0 sample_random_response)))
                     (fetching_object (flip_bit 5 0 sample_random_response))).
Proof.
  set (s := fetching_object (flip_bit 5 0 sample_random_response)).
  set (s1 := state_after _ s).
  assert (Hrun : updateRandom32Bytes 0x03 0x02 0x1B false s = Ok (false, s1))
    by (vm_compute; reflexivity).
  destruct (accessors_after_failed_fetch 0x03 0x02 0x1B 16 32 false s s1)
    as (_ & _ & b0 & b1 & b2 & b3 & _ & HB & HI & HL & Hz).
  - reflexivity.
  - apply Forall_is_byte_zeros.
  - lia.
  - lia.
  - exact Hrun.
  - destruct (Hz eq_refl) as (E0 & E1 & E2).
    rewrite E0 in HB. rewrite E1 in HI. rewrite E2 in HL. auto.
Defined.

(** * The further properties at work *)

(** Stale contents of the buffer and a stale counter do not reach the
    reception. *)
Lemma receiveResponseData_forgets_previous_witness :
  receiveResponseData 4 false
    (set_countGlobal 9 (set_inputBuffer (replicate 128 0xFF) (sample_object [wake_ack]))) =
  receiveResponseData 4 false (sample_object [wake_ack]).
Proof.
  apply (receiveResponseData_forgets_previous 4 false (sample_object [wake_ack])
           (replicate 128 0xFF) 9).
  reflexivity.
Defined.


(** A slave that hands over two of the four bytes and then falls silent. *)
Lemma receiveResponseData_slave_stops_witness :
  receiveResponseData 4 false (sample_object [[0x04; 0x11]]) = Hang.
Proof.
  apply (receiveResponseData_slave_stops 4 false (sample_object [[0x04; 0x11]])).
  - lia.
  - cbn. lia.
  - vm_compute. reflexivity.
Defined.

(** A 35-byte response into a buffer of 16 bytes. *)
Lemma receiveResponseData_overruns_buffer_witness :
  receiveResponseData 35 false
    (short_buffer_object [take 32 sample_random_response; drop 32 sample_random_response]) =
  OutOfBounds.
Proof.
  apply (receiveResponseData_overruns_buffer 35 false
           (short_buffer_object [take 32 sample_random_response;
                                 drop 32 sample_random_response])).
  - lia.
  - cbn. lia.
  - vm_compute. reflexivity.
Defined.

(** 35 bytes from a slave with 40 bytes in each answer: a read of 32 and a
    read of 3. *)
Lemma receiveResponseData_full_answers_witness :
  exists prints,
    trace (state_after (receiveResponseData 35 false
                          (sample_object [replicate 40 1; replicate 40 2]))
                       (sample_object [replicate 40 1; replicate 40 2])) =
    [] ++ (RequestFrom 0x60 <$> [32; 3]) ++ prints.
Proof.
  set (s := sample_object [replicate 40 1; replicate 40 2]).
  set (s' := state_after _ s).
  destruct (receiveResponseData_full_answers 35 false s s' true) as (prints & Ht & _).
  - lia.
  - repeat constructor; cbn; lia.
  - vm_compute. reflexivity.
  - exists prints. exact Ht.
Defined.

Lemma atca_calculate_crc_reads_past_data_witness :
  atca_calculate_crc 5 [0x07; 0x30; 0x00] (sample_object []) = OutOfBounds.
Proof.
  apply (atca_calculate_crc_reads_past_data 5 [0x07; 0x30; 0x00] (sample_object [])).
  cbn. lia.
Defined.


(** Four zero bytes taken for a response. *)
Lemma checkCrc_accepts_zeros_witness :
  (exists s', checkCrc false (set_countGlobal 4 (sample_object [])) = Ok (true, s')) /\
  (exists s', checkCount false (set_countGlobal 4 (sample_object [])) = Ok (false, s')).
Proof.
  apply (checkCrc_accepts_zeros false (set_countGlobal 4 (sample_object []))).
  - cbn. lia.
  - reflexivity.
Defined.

(** The Info command answered by 07 00 00 50 00 and its checksum. *)
Lemma getInfo_response_witness :
  exists s',
    getInfo 0x03 0x02 0x30 (sample_object [wake_ack; sample_info_response]) = Ok (true, s') /\
    random32Bytes s' = replicate 32 0.
Proof.
  set (s := sample_object [wake_ack; sample_info_response]).
  destruct (getInfo_response 0x03 0x02 0x30 s) as [_ Hchar].
  destruct (Hchar true (state_after (getInfo 0x03 0x02 0x30 s) s))
    as (woken & consumed & wreqs & reqs & r0 & r1 & r2 & r3 & r4 & r5 & r6 & wevs & prints &
        checks & _ & _ & _ & _ & Hrnd & _).
  - vm_compute. reflexivity.
  - eexists. split; [vm_compute; reflexivity | exact Hrnd].
Defined.

(** No chip on the bus. *)
Lemma unanswered_wakeUp_never_returns_witness :
  begin 0x60 (sample_object []) = Hang /\
  getInfo 0x03 0x02 0x30 (sample_object []) = Hang /\
  getRandomByte 0x03 0x02 0x1B false (sample_object []) = Hang.
Proof.
  destruct (unanswered_wakeUp_never_returns 0x03 0x02 0x30 0x1B 16 32 0x60 false
              (sample_object [])) as (Hb & _ & Hi & _ & Hr & _).
  - cbn. lia.
  - reflexivity.
  - auto.
Defined.

(** A chip that wakes up and then stays silent. *)
Lemma unanswered_command_never_returns_witness :
  getInfo 0x03 0x02 0x30 (sample_object [wake_ack]) = Hang /\
  updateRandom32Bytes 0x03 0x02 0x1B false (sample_object [wake_ack]) = Hang.
Proof.
  destruct (unanswered_command_never_returns 0x03 0x02 0x30 0x1B 16 32 false
              (sample_object [wake_ack])) as [Hi Hu].
  - reflexivity.
  - split.
    + apply Hi; [cbn; lia | reflexivity].
    + apply Hu; [cbn; lia | reflexivity].
Defined.

Lemma begin_wakes_at_address_witness :
  exists b s', begin 0x35 (sample_object [wake_ack]) = Ok (b, s') /\ _i2caddr s' = 0x35.
Proof.
  destruct (begin_wakes_at_address 0x35 (sample_object [wake_ack]))
    as (b & s' & a0 & a1 & a2 & a3 & reqs & evs & Hrun & Ha & _).
  - cbn. lia.
  - reflexivity.
  - exists b, s'. split; assumption.
Defined.

(** A wake-up acknowledged by 04 11 33 44 fails, and the fetch that follows
    succeeds. *)
Lemma commands_ignore_wakeUp_result_witness :
  (exists sb, wakeUp (sample_object [[0x04; 0x11; 0x33; 0x44];
                                     take 32 sample_random_response;
                                     drop 32 sample_random_response]) = Ok (false, sb)) /\
  (exists s', updateRandom32Bytes 0x03 0x02 0x1B false
                (sample_object [[0x04; 0x11; 0x33; 0x44];
                                take 32 sample_random_response;
                                drop 32 sample_random_response]) = Ok (true, s')).
Proof.
  set (s := sample_object [[0x04; 0x11; 0x33; 0x44]; take 32 sample_random_response;
                           drop 32 sample_random_response]).
  destruct (commands_ignore_wakeUp_result 0x03 0x02 0x30 0x1B false s [0x04; 0x11; 0x33; 0x44]
              [take 32 sample_random_response; drop 32 sample_random_response])
    as ((a0 & a1 & a2 & a3 & sb & Hack & Hw) & _ & Hu).
  - reflexivity.
  - cbn. lia.
  - split.
    + exists sb. injection Hack as <- <- <- <-. apply Hw. cbn. lia.
    + destruct (Hu (take 32 sample_random_response) (drop 32 sample_random_response) [])
        as (s' & Hrun & _).
      * reflexivity.
      * cbn. lia.
      * cbn. lia.
      * cbn. lia.
      * reflexivity.
      * exists s'. exact Hrun.
Defined.

(** The bytes DE AD BE EF on a target with a 16-bit [int]. *)
Lemma accessors_range_witness :
  exists v s1,
    getRandomInt 0x03 0x02 0x1B 16 false (fetching_object sample_random_response) =
    Ok (v, s1) /\ v < 0.
Proof.
  set (s := fetching_object sample_random_response).
  set (s1 := state_after (updateRandom32Bytes 0x03 0x02 0x1B false s) s).
  destruct (accessors_range 0x03 0x02 0x1B 16 32 false true s s1)
    as (b0 & b1 & b2 & b3 & v & w & Ht & _ & _ & HI & H16 & _).
  - reflexivity.
  - apply Forall_is_byte_zeros.
  - lia.
  - lia.
  - vm_compute. reflexivity.
  - assert (Hs1 : take 4 (random32Bytes s1) = [0xDE; 0xAD; 0xBE; 0xEF])
      by (vm_compute; reflexivity).
    rewrite Hs1 in Ht. injection Ht as <- <- <- <-.
    exists v, s1. split; [exact HI|]. apply (H16 eq_refl). lia.
Defined.

Lemma atca_calculate_crc_xor_witness :
  exists ca cb : Z * Z,
    atca_calculate_crc 3 [0x07; 0x30; 0x00] (sample_object []) =
    Ok (tt, set_crc ca (sample_object [])) /\
    atca_calculate_crc 3 [0x23; 0x1B; 0xFF] (sample_object []) =
    Ok (tt, set_crc cb (sample_object [])) /\
    atca_calculate_crc 3 (xor_bytes [0x07; 0x30; 0x00] [0x23; 0x1B; 0xFF]) (sample_object []) =
    Ok (tt, set_crc (Z.lxor (fst ca) (fst cb), Z.lxor (snd ca) (snd cb)) (sample_object [])).
Proof.
  apply (atca_calculate_crc_xor 3 [0x07; 0x30; 0x00] [0x23; 0x1B; 0xFF] (sample_object []));
    cbn; lia.
Defined.

(** The acknowledgement with its status byte and a checksum byte
    disturbed. *)
Lemma checkCrc_error_pattern_witness :
  exists (b be : bool) (s2 s3 : ATECCX08A),
    checkCrc false
      (set_inputBuffer (xor_bytes (inputBuffer acknowledged_object)
                                  ([0x00; 0x10; 0x01; 0x00] ++ replicate 124 0))
                       acknowledged_object) = Ok (b, s2) /\
    checkCrc false
      (set_inputBuffer ([0x00; 0x10; 0x01; 0x00] ++ replicate 124 0) acknowledged_object) =
    Ok (be, s3) /\
    b = be.
Proof.
  apply (checkCrc_error_pattern false acknowledged_object
           (state_after (checkCrc false acknowledged_object) acknowledged_object)
           ([0x00; 0x10; 0x01; 0x00] ++ replicate 124 0)).
  - cbn. lia.
  - reflexivity.
  - vm_compute. reflexivity.
Defined.

(** Bit 4 of the status byte and bit 0 of the low checksum byte of the
    acknowledgement flipped together. *)
Lemma checkCrc_detects_two_bit_flips_witness :
  exists s2,
    checkCrc false
      (set_inputBuffer (flip_bit 1 4 (flip_bit 2 0 (inputBuffer acknowledged_object)))
                       acknowledged_object) = Ok (false, s2).
Proof.
  apply (checkCrc_detects_two_bit_flips false acknowledged_object
           (state_after (checkCrc false acknowledged_object) acknowledged_object) 1 4 2 0).
  - cbn. lia.
  - vm_compute. reflexivity.
  - cbn. lia.
  - lia.
  - cbn. lia.
  - lia.
  - discriminate.
Defined.

(** The fetch of DE AD BE EF ... with the debug output on and off. *)
Lemma debug_only_adds_console_output_witness :
  exists s2,
    updateRandom32Bytes 0x03 0x02 0x1B false (fetching_object sample_random_response) =
    Ok (true, s2) /\
    bus_events (trace s2) =
    bus_events (trace (state_after
                         (updateRandom32Bytes 0x03 0x02 0x1B true
                            (fetching_object sample_random_response))
                         (fetching_object sample_random_response))).
Proof.
  set (s := fetching_object sample_random_response).
  destruct (debug_only_adds_console_output 0x03 0x02 0x1B 16 32 true false s
              (state_after (updateRandom32Bytes 0x03 0x02 0x1B true s) s) true)
    as (s2 & Hrun & _ & _ & _ & _ & _ & Ht & _).
  - cbn. lia.
  - vm_compute. reflexivity.
  - exists s2. split; assumption.
Defined.
